(** * ManimEffects backend: the text glue of [main.py] and [server.py]

    The two FastAPI services forward a prompt to an LLM, cut fenced blocks
    out of the reply with [str.find] / slicing / [str.strip], resolve the
    scene class with one regular expression, and drive the [manim] command
    line tool.  This development embeds those handlers and states the
    properties of the specification against them.

    Python [str] values are sequences of Unicode code points; they are
    modelled as lists of code points ([N]).  Exceptions are explicit: every
    handler returns a [result], and so does every statement of a handler
    that can raise on text of a request or of a reply, [print] and
    [write_text] among them. *)

From Stdlib Require Import ZArith NArith String Ascii Lia Bool SpecFloat.
From stdpp Require Import base option list gmap pretty.

Local Open Scope Z_scope.

(** ** Python strings *)

Abbreviation text := (list N).

(** An ASCII literal of the source, read as its code points. *)
Definition py (s : string) : text :=
  (λ a, N_of_ascii a) <$> list_ascii_of_string s.

Definition NL : text := [10%N].

(** [str.isspace] for one character (CPython's [_PyUnicode_IsWhitespace]). *)
Definition isspace (c : N) : bool :=
  ((9 <=? c) && (c <=? 13) || (28 <=? c) && (c <=? 32)
   || (c =? 133) || (c =? 160) || (c =? 5760)
   || (8192 <=? c) && (c <=? 8202)
   || (c =? 8232) || (c =? 8233) || (c =? 8239) || (c =? 8287)
   || (c =? 12288))%N.

(** [s.startswith(sub)] *)
Fixpoint startswith (s sub : text) {struct sub} : bool :=
  match sub, s with
  | [], _ => true
  | _ :: _, [] => false
  | c :: sub', d :: s' => (c =? d)%N && startswith s' sub'
  end.

(** Offset of the leftmost occurrence of [sub] in [s]. *)
Fixpoint search (sub s : text) : option nat :=
  if startswith s sub then Some 0%nat
  else match s with
       | [] => None
       | _ :: s' => S <$> search sub s'
       end.

(** Python's normalisation of a slice bound or search start. *)
Definition clamp (len i : Z) : Z :=
  if i <? 0 then Z.max 0 (i + len) else Z.min i len.

(** [s.find(sub, start)]: lowest index at or after [start], or [-1]. *)
Definition find (s sub : text) (start : Z) : Z :=
  let len := Z.of_nat (length s) in
  let st := if start <? 0 then Z.max 0 (start + len) else start in
  if len <? st then -1
  else match search sub (drop (Z.to_nat st) s) with
       | Some k => st + Z.of_nat k
       | None => -1
       end.

(** [s[a:b]] and [s[a:]] *)
Definition slice (s : text) (a b : Z) : text :=
  let len := Z.of_nat (length s) in
  let a' := Z.to_nat (clamp len a) in
  let b' := Z.to_nat (clamp len b) in
  take (b' - a')%nat (drop a' s).

Definition slice_from (s : text) (a : Z) : text :=
  drop (Z.to_nat (clamp (Z.of_nat (length s)) a)) s.

(** [s.lstrip()], [s.rstrip()], [s.strip()] *)
Fixpoint lstrip (s : text) : text :=
  match s with
  | c :: s' => if isspace c then lstrip s' else s
  | [] => []
  end.

Definition rstrip (s : text) : text := reverse (lstrip (reverse s)).

Definition strip (s : text) : text := lstrip (rstrip s).

(** [sep.join(parts)] *)
Fixpoint join (sep : text) (parts : list text) : text :=
  match parts with
  | [] => []
  | [p] => p
  | p :: rest => p ++ sep ++ join sep rest
  end.

(** Line boundaries recognised by [str.splitlines]. *)
Definition is_linebreak (c : N) : bool :=
  ((10 <=? c) && (c <=? 13) || (28 <=? c) && (c <=? 30)
   || (c =? 133) || (c =? 8232) || (c =? 8233))%N.

(** [s.splitlines()]: [cur] is the line being read; a carriage return
    followed by a line feed is one boundary. *)
Fixpoint splitlines_from (cur s : text) : list text :=
  match s with
  | [] => match cur with [] => [] | _ => [cur] end
  | c :: s' =>
      if is_linebreak c then
        cur :: match s' with
               | d :: s'' =>
                   if ((c =? 13) && (d =? 10))%N then splitlines_from [] s''
                   else splitlines_from [] s'
               | [] => []
               end
      else splitlines_from (cur ++ [c]) s'
  end.

Definition splitlines (s : text) : list text := splitlines_from [] s.

(** ** The regular expression of the scene-name resolver

    [re.search(r'class\s+(\w+)\(Scene\):', code)].  The pattern is a sequence
    of literal characters and greedy [+] repetitions of a character class,
    one of them capturing; the matcher backtracks over the repetition counts
    as [re] does, longest first. *)

Inductive charclass := ClsSpace | ClsWord.

Inductive item :=
| Lit (c : N)
| Plus (cls : charclass)
| CapturePlus (cls : charclass).

Definition literal (s : text) : list item := Lit <$> s.

Definition scene_pattern : list item :=
  literal (py "class") ++ [Plus ClsSpace; CapturePlus ClsWord]
  ++ literal (py "(Scene):").

Definition ascii_word (c : N) : bool :=
  ((48 <=? c) && (c <=? 57) || (65 <=? c) && (c <=? 90)
   || (97 <=? c) && (c <=? 122) || (c =? 95))%N.

(** Try the continuation [k] after [n], [n-1], ..., [1] characters. *)
Fixpoint backtrack {A} (k : text → option A) (s : text) (n : nat) : option (nat * A) :=
  match n with
  | O => None
  | S m => match k (drop n s) with
           | Some g => Some (n, g)
           | None => backtrack k s m
           end
  end.

Section regex.
(** [str.isalnum] above ASCII is the Unicode character database, which is
    not part of the repository. *)
Variable alnum : N → bool.

(** [\w] and [\s] of a [str] pattern. *)
Definition in_class (cls : charclass) (c : N) : bool :=
  match cls with
  | ClsSpace => isspace c
  | ClsWord => if (c <? 128)%N then ascii_word c else alnum c
  end.

(** Length of the longest prefix of [s] inside the class. *)
Fixpoint run (cls : charclass) (s : text) : nat :=
  match s with
  | c :: s' => if in_class cls c then S (run cls s') else O
  | [] => O
  end.

(** Match the pattern at the start of [s]; the result is group 1. *)
Fixpoint match_here (p : list item) (s : text) : option (option text) :=
  match p with
  | [] => Some None
  | Lit c :: p' =>
      match s with
      | d :: s' => if (c =? d)%N then match_here p' s' else None
      | [] => None
      end
  | Plus cls :: p' => snd <$> backtrack (match_here p') s (run cls s)
  | CapturePlus cls :: p' =>
      (λ r, Some (take (fst r) s)) <$> backtrack (match_here p') s (run cls s)
  end.

(** [re.search]: the leftmost position where the pattern matches. *)
Fixpoint re_search (p : list item) (s : text) : option (option text) :=
  match match_here p s with
  | Some g => Some g
  | None => match s with
            | [] => None
            | _ :: s' => re_search p s'
            end
  end.

(** [scene_match.group(1) if scene_match else None] *)
Definition scene_name_of (code : text) : option text :=
  match re_search scene_pattern code with
  | Some g => g
  | None => None
  end.
End regex.

(** ** Values decoded from JSON, exceptions, results *)

(** What [json.loads] builds: [None], [bool], [int], [float], [str], [list]
    and [dict] (insertion ordered, so an association list). *)
#[warnings="-register-all"] Inductive json :=
| JNull
| JBool (b : bool)
| JInt (z : Z)
| JFloat (f : spec_float)
| JStr (s : text)
| JList (l : list json)
| JDict (d : list (text * json)).

(** Outcome of [json.loads]: a value, a [JSONDecodeError], or another
    exception ([RecursionError] on text nested too deep, a plain
    [ValueError]), each exception with its [str()]. *)
Inductive decoded :=
| Decoded (v : json)
| JSONDecodeError (msg : text)
| OtherError (msg : text).

(** The exceptions a handler can see: FastAPI's [HTTPException] and any
    other [Exception], kept with its [str()]. *)
Inductive exn :=
| HTTPException (status_code : Z) (detail : text)
| Error (msg : text).

Inductive result (A : Type) :=
| Return (a : A)
| Raise (e : exn).
Arguments Return {A} a.
Arguments Raise {A} e.

#[global] Instance result_ret : MRet result := λ A a, Return a.
#[global] Instance result_bind : MBind result := λ A B f m,
  match m with
  | Return a => f a
  | Raise e => Raise e
  end.

(** [try: body  except Exception as e: handler(e)] *)
Definition try_except {A} (body : result A) (handler : exn → result A) : result A :=
  match body with
  | Return a => Return a
  | Raise e => handler e
  end.

(** Library code the handlers call that is outside the repository. *)
Class Library := {
  (** [str.isalnum] on code points from 128 up (Unicode database) *)
  isalnum_unicode : N → bool;
  (** [str(e)] for [e = HTTPException(status_code, detail)] (Starlette) *)
  http_exception_str : Z → text → text;
  (** [json.loads] *)
  json_loads : text → decoded;
  (** [json.dumps(v, indent=2)] *)
  json_dumps_indent2 : json → text;
  (** pydantic's coercion to a [float] field of a value that is neither an
      [int] nor a [float]; [inl] is the validation error *)
  pydantic_float_lax : json → text + spec_float;
  (** [str(e)] for the error raised when a [float] field is given an [int]
      too large for a double *)
  int_too_large : Z → text;
  (** [str(e)] for the [UnicodeEncodeError] raised when [s] is encoded *)
  unicode_encode_error : text → text;
}.

(** [str(e)] *)
Definition str_exn `{Library} (e : exn) : text :=
  match e with
  | HTTPException status_code detail => http_exception_str status_code detail
  | Error msg => msg
  end.

(** [d.get(key, default)] on a decoded value; only a [dict] has [get]. *)
Fixpoint assoc (key : text) (d : list (text * json)) : option json :=
  match d with
  | [] => None
  | (k, v) :: d' => if bool_decide (k = key) then Some v else assoc key d'
  end.

Definition type_name (v : json) : text :=
  match v with
  | JNull => py "NoneType"
  | JBool _ => py "bool"
  | JInt _ => py "int"
  | JFloat _ => py "float"
  | JStr _ => py "str"
  | JList _ => py "list"
  | JDict _ => py "dict"
  end.

Definition attribute_error (v : json) (attr : text) : exn :=
  Error (py "'" ++ type_name v ++ py "' object has no attribute '" ++ attr ++ py "'").

Definition dict_get (v : json) (key : text) (dflt : json) : result json :=
  match v with
  | JDict d => Return (default dflt (assoc key d))
  | _ => Raise (attribute_error v (py "get"))
  end.

(** ** Text that leaves the process

    [print] and [Path.write_text] encode the text they are given, and no
    text encoding has a form for a lone surrogate (a code point from U+D800
    to U+DFFF): either call raises [UnicodeEncodeError] on one.  A [str]
    decoded from JSON can hold one, so a request or a reply of the LLM can.
    [sys.stdout] is taken to be an open UTF-8 stream, the default, which
    encodes every other code point. *)
Definition is_surrogate (c : N) : bool := ((55296 <=? c) && (c <=? 57343))%N.

Definition encodable (s : text) : bool := forallb (λ c, negb (is_surrogate c)) s.

(** An argument of [print]: a [str], written as it is, or another object
    (a [dict], [None]), written as its [repr], in which a surrogate is
    escaped. *)
Inductive printed :=
| Str (s : text)
| Obj (v : json).

(** [print] of some arguments: they are written one after the other. *)
Fixpoint print `{Library} (args : list printed) : result unit :=
  match args with
  | [] => Return ()
  | Str s :: rest =>
      if encodable s then print rest else Raise (Error (unicode_encode_error s))
  | Obj _ :: rest => print rest
  end.

(** The system instruction of [generate_code] in main.py, line by line. *)
Definition main_system_prompt : text :=
  join NL [
    py "You are a Manim code generator. Generate Manim code based on the user's description.";
    py "";
    py "- Always return your response in two blocks:";
    py "  1. A Python code block (```python) with the Manim code.";
    py "     - Always start with 'from manim import *' to import everything from manim.";
    py "     - For any property that should be editable (like font size, color, position, etc.), define a variable at the top (e.g., font_size = 48) make sure to always add position,scaling, rotation and opacity to each manim item, and use it in the code (e.g., font_size=font_size).";
    py "     - Use f-strings only for string properties that should be editable.";
    py "     - Always import all constants, classes, and animations you use, including color constants (e.g., BLUE, RED), animation classes (e.g., Create, Write), and any other required objects from manim.";
    py "  2. A JSON code block (```json) with the metadata for each animation component, including all properties and their types, values, and constraints.";
    py "     - The JSON should match this format:";
    py "       [";
    py "         {";
    py "           'id': 'unique_id',";
    py "           'type': 'text|shape|transform',";
    py "           'start': start_time,";
    py "           'duration': duration,";
    py "           'properties': {";
    py "             'property_name': {";
    py "               'position': 'x,y,z',";
    py "               'scaling': 'x,y,z',";
    py "               'rotation': 'x,y,z',";
    py "               'opacity': '0.0-1.0',";
    py "               'color': 'color_name',";
    py "               'type': 'number|string|color|boolean|position',";
    py "               'value': value,";
    py "               'min': min_value,  # optional";
    py "               'max': max_value,  # optional";
    py "               'step': step_value  # optional";
    py "               'options': ['option1', 'option2']  # optional";
    py "               'multiline': True  # optional";
    py "               'label': 'Label'  # optional";
    py "             }";
    py "           }";
    py "         }";
    py "       ]";
    py "- Always return both the code and the JSON metadata." ].

(** The system instruction of [generate_code] in server.py. *)
Definition server_system_prompt : text :=
  join NL [
    py "You are a Manim code generator. Generate Manim code based on the user's description.";
    py "Always return your response in a Python code block (```python) with the Manim code." ].

(** ** Request and response models *)

Record CodeGenerationRequest := {
  prompt : text;
  api_key : option text;
}.

(** The dictionary [{"code": code, "metadata": metadata}] of main.py; the
    route declares no response model, so [metadata] is returned as decoded. *)
Record CodeGenerationResult := {
  code : text;
  metadata : json;
}.

Record ApiKeyRequest := { key_api_key : text }.

Record AnimationRequest := {
  anim_code : text;
  quality : text;
  format : text;
}.

Record AnimationResponse := {
  output_path : text;
  duration : spec_float;
}.

(** [history] holds the earlier versions of the code, as strings. *)
Record UpdateCodeRequest := {
  upd_code : text;
  properties : json;
  history : option (list text);
}.

(** ** The outside world of one request *)

Record AsyncOpenAI_client := { client_api_key : option text }.

Record ChatRequest := {
  model : text;
  messages : list (text * text);
  temperature : Z * Z;   (* the decimal literal, as numerator and denominator *)
}.

Record CompletedProcess := {
  returncode : Z;
  stdout : text;
  stderr : text;
}.

Record World := {
  (** [os.getenv("OPENAI_API_KEY")] *)
  getenv_OPENAI_API_KEY : option text;
  (** the exception, if any, raised by [openai.AsyncOpenAI(api_key=...)] *)
  openai_init_error : option text → option exn;
  (** [await client.models.list()] *)
  models_list : AsyncOpenAI_client → result unit;
  (** [await client.chat.completions.create(...)] followed by
      [response.choices[0].message.content], which may be [None] *)
  chat_completions_create : AsyncOpenAI_client → ChatRequest → result (option text);
  (** the exception, if any, raised by [tempfile.TemporaryDirectory()], and
      the directory it makes otherwise *)
  mkdtemp_error : option exn;
  temp_dir : text;
  (** the exceptions, if any, raised when a file is opened for writing, and
      when text without a surrogate is written to it and the file closed (a
      codec of the locale that lacks a character, a full disk) *)
  open_error : text → option exn;
  write_error : text → text → option exn;
  (** [subprocess.run(cmd, shell=True, capture_output=True, text=True, cwd=...)] *)
  subprocess_run : text → text → result CompletedProcess;
  (** [list(Path(dir).rglob(pattern))] after the run; pathlib raises
      [ValueError] on a pattern it does not accept *)
  rglob : text → text → result (list text);
  (** [path.exists()] after the run *)
  path_exists : text → bool;
  (** [open(path)] and reading it *)
  read_file : text → result text;
  (** [path.mkdir(...)], [path.rename(target)], [shutil.move(src, dst)] *)
  mkdir : text → result unit;
  rename : text → text → result unit;
  shutil_move : text → text → result unit;
}.

(** ** Pieces shared by the handlers *)

(** [a or b] on optional strings: [None] and [""] are falsy. *)
Definition py_or (a b : option text) : option text :=
  match a with
  | None | Some [] => b
  | Some _ => a
  end.

Definition AsyncOpenAI (w : World) (api_key : option text) : result AsyncOpenAI_client :=
  match openai_init_error w api_key with
  | Some e => Raise e
  | None => Return {| client_api_key := api_key |}
  end.

(** Using [content] as a string; [None.find] is an [AttributeError]. *)
Definition as_str (content : option text) : result text :=
  match content with
  | Some s => Return s
  | None => Raise (attribute_error JNull (py "find"))
  end.

(** [Path(dir) / name] and [path.name] *)
Definition path_join (dir name : text) : text := dir ++ py "/" ++ name.

(** [with tempfile.TemporaryDirectory() as temp_dir]; the directory is
    removed when the block is left, which is taken to succeed. *)
Definition TemporaryDirectory (w : World) : result text :=
  match mkdtemp_error w with
  | Some e => Raise e
  | None => Return (temp_dir w)
  end.

(** [path.write_text(content)]: the file is opened, the text is encoded as
    it is written, and the file is closed. *)
Definition write_text `{Library} (w : World) (path content : text) : result unit :=
  match open_error w path with
  | Some e => Raise e
  | None =>
      if encodable content then
        match write_error w path content with
        | Some e => Raise e
        | None => Return ()
        end
      else Raise (Error (unicode_encode_error content))
  end.

Fixpoint name_from (cur p : text) : text :=
  match p with
  | [] => cur
  | c :: p' => if (c =? 47)%N then name_from [] p' else name_from (cur ++ [c]) p'
  end.

Definition path_name (p : text) : text := name_from [] p.

(** The dictionary [quality_settings] of [generate_animation]. *)
Definition quality_settings : gmap text text :=
  <[py "low" := py "-ql"]> (
  <[py "medium" := py "-qm"]> (
  <[py "high" := py "-qh"]> (
  <[py "production" := py "-qp"]> (
  <[py "4k" := py "-qk"]> ∅)))).

(** [quality_settings.get(request.quality, '-qm')] *)
Definition quality_flag (q : text) : text :=
  default (py "-qm") (quality_settings !! q).

(** [f"manim {flag} -o animation {code_file} {scene_name}"] *)
Definition render_command (q code_file scene_name : text) : text :=
  py "manim " ++ quality_flag q ++ py " -o animation " ++ code_file
  ++ py " " ++ scene_name.

(** [float(z)], round to nearest even in binary64. *)
Definition float_of_int (z : Z) : spec_float := binary_normalize 53 1024 z 0 false.

Definition is_infinity (f : spec_float) : bool :=
  match f with
  | S754_infinity _ => true
  | _ => false
  end.

(** The integer a float stands for, when it stands for one. *)
Definition int_of_float (f : spec_float) : option Z :=
  match f with
  | S754_zero _ => Some 0
  | S754_finite s m e =>
      let n := if s then Z.neg m else Z.pos m in
      if 0 <=? e then Some (n * 2 ^ e)
      else if Z.pos m mod 2 ^ (- e) =? 0 then Some (n / 2 ^ (- e)) else None
  | _ => None
  end.

(** [AnimationResponse(output_path=..., duration=...)]: pydantic validates
    [duration: float]; an [int] is converted, and rejected when it is too
    large for a double. *)
Definition new_AnimationResponse `{Library} (path : text) (d : json)
  : result AnimationResponse :=
  match d with
  | JInt z =>
      if is_infinity (float_of_int z) then Raise (Error (int_too_large z))
      else Return {| output_path := path; duration := float_of_int z |}
  | JFloat f => Return {| output_path := path; duration := f |}
  | _ => match pydantic_float_lax d with
         | inr f => Return {| output_path := path; duration := f |}
         | inl msg => Raise (Error msg)
         end
  end.

(** [json.load(f)] on the text read from a file. *)
Definition json_load `{Library} (src : text) : result json :=
  match json_loads src with
  | Decoded v => Return v
  | JSONDecodeError msg | OtherError msg => Raise (Error msg)
  end.

(** The duration read after a render (main.py 209-216, server.py 137-144). *)
Definition read_duration `{Library} (w : World) (dir : text) : result json :=
  let json_file := path_join dir (py "animation.json") in
  if path_exists w json_file then
    src ← read_file w json_file;
    scene_data ← json_load src;
    dict_get scene_data (py "duration") (JInt 0)
  else Return (JInt 0).

Definition fence : text := py "```".
Definition import_marker : text := py "from manim import".

(** Extraction of the code in [generate_code] (main.py 130-138, the same
    statements as server.py 68-76). *)
Definition extract_code (content : text) : result text :=
  let code_start := find content (py "```python") 0 in
  let code_end := find content (py "```") (code_start + 8) in
  if (code_start =? -1) || (code_end =? -1) then
    Raise (HTTPException 500 (py "Failed to extract code from response"))
  else
    let code := strip (slice content (code_start + 8) code_end) in
    let manim_index := find code (py "from manim import") 0 in
    Return (if negb (manim_index =? -1) then slice_from code manim_index else code).

(** Extraction of the metadata (main.py 141-151): the inner [except]
    catches [json.JSONDecodeError] only. *)
Definition extract_metadata `{Library} (content : text) : result json :=
  let metadata_start := find content (py "```json") 0 in
  let metadata_end := find content (py "```") (metadata_start + 7) in
  if (metadata_start =? -1) || (metadata_end =? -1) then Return (JList [])
  else
    match json_loads (strip (slice content (metadata_start + 7) metadata_end)) with
    | Decoded v => Return v
    | JSONDecodeError _ => Return (JList [])
    | OtherError msg => Raise (Error msg)
    end.

(** Index of the first element satisfying [f]. *)
Fixpoint first_index {A} (f : A → bool) (l : list A) : option nat :=
  match l with
  | [] => None
  | x :: l' => if f x then Some O else S <$> first_index f l'
  end.

(** Extraction of the code in [update_code] (main.py 263-274). *)
Definition extract_updated_code (content : text) : text :=
  let code_start := find content (py "```python") 0 in
  let code_end := find content (py "```") (code_start + 8) in
  if negb (code_start =? -1) && negb (code_end =? -1) then
    let code := strip (slice content (code_start + 8) code_end) in
    let lines := splitlines code in
    match first_index (λ line, startswith (strip line) (py "from manim import")) lines with
    | Some i => join NL (drop i lines)
    | None => code
    end
  else strip content.

(** [FileResponse(path, media_type=...)] *)
Record FileResponse := {
  file : text;
  media_type : text;
}.

(** [Path(dir) / name] for a route parameter [name], which holds no slash:
    pathlib drops an empty or [.] component. *)
Definition path_child (dir name : text) : text :=
  if bool_decide (name = []) || bool_decide (name = py ".") then dir
  else path_join dir name.

(** ** main.py *)

Module Main.
Section handlers.
Context `{Library} (w : World).

(** [POST /api/validate-key] *)
Definition validate_key (request : ApiKeyRequest) : result text :=
  let api_key := py_or (Some (key_api_key request)) (getenv_OPENAI_API_KEY w) in
  try_except
    (client ← AsyncOpenAI w api_key;
     _ ← models_list w client;
     Return (py "valid"))
    (λ _, Raise (HTTPException 401 (py "Invalid API key"))).

Definition chat_request (request : CodeGenerationRequest) : ChatRequest :=
  {| model := py "gpt-4o";
     messages := [(py "system", main_system_prompt); (py "user", prompt request)];
     temperature := (7, 10) |}.

(** [request.dict()] *)
Definition request_dict (request : CodeGenerationRequest) : json :=
  JDict [(py "prompt", JStr (prompt request));
         (py "api_key", match api_key request with
                        | Some key => JStr key
                        | None => JNull
                        end)].

(** [POST /api/generate-code] *)
Definition generate_code (request : CodeGenerationRequest) : result CodeGenerationResult :=
  _ ← print [Str (py "Received /api/generate-code request:"); Obj (request_dict request)];
  let api_key := py_or (api_key request) (getenv_OPENAI_API_KEY w) in
  client ← AsyncOpenAI w api_key;
  try_except
    (content ← chat_completions_create w client (chat_request request);
     content ← as_str content;
     code ← extract_code content;
     _ ← print [Str (py "Final code to render:" ++ NL); Str code];
     metadata ← extract_metadata content;
     Return {| code := code; metadata := metadata |})
    (λ e, Raise (HTTPException 500 (py "Failed to generate code: " ++ str_exn e))).

(** [POST /api/generate-animation].  The scratch directory is made and the
    code written into it before the scene is looked for, outside the [try].
    What is left out is the listing printed for debugging where no output
    file was found: its lines are paths made by the renderer, no text of the
    request. *)
Definition generate_animation (request : AnimationRequest) : result AnimationResponse :=
  temp_dir ← TemporaryDirectory w;
  let code_file := path_join temp_dir (py "animation.py") in
  _ ← write_text w code_file (anim_code request);
  match scene_name_of isalnum_unicode (anim_code request) with
  | None | Some [] =>
      Raise (HTTPException 500 (py "Could not find a Scene class in the code."))
  | Some scene_name =>
      try_except
        (let cmd := render_command (quality request) code_file scene_name in
         result ← subprocess_run w cmd temp_dir;
         if negb (returncode result =? 0) then
           Raise (HTTPException 500 (py "Manim error: " ++ stderr result))
         else
           output_files ← rglob w temp_dir (py "animation*." ++ format request);
           match output_files with
           | [] => Raise (HTTPException 500 (py "No output file generated"))
           | output_file :: _ =>
               duration ← read_duration w temp_dir;
               let output_dir := py "outputs" in
               _ ← mkdir w output_dir;
               let final_path := path_join output_dir (path_name output_file) in
               _ ← rename w output_file final_path;
               new_AnimationResponse final_path duration
           end)
        (λ e, Raise (HTTPException 500
                       (py "Animation generation failed: " ++ str_exn e)))
  end.

(** The instruction built by [update_code]. *)
Definition update_prompt (request : UpdateCodeRequest) : text :=
  let prompt :=
    py "You are a Manim code editor. Given the following Manim code and a JSON object of updated property values, update the code so that the property values match the JSON. Only change the values, do not change the structure or add new properties."
    ++ NL ++ NL in
  let prompt :=
    match history request with
    | None | Some [] => prompt
    | Some versions =>
        prompt ++ py "Here is the previous code history for context:" ++ NL
        ++ concat (imap (λ idx prev_code,
                           py "Previous code version " ++ py (pretty (idx + 1)%nat)
                           ++ py ":" ++ NL ++ prev_code ++ NL ++ NL) versions)
    end in
  let prompt := prompt ++ py "Manim code:" ++ NL ++ upd_code request ++ NL ++ NL in
  let prompt := prompt ++ py "Updated properties:" ++ NL
                ++ json_dumps_indent2 (properties request) ++ NL ++ NL in
  prompt ++ py "Return only the updated Manim code.".

Definition update_chat_request (prompt : text) : ChatRequest :=
  {| model := py "gpt-4o";
     messages := [(py "system", prompt)];
     temperature := (2, 10) |}.

(** [POST /api/update-code] *)
Definition update_code (request : UpdateCodeRequest) : result text :=
  let api_key := getenv_OPENAI_API_KEY w in
  client ← AsyncOpenAI w api_key;
  let prompt := update_prompt request in
  try_except
    (content ← chat_completions_create w client (update_chat_request prompt);
     content ← as_str content;
     Return (extract_updated_code content))
    (λ e, Raise (HTTPException 500 (py "Failed to update code: " ++ str_exn e))).
(** The helper [validate_api_key] (main.py 53-60): no exception leaves it. *)
Definition validate_api_key (api_key : text) : bool :=
  match try_except
          (client ← AsyncOpenAI w (Some api_key);
           _ ← models_list w client;
           Return true)
          (λ _, Return false)
  with
  | Return b => b
  | Raise _ => false
  end.

(** [GET /outputs/{filename}] *)
Definition get_output_file (filename : text) : result FileResponse :=
  let file_path := path_child (py "outputs") filename in
  if negb (path_exists w file_path) then
    Raise (HTTPException 404 (py "File not found"))
  else Return {| file := file_path; media_type := py "video/mp4" |}.
End handlers.
End Main.

(** ** server.py *)

Module Server.
Section handlers.
Context `{Library} (w : World).

Definition chat_request (request : CodeGenerationRequest) : ChatRequest :=
  {| model := py "gpt-4o";
     messages := [(py "system", server_system_prompt); (py "user", prompt request)];
     temperature := (7, 10) |}.

(** [POST /api/generate-code]: the response is [{"code": code}]. *)
Definition generate_code (request : CodeGenerationRequest) : result text :=
  let api_key := py_or (api_key request) (getenv_OPENAI_API_KEY w) in
  client ← AsyncOpenAI w api_key;
  try_except
    (content ← chat_completions_create w client (chat_request request);
     content ← as_str content;
     extract_code content)
    (λ e, Raise (HTTPException 500 (py "Failed to generate code: " ++ str_exn e))).

(** [POST /api/generate-animation].  The code is printed, the scratch
    directory made and the code written into it before the scene is looked
    for, outside the [try].  What is left out are the lines printed for
    debugging inside the [try]: they show the command, the output the
    renderer wrote (decoded by [subprocess]), its exit code and paths made
    by the renderer, and add no text of the request to what was written to
    the scratch file before. *)
Definition generate_animation (request : AnimationRequest) : result AnimationResponse :=
  _ ← print [Str (py "Received animation request!")];
  _ ← print [Str (py "Code received:" ++ NL); Str (anim_code request)];
  temp_dir ← TemporaryDirectory w;
  let code_file := path_join temp_dir (py "animation.py") in
  _ ← write_text w code_file (anim_code request);
  let scene_name := scene_name_of isalnum_unicode (anim_code request) in
  _ ← print [Str (py "Scene name:");
             match scene_name with Some name => Str name | None => Obj JNull end];
  match scene_name with
  | None | Some [] =>
      Raise (HTTPException 500 (py "Could not find a Scene class in the code."))
  | Some scene_name =>
      try_except
        (let cmd := render_command (quality request) code_file scene_name in
         result ← subprocess_run w cmd temp_dir;
         if negb (returncode result =? 0) then
           Raise (HTTPException 500 (py "Manim error: " ++ stderr result))
         else
           output_files ← rglob w temp_dir (py "animation*." ++ format request);
           match output_files with
           | [] => Raise (HTTPException 500 (py "No output file generated"))
           | output_file :: _ =>
               duration ← read_duration w temp_dir;
               let output_dir := py "outputs/temp" in
               _ ← mkdir w output_dir;
               let final_path := path_join output_dir (path_name output_file) in
               _ ← shutil_move w output_file final_path;
               new_AnimationResponse
                 (py "outputs/temp/" ++ path_name output_file) duration
           end)
        (λ e, Raise (HTTPException 500
                       (py "Animation generation failed: " ++ str_exn e)))
  end.
(** [GET /api/health]: the response is [{"status": "healthy"}]. *)
Definition health_check : result text := Return (py "healthy").
End handlers.
End Server.

(** ** Vocabulary of the specification *)

(** [sub] occurs in [s] at offset [n]; [n] is its first occurrence. *)
Definition occurs_at (sub s : text) (n : nat) : Prop := sub `prefix_of` drop n s.

Definition first_at (sub s : text) (n : nat) : Prop :=
  occurs_at sub s n ∧ ∀ m, (m < n)%nat → ¬ occurs_at sub s m.

(** [content] holds a well-formed fenced block tagged [tag] with inner
    content [inner]: the first opening fence followed by the tag, then the
    next closing fence after it. *)
Definition fenced_block (tag content inner : text) : Prop :=
  ∃ pre post,
    content = pre ++ (fence ++ tag) ++ inner ++ fence ++ post
    ∧ first_at (fence ++ tag) content (length pre)
    ∧ first_at fence (inner ++ fence ++ post) (length inner).

(** The opening fence is there, at its first occurrence [n], and no closing
    fence follows it. *)
Definition unterminated_block (tag content : text) : Prop :=
  ∃ n, first_at (fence ++ tag) content n
       ∧ ∀ m, (n + length (fence ++ tag) ≤ m)%nat → ¬ occurs_at fence content m.

(** In world [w] a client built with [key] is constructed without error and
    the completion for [req] comes back with text [content]. *)
Definition answers (w : World) (key : option text) (req : ChatRequest)
    (content : text) : Prop :=
  openai_init_error w key = None
  ∧ chat_completions_create w {| client_api_key := key |} req = Return (Some content).

(** The reply of the LLM reaches both [generate_code] handlers. *)
Definition answers_both (w : World) (request : CodeGenerationRequest)
    (content : text) : Prop :=
  answers w (py_or (api_key request) (getenv_OPENAI_API_KEY w))
    (Main.chat_request request) content
  ∧ answers w (py_or (api_key request) (getenv_OPENAI_API_KEY w))
      (Server.chat_request request) content.

(** The invariant of a metadata sequence (specification, section 3): the
    ids are unique, every type is one of three, and the times are
    non-negative numbers. *)
Definition entry_types : list text := [py "text"; py "shape"; py "transform"].

Definition type_ok (entry : json) : bool :=
  match entry with
  | JDict d => match assoc (py "type") d with
               | Some (JStr t) => bool_decide (t ∈ entry_types)
               | _ => false
               end
  | _ => false
  end.

Definition non_negative (v : option json) : bool :=
  match v with
  | Some (JInt z) => 0 <=? z
  | Some (JFloat f) => SFleb (S754_zero false) f
  | _ => false
  end.

Definition times_ok (entry : json) : bool :=
  match entry with
  | JDict d => non_negative (assoc (py "start") d)
               && non_negative (assoc (py "duration") d)
  | _ => false
  end.

Definition entry_id (entry : json) : option json :=
  match entry with
  | JDict d => assoc (py "id") d
  | _ => None
  end.

Definition metadata_invariant (m : json) : Prop :=
  ∃ entries, m = JList entries
             ∧ NoDup (entry_id <$> entries)
             ∧ Forall (λ e, type_ok e = true) entries
             ∧ Forall (λ e, times_ok e = true) entries.

(** ** Instances used to run the handlers on concrete requests *)

(** A literal written with ['] where the text has a double quote. *)
Definition pyq (s : string) : text :=
  (λ c, if (c =? 39)%N then 34%N else c) <$> py s.

(** [str(HTTPException(...))] as Starlette defines it: the status code, a
    colon and the detail. *)
Definition starlette_str (status_code : Z) (detail : text) : text :=
  py (pretty status_code) ++ py ": " ++ detail.

(** [str(e)] of the [UnicodeEncodeError] of the UTF-8 codec: the codec
    reports the first run of surrogates, one character by its escape and
    its position, a longer run by its first and last position. *)
Definition hex_digit (n : N) : N := (if n <? 10 then 48 + n else 87 + n)%N.

Definition hex4 (c : N) : text :=
  [hex_digit (c / 4096 mod 16); hex_digit (c / 256 mod 16);
   hex_digit (c / 16 mod 16); hex_digit (c mod 16)]%N.

Fixpoint surrogate_run (s : text) : nat :=
  match s with
  | c :: s' => if is_surrogate c then S (surrogate_run s') else O
  | [] => O
  end.

Definition utf8_encode_error (s : text) : text :=
  match first_index is_surrogate s with
  | None => []
  | Some start =>
      match surrogate_run (drop start s) with
      | 1%nat =>
          py "'utf-8' codec can't encode character '\u" ++ hex4 (default 0%N (s !! start))
          ++ py "' in position " ++ py (pretty start) ++ py ": surrogates not allowed"
      | n =>
          py "'utf-8' codec can't encode characters in position " ++ py (pretty start)
          ++ py "-" ++ py (pretty (start + n - 1)%nat) ++ py ": surrogates not allowed"
      end
  end.

(** A library for ASCII inputs, with [json.loads] given on the documents
    listed in [docs]. *)
Definition table_library (docs : list (text * json)) : Library :=
  {| isalnum_unicode := λ _, false;
     http_exception_str := starlette_str;
     json_loads := λ src,
       match assoc src docs with
       | Some v => Decoded v
       | None => JSONDecodeError (py "Expecting value: line 1 column 1 (char 0)")
       end;
     json_dumps_indent2 := λ _, py "{}";
     pydantic_float_lax := λ _, inl (py "Input should be a valid number");
     int_too_large := λ _, py "int too large to convert to float";
     unicode_encode_error := utf8_encode_error |}.

(** The same library with the recursion limit of the interpreter: on text
    that opens more than [limit] arrays at its start [json.loads] raises
    [RecursionError]. *)
Fixpoint opening_brackets (s : text) : nat :=
  match s with
  | c :: s' => if (c =? 91)%N then S (opening_brackets s') else O
  | [] => O
  end.

Definition recursion_limited_library (limit : nat) : Library :=
  {| isalnum_unicode := λ _, false;
     http_exception_str := starlette_str;
     json_loads := λ src,
       if (limit <? opening_brackets src)%nat then
         OtherError (py "maximum recursion depth exceeded while decoding a JSON array from a unicode string")
       else JSONDecodeError (py "Expecting value: line 1 column 1 (char 0)");
     json_dumps_indent2 := λ _, py "{}";
     pydantic_float_lax := λ _, inl (py "Input should be a valid number");
     int_too_large := λ _, py "int too large to convert to float";
     unicode_encode_error := utf8_encode_error |}.

(** A world in which the LLM answers [content], the renderer finishes as
    [proc] leaving [files], and there is no [animation.json]. *)
Definition quiet_world (content : option text) (proc : CompletedProcess)
    (files : list text) : World :=
  {| getenv_OPENAI_API_KEY := Some (py "sk-env");
     openai_init_error := λ _, None;
     models_list := λ _, Return ();
     chat_completions_create := λ _ _, Return content;
     mkdtemp_error := None;
     temp_dir := py "/tmp/tmpq1w2e3";
     open_error := λ _, None;
     write_error := λ _ _, None;
     subprocess_run := λ _ _, Return proc;
     rglob := λ _ _, Return files;
     path_exists := λ _, false;
     read_file := λ _, Raise (Error (py "[Errno 2] No such file or directory"));
     mkdir := λ _, Return ();
     rename := λ _ _, Return ();
     shutil_move := λ _ _, Return () |}.

(** Group 1 of a match is there and is not empty. *)
Definition named (g : option text) : Prop := ∃ name, g = Some name ∧ name ≠ [].

(** ** Replies and requests used in the examples *)

Definition finished (code : Z) (err : text) : CompletedProcess :=
  {| returncode := code; stdout := []; stderr := err |}.

(** A reply whose block opens with a comment. *)
Definition commentary_inner : text :=
  NL ++ py "# Draw a circle" ++ NL ++ py "from manim import *" ++ NL.

Definition reply_with_commentary : text :=
  py "```python" ++ commentary_inner ++ py "```".

(** A reply whose block does not import manim. *)
Definition reply_without_import : text :=
  py "```python" ++ NL ++ py "print(1)" ++ NL ++ py "```".

(** A reply cut short before the closing fence. *)
Definition reply_unterminated : text :=
  py "Here it is:" ++ NL ++ py "```python" ++ NL ++ py "from manim import *".

(** A reply without any code. *)
Definition reply_refusal : text := py "Sorry, I cannot help with that.".

(** A reply whose metadata breaks every part of the invariant. *)
Definition bad_metadata_text : text :=
  pyq "[{'id': 'a', 'type': 'bogus', 'start': -1, 'duration': -2}, {'id': 'a', 'type': 'text', 'start': 0, 'duration': 1}]".

Definition bad_metadata : json :=
  JList [ JDict [(py "id", JStr (py "a")); (py "type", JStr (py "bogus"));
                 (py "start", JInt (-1)); (py "duration", JInt (-2))];
          JDict [(py "id", JStr (py "a")); (py "type", JStr (py "text"));
                 (py "start", JInt 0); (py "duration", JInt 1)] ].

Definition reply_bad_metadata : text :=
  py "```python" ++ NL ++ py "from manim import *" ++ NL ++ py "```" ++ NL
  ++ py "```json" ++ NL ++ bad_metadata_text ++ NL ++ py "```".

(** A reply whose json block is not JSON. *)
Definition reply_broken_metadata : text :=
  py "```python" ++ NL ++ py "from manim import *" ++ NL ++ py "```" ++ NL
  ++ py "```json" ++ NL ++ py "[{'id': oops" ++ NL ++ py "```".

(** A reply whose code holds a lone surrogate, U+DC80, in a comment. *)
Definition surrogate_code : text :=
  py "from manim import *" ++ NL ++ py "# " ++ [56448%N].

Definition reply_surrogate : text :=
  py "```python" ++ NL ++ surrogate_code ++ NL ++ py "```".

(** A reply whose json block opens 100000 arrays and closes none. *)
Definition deep_metadata_text : text := replicate (Z.to_nat 100000) 91%N.

Definition reply_deep_metadata : text :=
  py "```python" ++ NL ++ py "from manim import *" ++ NL ++ py "```" ++ NL
  ++ py "```json" ++ NL ++ deep_metadata_text ++ NL ++ py "```".

Definition circle_request (key : option text) : CodeGenerationRequest :=
  {| prompt := py "draw a circle"; api_key := key |}.

Definition foo_scene : text := py "class Foo(Scene):" ++ NL ++ py "    pass".

Definition foo_request (q : text) : AnimationRequest :=
  {| anim_code := foo_scene; quality := q; format := py "mp4" |}.

(** A render request whose code holds a lone surrogate and no scene. *)
Definition surrogate_request : AnimationRequest :=
  {| anim_code := py "x = '" ++ [56448%N] ++ py "'";
     quality := py "medium"; format := py "mp4" |}.

Definition update_request : UpdateCodeRequest :=
  {| upd_code := foo_scene;
     properties := JDict [(py "font_size", JInt 48)];
     history := Some [py "class Foo(Scene): ..."] |}.

(** ** Further vocabulary *)

(** [sub] occurs somewhere in [s]. *)
Definition contains (sub s : text) : Prop := ∃ a b, s = a ++ sub ++ b.

(** [code] holds a class header the resolver recognises: the word [class],
    white space, a name made of word characters, and [(Scene):]. *)
Definition scene_header (alnum : N → bool) (code name : text) : Prop :=
  ∃ pre ws post,
    code = pre ++ py "class" ++ ws ++ name ++ py "(Scene):" ++ post
    ∧ ws ≠ [] ∧ Forall (λ c, in_class alnum ClsSpace c = true) ws
    ∧ name ≠ [] ∧ Forall (λ c, in_class alnum ClsWord c = true) name.

(** The error a handler sends when its own [except] catches [e]. *)
Definition wrapped `{Library} (prefix : text) (e : exn) : exn :=
  HTTPException 500 (prefix ++ str_exn e).

(** What [generate_code] of main.py does with the text of the reply. *)
Definition main_reply `{Library} (content : text) : result CodeGenerationResult :=
  code ← extract_code content;
  _ ← print [Str (py "Final code to render:" ++ NL); Str code];
  metadata ← extract_metadata content;
  Return {| code := code; metadata := metadata |}.

(** The statements of [generate_animation] that run before the scene is
    looked for, in main.py and in server.py. *)
Definition main_scratch `{Library} (w : World) (request : AnimationRequest) : result unit :=
  temp_dir ← TemporaryDirectory w;
  write_text w (path_join temp_dir (py "animation.py")) (anim_code request).

Definition server_scratch `{Library} (w : World) (request : AnimationRequest) : result unit :=
  _ ← print [Str (py "Received animation request!")];
  _ ← print [Str (py "Code received:" ++ NL); Str (anim_code request)];
  temp_dir ← TemporaryDirectory w;
  write_text w (path_join temp_dir (py "animation.py")) (anim_code request).

(** The scratch directory was made and the code written into it: the
    directory and the file could be made, and the code could be encoded. *)
Definition scratch_written (w : World) (request : AnimationRequest) : Prop :=
  mkdtemp_error w = None
  ∧ open_error w (path_join (temp_dir w) (py "animation.py")) = None
  ∧ encodable (anim_code request) = true
  ∧ write_error w (path_join (temp_dir w) (py "animation.py")) (anim_code request) = None.

(** The [try] block of main.py once the scene is known. *)
Definition main_render `{Library} (w : World) (request : AnimationRequest) (scene_name : text)
  : result AnimationResponse :=
  result ← subprocess_run w
             (render_command (quality request)
                (path_join (temp_dir w) (py "animation.py")) scene_name) (temp_dir w);
  if negb (returncode result =? 0) then
    Raise (HTTPException 500 (py "Manim error: " ++ stderr result))
  else
    output_files ← rglob w (temp_dir w) (py "animation*." ++ format request);
    match output_files with
    | [] => Raise (HTTPException 500 (py "No output file generated"))
    | output_file :: _ =>
        duration ← read_duration w (temp_dir w);
        _ ← mkdir w (py "outputs");
        _ ← rename w output_file (path_join (py "outputs") (path_name output_file));
        new_AnimationResponse (path_join (py "outputs") (path_name output_file)) duration
    end.

(** The [try] block of server.py once the scene is known. *)
Definition server_render `{Library} (w : World) (request : AnimationRequest) (scene_name : text)
  : result AnimationResponse :=
  result ← subprocess_run w
             (render_command (quality request)
                (path_join (temp_dir w) (py "animation.py")) scene_name) (temp_dir w);
  if negb (returncode result =? 0) then
    Raise (HTTPException 500 (py "Manim error: " ++ stderr result))
  else
    output_files ← rglob w (temp_dir w) (py "animation*." ++ format request);
    match output_files with
    | [] => Raise (HTTPException 500 (py "No output file generated"))
    | output_file :: _ =>
        duration ← read_duration w (temp_dir w);
        _ ← mkdir w (py "outputs/temp");
        _ ← shutil_move w output_file
              (path_join (py "outputs/temp") (path_name output_file));
        new_AnimationResponse (py "outputs/temp/" ++ path_name output_file) duration
    end.

(** The label and text of one earlier version in the prompt of
    [update_code]. *)
Definition history_entry (idx : nat) (prev_code : text) : text :=
  py "Previous code version " ++ py (pretty (idx + 1)%nat)
  ++ py ":" ++ NL ++ prev_code ++ NL ++ NL.

(** A world that differs from [w] only in that [path] exists. *)
Definition with_file (w : World) (path : text) : World :=
  {| getenv_OPENAI_API_KEY := getenv_OPENAI_API_KEY w;
     openai_init_error := openai_init_error w;
     models_list := models_list w;
     chat_completions_create := chat_completions_create w;
     mkdtemp_error := mkdtemp_error w;
     temp_dir := temp_dir w;
     open_error := open_error w;
     write_error := write_error w;
     subprocess_run := subprocess_run w;
     rglob := rglob w;
     path_exists := λ p, bool_decide (p = path) || path_exists w p;
     read_file := read_file w;
     mkdir := mkdir w;
     rename := rename w;
     shutil_move := shutil_move w |}.

(** The round-trip document of the specification's test list. *)
Definition font_metadata_text : text :=
  pyq "[{'id':'t1','type':'text','start':0,'duration':2,'properties':{'font_size':{'type':'number','value':48}}}]".

Definition font_metadata : json :=
  JList [ JDict [(py "id", JStr (py "t1")); (py "type", JStr (py "text"));
                 (py "start", JInt 0); (py "duration", JInt 2);
                 (py "properties",
                  JDict [(py "font_size",
                          JDict [(py "type", JStr (py "number"));
                                 (py "value", JInt 48)])])] ].

Definition reply_font : text :=
  py "```python" ++ NL ++ py "from manim import *" ++ NL ++ py "font_size = 48" ++ NL
  ++ py "```" ++ NL ++ py "```json" ++ NL ++ font_metadata_text ++ NL ++ py "```".

(** A world with an [animation.json] holding [src]. *)
Definition world_with_json (src : text) (files : list text) : World :=
  {| getenv_OPENAI_API_KEY := None;
     openai_init_error := λ _, None;
     models_list := λ _, Return ();
     chat_completions_create := λ _ _, Return None;
     mkdtemp_error := None;
     temp_dir := py "/tmp/tmpq1w2e3";
     open_error := λ _, None;
     write_error := λ _ _, None;
     subprocess_run := λ _ _, Return (finished 0 []);
     rglob := λ _ _, Return files;
     path_exists := λ _, true;
     read_file := λ _, Return src;
     mkdir := λ _, Return ();
     rename := λ _ _, Return ();
     shutil_move := λ _ _, Return () |}.

(** A world in which the LLM accepts the key [good] only, and answers
    [content] to it. *)
Definition keyed_world (good content : text) : World :=
  {| getenv_OPENAI_API_KEY := Some good;
     openai_init_error := λ _, None;
     models_list := λ client,
       if bool_decide (client_api_key client = Some good) then Return ()
       else Raise (Error (py "Incorrect API key provided"));
     chat_completions_create := λ client _,
       if bool_decide (client_api_key client = Some good) then Return (Some content)
       else Raise (Error (py "Incorrect API key provided"));
     mkdtemp_error := None;
     temp_dir := py "/tmp/tmpq1w2e3";
     open_error := λ _, None;
     write_error := λ _ _, None;
     subprocess_run := λ _ _, Raise (Error (py "unused"));
     rglob := λ _ _, Return [];
     path_exists := λ _, false;
     read_file := λ _, Raise (Error (py "unused"));
     mkdir := λ _, Return ();
     rename := λ _ _, Return ();
     shutil_move := λ _ _, Return () |}.

(** A world whose OpenAI client cannot be built or whose calls fail. *)
Definition failing_world (init : option exn) (call : exn) : World :=
  {| getenv_OPENAI_API_KEY := Some (py "sk-env");
     openai_init_error := λ _, init;
     models_list := λ _, Raise call;
     chat_completions_create := λ _ _, Raise call;
     mkdtemp_error := None;
     temp_dir := py "/tmp/tmpq1w2e3";
     open_error := λ _, None;
     write_error := λ _ _, None;
     subprocess_run := λ _ _, Raise call;
     rglob := λ _ _, Return [];
     path_exists := λ _, false;
     read_file := λ _, Raise call;
     mkdir := λ _, Return ();
     rename := λ _ _, Return ();
     shutil_move := λ _ _, Return () |}.

(** * Properties *)

(** ** The string operations on small inputs *)

Example find_ex1 : find (py "abcabc") (py "bc") 2 = 4.
Proof. reflexivity. Qed.
Example find_ex2 : find (py "abc") (py "") 4 = -1.
Proof. reflexivity. Qed.
Example find_ex3 : find (py "abc") (py "") 3 = 3.
Proof. reflexivity. Qed.
Example strip_ex : strip (py "  a b  ") = py "a b".
Proof. reflexivity. Qed.
Example splitlines_ex :
  splitlines (py "ab" ++ [13%N; 10%N] ++ py "c" ++ NL ++ NL) = [py "ab"; py "c"; []].
Proof. reflexivity. Qed.
Example scene_ex1 f :
  scene_name_of f (py "class Foo(Scene):" ++ NL ++ py "    pass") = Some (py "Foo").
Proof. reflexivity. Qed.
Example scene_ex2 f :
  scene_name_of f (py "x = 1; class   My_Scene2(Scene): pass") = Some (py "My_Scene2").
Proof. reflexivity. Qed.
Example scene_ex3 f : scene_name_of f (py "class Foo(ThreeDScene):") = None.
Proof. reflexivity. Qed.

(** ** Searching *)

Lemma startswith_prefix (s sub : text) :
  startswith s sub = true ↔ sub `prefix_of` s.
Proof.
  revert s. induction sub as [|c sub IH]; intros s; simpl.
  - split; [intros _; apply prefix_nil | done].
  - destruct s as [|d s].
    + split; [done | intros [k Hk]; done].
    + rewrite andb_true_iff, N.eqb_eq, IH. split.
      * intros [-> Hp]. by apply prefix_cons.
      * intros Hp. split; [by apply prefix_cons_inv_1 in Hp | by apply prefix_cons_inv_2 in Hp].
Qed.

Lemma occurs_at_0 (sub s : text) : occurs_at sub s 0 ↔ sub `prefix_of` s.
Proof. done. Qed.

Lemma occurs_at_S (sub s : text) c n :
  occurs_at sub (c :: s) (S n) ↔ occurs_at sub s n.
Proof. done. Qed.

Lemma occurs_at_drop (sub s : text) k n :
  occurs_at sub (drop k s) n ↔ occurs_at sub s (k + n).
Proof. unfold occurs_at. by rewrite drop_drop. Qed.

Lemma occurs_at_bound (sub s : text) n :
  sub ≠ [] → occurs_at sub s n → (n + length sub ≤ length s)%nat.
Proof.
  intros Hne [k Hk]. assert (Hl := f_equal length Hk).
  rewrite length_drop, length_app in Hl.
  destruct sub; [done|]. simpl in *. lia.
Qed.

Lemma occurs_at_head (sub s : text) c n :
  occurs_at (c :: sub) s n → s !! n = Some c.
Proof.
  intros [k Hk]. rewrite <- (Nat.add_0_r n), <- lookup_drop, Hk. done.
Qed.

Lemma occurs_at_app (sub pre s : text) n :
  occurs_at sub s n → occurs_at sub (pre ++ s) (length pre + n).
Proof. unfold occurs_at. by rewrite drop_app_add. Qed.

Lemma occurs_at_app_inv (sub pre s : text) n :
  (length pre ≤ n)%nat → occurs_at sub (pre ++ s) n → occurs_at sub s (n - length pre).
Proof. unfold occurs_at. intros Hn. by rewrite drop_app_ge. Qed.

Lemma search_Some (sub s : text) k : search sub s = Some k → first_at sub s k.
Proof.
  revert k. induction s as [|c s IH]; intros k; simpl.
  - destruct (startswith [] sub) eqn:E; [|done]. intros [= <-].
    split; [by apply startswith_prefix | lia].
  - destruct (startswith (c :: s) sub) eqn:E.
    + intros [= <-]. split; [by apply startswith_prefix | lia].
    + destruct (search sub s) as [k'|]; simpl; [|done]. intros [= <-].
      destruct (IH _ eq_refl) as [H1 H2]. split; [done|].
      intros [|m] Hm.
      * rewrite occurs_at_0, <- startswith_prefix. congruence.
      * rewrite occurs_at_S. apply H2. lia.
Qed.

Lemma search_None (sub s : text) : search sub s = None → ∀ n, ¬ occurs_at sub s n.
Proof.
  induction s as [|c s IH]; simpl.
  - destruct (startswith [] sub) eqn:E; [done|]. intros _ n.
    unfold occurs_at. rewrite drop_nil, <- startswith_prefix. congruence.
  - destruct (startswith (c :: s) sub) eqn:E; [done|].
    destruct (search sub s); [done|]. intros _ [|n].
    + rewrite occurs_at_0, <- startswith_prefix. congruence.
    + rewrite occurs_at_S. by apply IH.
Qed.

Lemma first_at_unique (sub s : text) n m :
  first_at sub s n → first_at sub s m → n = m.
Proof.
  intros [Hn Hn'] [Hm Hm']. destruct (Nat.lt_trichotomy n m) as [?|[?|?]]; [|done|].
  - by destruct (Hm' n).
  - by destruct (Hn' m).
Qed.

Lemma first_at_search (sub s : text) k : first_at sub s k → search sub s = Some k.
Proof.
  intros Hk. destruct (search sub s) as [k'|] eqn:E.
  - f_equal. eapply first_at_unique; [by apply search_Some | done].
  - destruct Hk as [Hk _]. by destruct (search_None _ _ E k).
Qed.

(** Skipping a prefix in which the first character of [sub] does not occur. *)
Lemma first_at_app (c : N) (sub pre s : text) k :
  Forall (λ d, d ≠ c) pre →
  first_at (c :: sub) s k → first_at (c :: sub) (pre ++ s) (length pre + k).
Proof.
  intros Hpre [Hk Hmin]. split; [by apply occurs_at_app|].
  intros m Hm Hocc. destruct (decide (m < length pre)%nat) as [Hlt|Hge].
  - apply occurs_at_head in Hocc. rewrite lookup_app_l in Hocc by done.
    rewrite Forall_lookup in Hpre. by destruct (Hpre _ _ Hocc).
  - apply occurs_at_app_inv in Hocc; [|lia]. destruct (Hmin (m - length pre)%nat); [lia|done].
Qed.

Lemma first_at_app_inv (c : N) (sub pre s : text) k :
  Forall (λ d, d ≠ c) pre →
  first_at (c :: sub) (pre ++ s) k →
  (length pre ≤ k)%nat ∧ first_at (c :: sub) s (k - length pre).
Proof.
  intros Hpre [Hk Hmin].
  assert (length pre ≤ k)%nat as Hle.
  { destruct (decide (k < length pre)%nat) as [Hlt|]; [|lia].
    apply occurs_at_head in Hk. rewrite lookup_app_l in Hk by done.
    rewrite Forall_lookup in Hpre. by destruct (Hpre _ _ Hk). }
  split; [done|]. split; [by apply occurs_at_app_inv|].
  intros m Hm Hocc. apply (Hmin (length pre + m)%nat); [lia|]. by apply occurs_at_app.
Qed.

(** ** [find] and slices *)

Lemma find_from (s sub : text) (st k : nat) :
  (st ≤ length s)%nat → first_at sub (drop st s) k →
  find s sub (Z.of_nat st) = Z.of_nat (st + k).
Proof.
  intros Hst Hk. unfold find.
  destruct (Z.ltb_spec (Z.of_nat st) 0); [lia|].
  destruct (Z.ltb_spec (Z.of_nat (length s)) (Z.of_nat st)); [lia|].
  rewrite Nat2Z.id, (first_at_search _ _ _ Hk). lia.
Qed.

Lemma find_first (s sub : text) (n : nat) :
  sub ≠ [] → first_at sub s n → find s sub 0 = Z.of_nat n.
Proof.
  intros Hne Hn. apply (find_from s sub 0 n); [lia | done].
Qed.

Lemma find_none (s sub : text) (st : nat) :
  sub ≠ [] → (∀ n, (st ≤ n)%nat → ¬ occurs_at sub s n) →
  find s sub (Z.of_nat st) = -1.
Proof.
  intros Hne Hno. unfold find.
  destruct (Z.ltb_spec (Z.of_nat st) 0); [lia|].
  destruct (Z.ltb_spec (Z.of_nat (length s)) (Z.of_nat st)); [done|].
  rewrite Nat2Z.id. destruct (search sub (drop st s)) as [k|] eqn:E; [|done].
  apply search_Some in E as [E _]. apply occurs_at_drop in E.
  destruct (Hno (st + k)%nat); [lia | done].
Qed.

(** What a result of [find] says about the text. *)
Lemma find_inv (s sub : text) (st : nat) :
  sub ≠ [] →
  (find s sub (Z.of_nat st) = -1 ∧ ∀ n, (st ≤ n)%nat → ¬ occurs_at sub s n)
  ∨ (∃ k, find s sub (Z.of_nat st) = Z.of_nat (st + k)
          ∧ (st ≤ length s)%nat ∧ first_at sub (drop st s) k).
Proof.
  intros Hne. unfold find.
  destruct (Z.ltb_spec (Z.of_nat st) 0); [lia|].
  destruct (Z.ltb_spec (Z.of_nat (length s)) (Z.of_nat st)).
  - left. split; [done|]. intros n Hn Hocc.
    apply occurs_at_bound in Hocc; [lia | done].
  - rewrite Nat2Z.id. destruct (search sub (drop st s)) as [k|] eqn:E.
    + right. exists k. split; [lia|]. split; [lia|]. by apply search_Some.
    + left. split; [done|]. intros n Hn Hocc.
      apply (search_None _ _ E (n - st)%nat). apply occurs_at_drop.
      by replace (st + (n - st))%nat with n by lia.
Qed.

Lemma slice_nat (s : text) (a b : nat) :
  (a ≤ b ≤ length s)%nat →
  slice s (Z.of_nat a) (Z.of_nat b) = take (b - a) (drop a s).
Proof.
  intros Hab. unfold slice, clamp.
  destruct (Z.ltb_spec (Z.of_nat a) 0); [lia|].
  destruct (Z.ltb_spec (Z.of_nat b) 0); [lia|].
  rewrite !Z.min_l, !Nat2Z.id by lia. done.
Qed.

Lemma slice_from_nat (s : text) (a : nat) :
  (a ≤ length s)%nat → slice_from s (Z.of_nat a) = drop a s.
Proof.
  intros Ha. unfold slice_from, clamp.
  destruct (Z.ltb_spec (Z.of_nat a) 0); [lia|].
  rewrite Z.min_l, Nat2Z.id by lia. done.
Qed.

(** ** Stripping *)

Lemma lstrip_app_nonspace (l r : text) c :
  isspace c = false → lstrip (l ++ c :: r) = lstrip l ++ c :: r.
Proof.
  intros Hc. induction l as [|d l IH]; simpl.
  - by rewrite Hc.
  - destruct (isspace d); [done|]. done.
Qed.

Lemma rstrip_cons_nonspace (s : text) c :
  isspace c = false → rstrip (c :: s) = c :: rstrip s.
Proof.
  intros Hc. unfold rstrip. rewrite reverse_cons.
  rewrite <- (app_nil_r (reverse s ++ [c])), <- app_assoc. simpl.
  rewrite lstrip_app_nonspace by done.
  by rewrite reverse_app.
Qed.

Lemma strip_cons_nonspace (s : text) c :
  isspace c = false → strip (c :: s) = c :: rstrip s.
Proof.
  intros Hc. unfold strip. rewrite rstrip_cons_nonspace by done. simpl. by rewrite Hc.
Qed.

(** The characters removed on the left are white space. *)
Lemma lstrip_split (s : text) :
  ∃ ws, s = ws ++ lstrip s ∧ Forall (λ c, isspace c = true) ws.
Proof.
  induction s as [|c s (ws & Hs & Hws)]; simpl.
  - by exists [].
  - destruct (isspace c) eqn:Hc.
    + exists (c :: ws). split; [simpl; congruence | by constructor].
    + by exists [].
Qed.

(** ** Fenced blocks and what [find] sees of them *)

Lemma fence_tag_nonempty (tag : text) : fence ++ tag ≠ [].
Proof. done. Qed.

Lemma isspace_not (c d : N) : isspace c = true → isspace d = false → c ≠ d.
Proof. congruence. Qed.

(** An occurrence splits the text around it. *)
Lemma occurs_at_split (sub s : text) k :
  sub ≠ [] → occurs_at sub s k →
  ∃ rest, s = take k s ++ sub ++ rest ∧ length (take k s) = k
          ∧ drop (k + length sub) s = rest.
Proof.
  intros Hne Hocc. pose proof (occurs_at_bound _ _ _ Hne Hocc) as Hb.
  destruct Hocc as [rest Hrest]. exists rest.
  split; [by rewrite <- Hrest, take_drop|].
  split; [rewrite length_take; lia|].
  by rewrite <- drop_drop, Hrest, drop_app_length.
Qed.

(** The python block as the handlers cut it: the search for the closing
    fence and the slice both start at [code_start + 8], on the last letter
    of the nine-character opening marker. *)
Lemma python_block_slice (content inner : text) :
  fenced_block (py "python") content inner →
  ∃ cs : nat,
    find content (py "```python") 0 = Z.of_nat cs
    ∧ find content (py "```") (Z.of_nat cs + 8) = Z.of_nat (cs + 9 + length inner)
    ∧ slice content (Z.of_nat cs + 8) (Z.of_nat (cs + 9 + length inner))
      = 110%N :: inner.
Proof.
  intros (pre & post & -> & Hopen & Hclose). exists (length pre).
  assert (drop (length pre + 8) (pre ++ (fence ++ py "python") ++ inner ++ fence ++ post)
          = [110%N] ++ inner ++ fence ++ post) as Hdrop.
  { by rewrite drop_app_add. }
  assert (length pre + 9 + length inner + 3
          ≤ length (pre ++ (fence ++ py "python") ++ inner ++ fence ++ post))%nat as Hlen.
  { rewrite !length_app. simpl. lia. }
  split; [by apply find_first|].
  replace (Z.of_nat (length pre) + 8) with (Z.of_nat (length pre + 8)) by lia.
  split.
  - rewrite (find_from _ _ _ (S (length inner))); [f_equal; lia | lia |].
    rewrite Hdrop. apply (first_at_app 96%N [96%N; 96%N] [110%N]); [|done].
    by repeat constructor.
  - rewrite slice_nat by lia.
    replace (length pre + 9 + length inner - (length pre + 8))%nat
      with (S (length inner)) by lia.
    rewrite Hdrop. simpl. by rewrite take_app_length.
Qed.

Lemma python_block_found (content : text) :
  find content (py "```python") 0 ≠ -1 →
  find content (py "```") (find content (py "```python") 0 + 8) ≠ -1 →
  ∃ inner, fenced_block (py "python") content inner.
Proof.
  intros Hs He.
  destruct (find_inv content (py "```python") 0) as [[? _]|(k & Hk & _ & Hfirst)];
    [done | done |].
  change (Z.of_nat 0) with 0 in Hk. rewrite Nat.add_0_l in Hk. rewrite Hk in He.
  rewrite drop_0 in Hfirst. clear Hs Hk.
  destruct (occurs_at_split _ _ _ (fence_tag_nonempty (py "python")) (proj1 Hfirst))
    as (rest & Hcontent & Hpre & Hrest).
  replace (Z.of_nat k + 8) with (Z.of_nat (k + 8)) in He by lia.
  destruct (find_inv content (py "```") (k + 8)) as [[? _]|(j & _ & _ & Hj)];
    [done | done |].
  assert (drop (k + 8) content = [110%N] ++ rest) as Hdrop.
  { rewrite Hcontent at 1. rewrite <- Hpre at 1. by rewrite drop_app_add. }
  rewrite Hdrop in Hj.
  apply (first_at_app_inv 96%N [96%N; 96%N] [110%N]) in Hj as [Hle Hj];
    [|by repeat constructor].
  simpl in Hle, Hj.
  destruct (occurs_at_split (py "```") rest _ ltac:(done) (proj1 Hj))
    as (post & Hsplit & Hinner & _).
  change (py "```") with fence in Hsplit, Hj.
  exists (take (j - 1) rest), (take k content), post.
  split; [by rewrite <- Hsplit|]. split; [by rewrite Hpre|].
  by rewrite Hinner, <- Hsplit.
Qed.

(** The json block: here the offset [7] is the length of the marker. *)
Lemma json_block_slice (content inner : text) :
  fenced_block (py "json") content inner →
  ∃ ms : nat,
    find content (py "```json") 0 = Z.of_nat ms
    ∧ find content (py "```") (Z.of_nat ms + 7) = Z.of_nat (ms + 7 + length inner)
    ∧ slice content (Z.of_nat ms + 7) (Z.of_nat (ms + 7 + length inner)) = inner.
Proof.
  intros (pre & post & -> & Hopen & Hclose). exists (length pre).
  assert (drop (length pre + 7) (pre ++ (fence ++ py "json") ++ inner ++ fence ++ post)
          = inner ++ fence ++ post) as Hdrop.
  { by rewrite drop_app_add. }
  assert (length pre + 7 + length inner + 3
          ≤ length (pre ++ (fence ++ py "json") ++ inner ++ fence ++ post))%nat as Hlen.
  { rewrite !length_app. simpl. lia. }
  split; [by apply find_first|].
  replace (Z.of_nat (length pre) + 7) with (Z.of_nat (length pre + 7)) by lia.
  split.
  - rewrite (find_from _ _ _ (length inner)); [f_equal; lia | lia |]. by rewrite Hdrop.
  - rewrite slice_nat by lia.
    replace (length pre + 7 + length inner - (length pre + 7))%nat
      with (length inner) by lia.
    by rewrite Hdrop, take_app_length.
Qed.

Lemma json_block_found (content : text) :
  find content (py "```json") 0 ≠ -1 →
  find content (py "```") (find content (py "```json") 0 + 7) ≠ -1 →
  fenced_block (py "json") content
    (slice content (find content (py "```json") 0 + 7)
       (find content (py "```") (find content (py "```json") 0 + 7))).
Proof.
  intros Hs He.
  destruct (find_inv content (py "```json") 0) as [[? _]|(k & Hk & _ & Hfirst)];
    [done | done |].
  change (Z.of_nat 0) with 0 in Hk. rewrite Nat.add_0_l in Hk. rewrite Hk in He |- *.
  rewrite drop_0 in Hfirst. clear Hs Hk.
  destruct (occurs_at_split _ _ _ (fence_tag_nonempty (py "json")) (proj1 Hfirst))
    as (rest & Hcontent & Hpre & Hrest).
  replace (Z.of_nat k + 7) with (Z.of_nat (k + 7)) in He |- * by lia.
  destruct (find_inv content (py "```") (k + 7)) as [[? _]|(j & Hfind & Hbound & Hj)];
    [done | done |].
  rewrite Hfind. change (k + length (fence ++ py "json"))%nat with (k + 7)%nat in Hrest.
  rewrite Hrest in Hj.
  destruct (occurs_at_split (py "```") rest _ ltac:(done) (proj1 Hj))
    as (post & Hsplit & Hinner & _).
  assert (j + 3 ≤ length rest)%nat as Hjl.
  { apply (occurs_at_bound (py "```")); [done | apply Hj]. }
  assert (length rest = length content - (k + 7))%nat as Hrl.
  { by rewrite <- Hrest, length_drop. }
  rewrite slice_nat by lia.
  replace (k + 7 + j - (k + 7))%nat with j by lia. rewrite Hrest.
  change (py "```") with fence in Hsplit, Hj.
  exists (take k content), post.
  split; [by rewrite <- Hsplit|]. split; [by rewrite Hpre|].
  by rewrite Hinner, <- Hsplit.
Qed.

(** ** The extraction steps *)

Lemma extract_code_block (content inner : text) :
  fenced_block (py "python") content inner →
  extract_code content
  = Return (let code := 110%N :: rstrip inner in
            let manim_index := find code import_marker 0 in
            if negb (manim_index =? -1) then slice_from code manim_index else code).
Proof.
  intros Hblock. destruct (python_block_slice _ _ Hblock) as (cs & Hs & He & Hslice).
  unfold extract_code. cbv zeta. rewrite Hs, He, Hslice.
  destruct (Z.eqb_spec (Z.of_nat cs) (-1)); [lia|].
  destruct (Z.eqb_spec (Z.of_nat (cs + 9 + length inner)) (-1)); [lia|].
  simpl orb. cbv iota. by rewrite strip_cons_nonspace.
Qed.

Lemma import_marker_nonempty : import_marker ≠ [].
Proof. by intros [=]. Qed.

Lemma extract_code_marker (content inner a b : text) :
  fenced_block (py "python") content inner →
  strip inner = a ++ import_marker ++ b →
  first_at import_marker (strip inner) (length a) →
  extract_code content = Return (import_marker ++ b).
Proof.
  intros Hblock Hstrip Hfirst. rewrite (extract_code_block _ _ Hblock). cbv zeta.
  destruct (lstrip_split (rstrip inner)) as (ws & Hws & Hspace).
  fold (strip inner) in Hws.
  assert (first_at import_marker (110%N :: rstrip inner) (length (110%N :: ws) + length a))
    as Hcode.
  { rewrite Hws. apply (first_at_app 102%N (tail import_marker) (110%N :: ws)); [|done].
    constructor; [done|]. eapply Forall_impl; [done|]. intros c Hc. by apply isspace_not. }
  rewrite (find_first _ _ _ import_marker_nonempty Hcode).
  destruct (Z.eqb_spec (Z.of_nat (length (110%N :: ws) + length a)) (-1)); [lia|].
  simpl negb. cbv iota. rewrite slice_from_nat.
  - f_equal. rewrite Hws at 1. rewrite (app_comm_cons ws), drop_app_add.
    by rewrite Hstrip, drop_app_length.
  - pose proof (occurs_at_bound _ _ _ import_marker_nonempty (proj1 Hcode)). lia.
Qed.

Lemma extract_code_missing (content : text) :
  ¬ (∃ inner, fenced_block (py "python") content inner) →
  extract_code content
  = Raise (HTTPException 500 (py "Failed to extract code from response")).
Proof.
  intros Hno. unfold extract_code. cbv zeta.
  destruct (Z.eqb_spec (find content (py "```python") 0) (-1)) as [|Hs]; [done|].
  destruct (Z.eqb_spec (find content (py "```")
                          (find content (py "```python") 0 + 8)) (-1)) as [|He]; [done|].
  destruct Hno. by apply python_block_found.
Qed.

Lemma extract_code_found (content code : text) :
  extract_code content = Return code →
  ∃ inner, fenced_block (py "python") content inner.
Proof.
  intros Hret. unfold extract_code in Hret. cbv zeta in Hret.
  destruct (Z.eqb_spec (find content (py "```python") 0) (-1)) as [|Hs]; [done|].
  destruct (Z.eqb_spec (find content (py "```")
                          (find content (py "```python") 0 + 8)) (-1)) as [|He]; [done|].
  by apply python_block_found.
Qed.

Lemma unterminated_no_block (tag content : text) :
  unterminated_block tag content → ¬ (∃ inner, fenced_block tag content inner).
Proof.
  intros (n & Hn & Hno) (inner & pre & post & Hcontent & Hopen & Hclose).
  rewrite (first_at_unique _ _ _ _ Hn Hopen) in Hno.
  apply (Hno (length pre + length (fence ++ tag) + length inner)%nat); [lia|].
  rewrite Hcontent. unfold occurs_at.
  rewrite <- Nat.add_assoc, drop_app_add, drop_app_add, drop_app_length.
  by exists post.
Qed.

Lemma extract_updated_code_missing (content : text) :
  ¬ (∃ inner, fenced_block (py "python") content inner) →
  extract_updated_code content = strip content.
Proof.
  intros Hno. unfold extract_updated_code. cbv zeta.
  destruct (Z.eqb_spec (find content (py "```python") 0) (-1)) as [|Hs]; [done|].
  destruct (Z.eqb_spec (find content (py "```")
                          (find content (py "```python") 0 + 8)) (-1)) as [|He]; [done|].
  destruct Hno. by apply python_block_found.
Qed.

Section metadata_facts.
Context `{Library}.

Lemma extract_metadata_absent (content : text) :
  (∀ n, ¬ occurs_at (py "```json") content n) →
  extract_metadata content = Return (JList []).
Proof.
  intros Hno. unfold extract_metadata. cbv zeta.
  pose proof (find_none content (py "```json") 0 ltac:(done) (λ n _, Hno n)) as Hfind.
  change (Z.of_nat 0) with 0 in Hfind. by rewrite Hfind.
Qed.

Lemma extract_metadata_unterminated (content : text) :
  unterminated_block (py "json") content → extract_metadata content = Return (JList []).
Proof.
  intros (n & Hn & Hno). unfold extract_metadata. cbv zeta.
  pose proof (find_first _ _ _ (fence_tag_nonempty _) Hn) as Hfind.
  change (fence ++ py "json") with (py "```json") in Hfind. rewrite Hfind.
  replace (Z.of_nat n + 7) with (Z.of_nat (n + 7)) by lia.
  rewrite (find_none content (py "```") (n + 7)); [|done|exact Hno].
  by rewrite orb_true_r.
Qed.

Lemma extract_metadata_block (content inner : text) :
  fenced_block (py "json") content inner →
  extract_metadata content
  = match json_loads (strip inner) with
    | Decoded v => Return v
    | JSONDecodeError _ => Return (JList [])
    | OtherError msg => Raise (Error msg)
    end.
Proof.
  intros Hblock. destruct (json_block_slice _ _ Hblock) as (ms & Hs & He & Hslice).
  unfold extract_metadata. cbv zeta. rewrite Hs, He, Hslice.
  destruct (Z.eqb_spec (Z.of_nat ms) (-1)); [lia|].
  destruct (Z.eqb_spec (Z.of_nat (ms + 7 + length inner)) (-1)); [lia|]. done.
Qed.

Lemma extract_metadata_inv (content : text) (m : json) :
  extract_metadata content = Return m →
  m = JList []
  ∨ ∃ inner, fenced_block (py "json") content inner
             ∧ json_loads (strip inner) = Decoded m.
Proof.
  unfold extract_metadata. cbv zeta.
  destruct (Z.eqb_spec (find content (py "```json") 0) (-1)) as [|Hs];
    [intros [= <-]; by left|].
  destruct (Z.eqb_spec (find content (py "```")
                          (find content (py "```json") 0 + 7)) (-1)) as [|He];
    [intros [= <-]; by left|].
  simpl orb. cbv iota.
  destruct (json_loads _) as [v|msg|msg] eqn:Hv; intros [= <-]; [|by left].
  right. eexists. split; [by apply json_block_found | done].
Qed.

End metadata_facts.

(** ** The handlers, once the LLM has answered *)

Lemma bind_Return {A B} (a : A) (f : A → result B) : (Return a ≫= f) = f a.
Proof. done. Qed.


Lemma bind_Raise {A B} (e : exn) (f : A → result B) : (Raise e ≫= f) = Raise e.
Proof. done. Qed.

(** What [print] does with a literal and text of a request or a reply. *)
Lemma forallb_app_true {A} (f : A → bool) (l r : list A) :
  forallb f (l ++ r) = true ↔ forallb f l = true ∧ forallb f r = true.
Proof. rewrite forallb_app. apply andb_true_iff. Qed.

Lemma encodable_app (l r : text) :
  encodable (l ++ r) = true ↔ encodable l = true ∧ encodable r = true.
Proof. apply forallb_app_true. Qed.

Lemma encodable_ascii (s : string) : encodable (py s) = true.
Proof.
  unfold encodable, py. induction (list_ascii_of_string s) as [|a l IH]; [done|].
  cbn [fmap list_fmap forallb]. rewrite IH, andb_true_r.
  by destruct a as [[] [] [] [] [] [] [] []].
Qed.

Section handler_facts.
Context `{Library} (w : World).

Lemma print_request request :
  print [Str (py "Received /api/generate-code request:"); Obj (Main.request_dict request)]
  = Return ().
Proof. cbn [print]. by rewrite encodable_ascii. Qed.

Lemma print_code (code : text) :
  print [Str (py "Final code to render:" ++ NL); Str code]
  = if encodable code then Return () else Raise (Error (unicode_encode_error code)).
Proof.
  cbn [print].
  replace (encodable (py "Final code to render:" ++ NL)) with true; [done|].
  symmetry. apply encodable_app. split; [apply encodable_ascii | done].
Qed.

(** The handlers after the first lines: the client, then the [try]. *)
Lemma main_generate_code_eq request :
  Main.generate_code w request
  = (client ← AsyncOpenAI w (py_or (api_key request) (getenv_OPENAI_API_KEY w));
     try_except
       (content ← chat_completions_create w client (Main.chat_request request);
        content ← as_str content;
        main_reply content)
       (λ e, Raise (HTTPException 500 (py "Failed to generate code: " ++ str_exn e)))).
Proof. unfold Main.generate_code. cbv zeta. by rewrite print_request, bind_Return. Qed.

Lemma main_reply_missing (content : text) e :
  extract_code content = Raise e → main_reply content = Raise e.
Proof. intros Hcode. unfold main_reply. by rewrite Hcode. Qed.

Lemma main_reply_found (content code : text) :
  extract_code content = Return code →
  main_reply content
  = if encodable code then
      metadata ← extract_metadata content;
      Return {| code := code; metadata := metadata |}
    else Raise (Error (unicode_encode_error code)).
Proof.
  intros Hcode. unfold main_reply. rewrite Hcode, bind_Return, print_code.
  by destruct (encodable code).
Qed.

Lemma main_reply_inv (content : text) r :
  main_reply content = Return r →
  extract_code content = Return (code r)
  ∧ encodable (code r) = true
  ∧ extract_metadata content = Return (metadata r).
Proof.
  destruct (extract_code content) as [c|e] eqn:Hcode;
    [rewrite (main_reply_found _ _ Hcode) | by rewrite (main_reply_missing _ _ Hcode)].
  destruct (encodable c) eqn:Hc; [|done].
  destruct (extract_metadata content) as [m|e]; [|done]. by intros [= <-].
Qed.

Lemma main_generate_code_answered request content :
  answers w (py_or (api_key request) (getenv_OPENAI_API_KEY w))
    (Main.chat_request request) content →
  Main.generate_code w request
  = try_except (main_reply content)
      (λ e, Raise (HTTPException 500 (py "Failed to generate code: " ++ str_exn e))).
Proof.
  intros [Hinit Hchat]. rewrite main_generate_code_eq. unfold AsyncOpenAI.
  rewrite Hinit. simpl. by rewrite Hchat.
Qed.

Lemma server_generate_code_answered request content :
  answers w (py_or (api_key request) (getenv_OPENAI_API_KEY w))
    (Server.chat_request request) content →
  Server.generate_code w request
  = try_except (extract_code content)
      (λ e, Raise (HTTPException 500 (py "Failed to generate code: " ++ str_exn e))).
Proof.
  intros [Hinit Hchat]. unfold Server.generate_code, AsyncOpenAI. cbv zeta.
  rewrite Hinit. simpl. by rewrite Hchat.
Qed.

Lemma main_update_code_answered request content :
  answers w (getenv_OPENAI_API_KEY w)
    (Main.update_chat_request (Main.update_prompt request)) content →
  Main.update_code w request = Return (extract_updated_code content).
Proof.
  intros [Hinit Hchat]. unfold Main.update_code, AsyncOpenAI. cbv zeta.
  rewrite Hinit. simpl. by rewrite Hchat.
Qed.
End handler_facts.

(** ** The scene-name pattern *)

Lemma backtrack_Some {A} (k : text → option A) (s : text) n m g :
  backtrack k s n = Some (m, g) → k (drop m s) = Some g ∧ (1 ≤ m ≤ n)%nat.
Proof.
  induction n as [|n IH]; simpl; [done|].
  destruct (k (drop (S n) s)) as [g'|] eqn:Hk.
  - intros [= <- <-]. split; [done | lia].
  - intros Hb. destruct (IH Hb). split; [done | lia].
Qed.

Section regex_facts.
Variable alnum : N → bool.

Lemma match_literal (lit s : text) g :
  match_here alnum (literal lit) s = Some g → lit `prefix_of` s.
Proof.
  revert s. induction lit as [|c lit IH]; intros s; simpl.
  - intros _. apply prefix_nil.
  - destruct s as [|d s]; [done|]. destruct (N.eqb_spec c d) as [->|]; [|done].
    intros Hm. by apply prefix_cons, IH.
Qed.

(** A match of a pattern that ends with a literal text contains that text. *)
Lemma match_here_literal (p : list item) (lit s : text) g :
  match_here alnum (p ++ literal lit) s = Some g → ∃ n, occurs_at lit s n.
Proof.
  revert s g. induction p as [|[c|cls|cls] p IH]; intros s g; simpl.
  - intros Hm. exists 0%nat. by eapply match_literal.
  - destruct s as [|d s]; [done|]. destruct (c =? d)%N; [|done].
    intros Hm. destruct (IH _ _ Hm) as [n Hn]. by exists (S n).
  - destruct (backtrack _ s _) as [[m g']|] eqn:Hb; [|done]. intros _.
    apply backtrack_Some in Hb as [Hm _]. destruct (IH _ _ Hm) as [n Hn].
    exists (m + n)%nat. by apply occurs_at_drop.
  - destruct (backtrack _ s _) as [[m g']|] eqn:Hb; [|done]. intros _.
    apply backtrack_Some in Hb as [Hm _]. destruct (IH _ _ Hm) as [n Hn].
    exists (m + n)%nat. by apply occurs_at_drop.
Qed.

Lemma re_search_literal (p : list item) (lit s : text) g :
  re_search alnum (p ++ literal lit) s = Some g → ∃ n, occurs_at lit s n.
Proof.
  induction s as [|c s IH]; simpl.
  - destruct (match_here _ _ []) eqn:Hm; [|done]. intros _. by eapply match_here_literal.
  - destruct (match_here _ _ (c :: s)) eqn:Hm.
    + intros _. by eapply match_here_literal.
    + intros Hs. destruct (IH Hs) as [n Hn]. by exists (S n).
Qed.

Lemma scene_name_none (code : text) :
  (∀ n, ¬ occurs_at (py "(Scene):") code n) → scene_name_of alnum code = None.
Proof.
  intros Hno. unfold scene_name_of.
  destruct (re_search _ scene_pattern code) as [g|] eqn:Hs; [|done].
  change scene_pattern
    with ((literal (py "class") ++ [Plus ClsSpace; CapturePlus ClsWord])
          ++ literal (py "(Scene):")) in Hs.
  apply re_search_literal in Hs as [n Hn]. by destruct (Hno n).
Qed.
End regex_facts.

(** A matched scene name is never empty, so the handlers' test
    [if not scene_name] fires exactly when there is no match. *)
Section capture_facts.
Variable alnum : N → bool.

Lemma match_capture cls p (s : text) g :
  match_here alnum (CapturePlus cls :: p) s = Some g → named g.
Proof.
  simpl. destruct (backtrack _ s _) as [[m g']|] eqn:Hb; [|done]. intros [= <-].
  apply backtrack_Some in Hb as [_ [Hle Hrun]]. simpl. eexists. split; [done|].
  destruct s as [|c s]; [simpl in Hrun; lia|]. destruct m; [lia | done].
Qed.

Lemma match_plus_named cls p (s : text) g :
  (∀ s g, match_here alnum p s = Some g → named g) →
  match_here alnum (Plus cls :: p) s = Some g → named g.
Proof.
  intros Hp. simpl. destruct (backtrack _ s _) as [[m g']|] eqn:Hb; [|done].
  intros [= <-]. apply backtrack_Some in Hb as [Hm _]. by eapply Hp.
Qed.

Lemma match_literal_named (lit : text) p :
  (∀ s g, match_here alnum p s = Some g → named g) →
  ∀ s g, match_here alnum (literal lit ++ p) s = Some g → named g.
Proof.
  intros Hp. induction lit as [|c lit IH]; intros s g; simpl; [apply Hp|].
  destruct s as [|d s]; [done|]. destruct (c =? d)%N; [apply IH | done].
Qed.

Lemma re_search_named p :
  (∀ s g, match_here alnum p s = Some g → named g) →
  ∀ s g, re_search alnum p s = Some g → named g.
Proof.
  intros Hp s. induction s as [|c s IH]; intros g; simpl.
  - destruct (match_here _ p []) eqn:Hm; [|done]. intros [= <-]. by eapply Hp.
  - destruct (match_here _ p (c :: s)) eqn:Hm; [intros [= <-]; by eapply Hp | apply IH].
Qed.

Lemma scene_name_nonempty (code scene : text) :
  scene_name_of alnum code = Some scene → scene ≠ [].
Proof.
  unfold scene_name_of. destruct (re_search _ scene_pattern code) as [g|] eqn:Hs; [|done].
  intros ->. apply re_search_named in Hs as (name & [= <-] & Hne); [done|].
  apply match_literal_named. intros s g. apply match_plus_named.
  intros s' g'. apply match_capture.
Qed.
End capture_facts.

(** ** The resolver finds exactly the class headers *)

Section resolver_facts.
Variable alnum : N → bool.

Lemma run_take cls (s : text) m :
  (m ≤ run alnum cls s)%nat → Forall (λ c, in_class alnum cls c = true) (take m s).
Proof.
  revert m. induction s as [|c s IH]; intros m Hm; [by rewrite take_nil|].
  destruct m as [|m]; [constructor|]. simpl in Hm |- *.
  destruct (in_class alnum cls c) eqn:Hc; [|lia].
  constructor; [done|]. apply IH. lia.
Qed.

Lemma run_app cls (r s : text) :
  Forall (λ c, in_class alnum cls c = true) r → (length r ≤ run alnum cls (r ++ s))%nat.
Proof.
  induction 1 as [|c r Hc _ IH]; simpl; [lia|]. rewrite Hc. lia.
Qed.

Lemma backtrack_complete {A} (k : text → option A) (s : text) n m :
  (1 ≤ m ≤ n)%nat → is_Some (k (drop m s)) → is_Some (backtrack k s n).
Proof.
  intros Hm Hk. induction n as [|n IH]; [lia|]. simpl.
  destruct (k (drop (S n) s)) eqn:Hn; [done|].
  apply IH. destruct (decide (m = S n)) as [->|]; [|lia].
  rewrite Hn in Hk. by destruct Hk.
Qed.

Lemma match_literal_app (lit : text) p (s : text) g :
  match_here alnum (literal lit ++ p) s = Some g →
  ∃ rest, s = lit ++ rest ∧ match_here alnum p rest = Some g.
Proof.
  revert s. induction lit as [|c lit IH]; intros s; simpl; [by exists s|].
  destruct s as [|d s]; [done|]. destruct (N.eqb_spec c d) as [->|]; [|done].
  intros (rest & -> & Hrest)%IH. by exists rest.
Qed.

Lemma match_literal_skip (lit : text) p (rest : text) :
  match_here alnum (literal lit ++ p) (lit ++ rest) = match_here alnum p rest.
Proof.
  induction lit as [|c lit IH]; simpl; [done|]. by rewrite N.eqb_refl.
Qed.

Lemma re_search_position p (s : text) g :
  re_search alnum p s = Some g →
  ∃ pre rest, s = pre ++ rest ∧ match_here alnum p rest = Some g.
Proof.
  induction s as [|c s IH]; simpl.
  - destruct (match_here alnum p []) eqn:Hm; [|done]. intros [= <-]. by exists [], [].
  - destruct (match_here alnum p (c :: s)) eqn:Hm.
    + intros [= <-]. by exists [], (c :: s).
    + intros (pre & rest & -> & Hrest)%IH. by exists (c :: pre), rest.
Qed.

Lemma re_search_complete p (pre rest : text) :
  is_Some (match_here alnum p rest) → is_Some (re_search alnum p (pre ++ rest)).
Proof.
  intros Hm. induction pre as [|c pre IH]; simpl.
  - destruct rest; simpl; by destruct (match_here alnum p _).
  - by destruct (match_here alnum p (c :: pre ++ rest)).
Qed.

Lemma match_plus_inv cls p (s : text) g :
  match_here alnum (Plus cls :: p) s = Some g →
  ∃ m, (1 ≤ m ≤ run alnum cls s)%nat ∧ match_here alnum p (drop m s) = Some g.
Proof.
  simpl. destruct (backtrack _ s _) as [[m g']|] eqn:Hb; [|done]. intros [= <-].
  apply backtrack_Some in Hb as [Hm Hle]. by exists m.
Qed.

Lemma match_capture_inv cls p (s : text) g :
  match_here alnum (CapturePlus cls :: p) s = Some g →
  ∃ m g', (1 ≤ m ≤ run alnum cls s)%nat
          ∧ match_here alnum p (drop m s) = Some g' ∧ g = Some (take m s).
Proof.
  simpl. destruct (backtrack _ s _) as [[m g']|] eqn:Hb; [|done]. intros [= <-].
  apply backtrack_Some in Hb as [Hm Hle]. by exists m, g'.
Qed.

Lemma take_nonempty (s : text) m :
  (1 ≤ m)%nat → s ≠ [] → take m s ≠ [].
Proof. intros Hm Hs. destruct s; [done|]. by destruct m; [lia|]. Qed.

Lemma run_positive cls (s : text) : (1 ≤ run alnum cls s)%nat → s ≠ [].
Proof. destruct s; simpl; [lia | done]. Qed.

(** A name the resolver returns is the name of a class header of the code. *)
Lemma scene_name_sound (code name : text) :
  scene_name_of alnum code = Some name → scene_header alnum code name.
Proof.
  unfold scene_name_of. destruct (re_search alnum scene_pattern code) as [g|] eqn:Hs; [|done].
  intros Hg. subst g. apply re_search_position in Hs as (pre & rest & -> & Hm).
  change scene_pattern with
    (literal (py "class") ++ Plus ClsSpace :: CapturePlus ClsWord
       :: literal (py "(Scene):") ++ []) in Hm.
  apply match_literal_app in Hm as (rest1 & -> & Hm).
  apply match_plus_inv in Hm as (m & Hmle & Hm).
  apply match_capture_inv in Hm as (k & g' & Hkle & Hlit & [= Hname]).
  apply match_literal_app in Hlit as (post & Hpost & _).
  exists pre, (take m rest1), post. split; [|split; [|split; [|split]]].
  - by rewrite <- Hpost, Hname, !take_drop.
  - apply take_nonempty; [lia|]. apply (run_positive ClsSpace). lia.
  - apply run_take. lia.
  - rewrite Hname. apply take_nonempty; [lia|]. apply (run_positive ClsWord). lia.
  - rewrite Hname. apply run_take. lia.
Qed.

(** A code text with a class header always resolves to some name. *)
Lemma scene_name_complete (code name : text) :
  scene_header alnum code name → ∃ found, scene_name_of alnum code = Some found.
Proof.
  intros (pre & ws & post & -> & Hws & Hspace & Hname & Hword).
  assert (is_Some (re_search alnum scene_pattern
                     (pre ++ py "class" ++ ws ++ name ++ py "(Scene):" ++ post))) as [g Hg].
  { apply re_search_complete.
    change scene_pattern with
      (literal (py "class") ++ [Plus ClsSpace; CapturePlus ClsWord]
       ++ literal (py "(Scene):") ++ []).
    rewrite match_literal_skip.
    change (is_Some (snd <$> backtrack
                       (match_here alnum (CapturePlus ClsWord :: literal (py "(Scene):") ++ []))
                       (ws ++ name ++ py "(Scene):" ++ post)
                       (run alnum ClsSpace (ws ++ name ++ py "(Scene):" ++ post)))).
    apply fmap_is_Some, (backtrack_complete _ _ _ (length ws)).
    { split; [destruct ws; [done | simpl; lia] | by apply run_app]. }
    rewrite drop_app_length.
    change (is_Some ((λ r, Some (take (fst r) (name ++ py "(Scene):" ++ post))) <$>
                     backtrack (match_here alnum (literal (py "(Scene):") ++ []))
                       (name ++ py "(Scene):" ++ post)
                       (run alnum ClsWord (name ++ py "(Scene):" ++ post)))).
    apply fmap_is_Some, (backtrack_complete _ _ _ (length name)).
    { split; [destruct name; [done | simpl; lia] | by apply run_app]. }
    by rewrite drop_app_length, match_literal_skip. }
  unfold scene_name_of. rewrite Hg.
  pose proof Hg as Hg'. apply re_search_named in Hg as (found & -> & _); [by exists found|].
  apply match_literal_named. intros s g'. apply match_plus_named.
  intros s' g''. apply match_capture.
Qed.
End resolver_facts.

(** ** Rendering *)

Lemma try_except_wrapped `{Library} {A} (body : result A) (prefix : text) (a : result A) :
  try_except body (λ e, Raise (wrapped prefix e)) = a →
  match a with
  | Return _ => body = a
  | Raise e => ∃ inner, body = Raise inner ∧ e = wrapped prefix inner
  end.
Proof. destruct body as [x|e]; intros <-; simpl; [done | by exists e]. Qed.

Section render_facts.
Context `{Library} (w : World).

(** The statements before the scene check. *)
Lemma main_scratch_written request :
  main_scratch w request = Return () ↔ scratch_written w request.
Proof.
  unfold main_scratch, scratch_written, TemporaryDirectory, write_text.
  destruct (mkdtemp_error w) as [e|]; [by split; [|intros [[=] _]]|].
  rewrite bind_Return.
  destruct (open_error w _) as [e|]; [by split; [|intros (_ & [=] & _)]|].
  destruct (encodable (anim_code request)); [|by split; [|intros (_ & _ & [=] & _)]].
  destruct (write_error w _ _) as [e|]; [by split; [|intros (_ & _ & _ & [=])]|].
  by split.
Qed.

Lemma server_scratch_eq request :
  server_scratch w request
  = if encodable (anim_code request) then main_scratch w request
    else Raise (Error (unicode_encode_error (anim_code request))).
Proof.
  unfold server_scratch. cbn [print].
  rewrite encodable_ascii, bind_Return.
  replace (encodable (py "Code received:" ++ NL)) with true
    by (symmetry; apply encodable_app; split; [apply encodable_ascii | done]).
  by destruct (encodable (anim_code request)).
Qed.

Lemma server_scratch_written request :
  server_scratch w request = Return () ↔ scratch_written w request.
Proof.
  rewrite server_scratch_eq, <- main_scratch_written.
  destruct (encodable (anim_code request)) eqn:Hcode; [done|].
  split; [done|]. intros Hmain%main_scratch_written. destruct Hmain as (_ & _ & Hc & _).
  congruence.
Qed.

(** A scene name is a part of the code, so it can be printed once the code
    could be written. *)
Lemma scene_name_encodable (code scene : text) :
  scene_name_of isalnum_unicode code = Some scene →
  encodable code = true → encodable scene = true.
Proof.
  intros (pre & ws & post & -> & _)%scene_name_sound Hcode.
  repeat (apply encodable_app in Hcode as [? Hcode]). done.
Qed.

Lemma print_scene_name request :
  encodable (anim_code request) = true →
  print [Str (py "Scene name:");
         match scene_name_of isalnum_unicode (anim_code request) with
         | Some name => Str name
         | None => Obj JNull
         end] = Return ().
Proof.
  intros Hcode. cbn [print]. rewrite encodable_ascii.
  destruct (scene_name_of _ _) as [scene|] eqn:Hscene; [|done].
  by rewrite (scene_name_encodable _ _ Hscene Hcode).
Qed.

(** Both handlers: the statements before the scene check, the check, and
    the [try]. *)
Lemma main_generate_animation_eq request :
  Main.generate_animation w request
  = (_ ← main_scratch w request;
     match scene_name_of isalnum_unicode (anim_code request) with
     | None | Some [] =>
         Raise (HTTPException 500 (py "Could not find a Scene class in the code."))
     | Some scene =>
         try_except (main_render w request scene)
           (λ e, Raise (wrapped (py "Animation generation failed: ") e))
     end).
Proof.
  unfold Main.generate_animation, main_scratch, TemporaryDirectory. cbv zeta.
  destruct (mkdtemp_error w) as [e|]; [done|]. rewrite !bind_Return.
  by destruct (write_text w _ _).
Qed.

Lemma server_generate_animation_eq request :
  Server.generate_animation w request
  = (_ ← server_scratch w request;
     match scene_name_of isalnum_unicode (anim_code request) with
     | None | Some [] =>
         Raise (HTTPException 500 (py "Could not find a Scene class in the code."))
     | Some scene =>
         try_except (server_render w request scene)
           (λ e, Raise (wrapped (py "Animation generation failed: ") e))
     end).
Proof.
  destruct (server_scratch w request) as [[]|e] eqn:Hscratch.
  - pose proof (proj1 (server_scratch_written request) Hscratch) as Hwritten.
    revert Hscratch. unfold Server.generate_animation, server_scratch. cbv zeta.
    destruct (print [Str (py "Received animation request!")]) as [[]|e]; [|done].
    rewrite !bind_Return.
    destruct (print [Str (py "Code received:" ++ NL); Str (anim_code request)])
      as [[]|e]; [|done].
    rewrite !bind_Return. unfold TemporaryDirectory.
    destruct (mkdtemp_error w) as [e|]; [done|]. rewrite !bind_Return.
    intros ->. rewrite bind_Return.
    rewrite print_scene_name by apply Hwritten. by rewrite bind_Return.
  - revert Hscratch. unfold Server.generate_animation, server_scratch. cbv zeta.
    destruct (print [Str (py "Received animation request!")]) as [[]|e']; [|by intros [= ->]].
    rewrite !bind_Return.
    destruct (print [Str (py "Code received:" ++ NL); Str (anim_code request)])
      as [[]|e']; [|by intros [= ->]].
    rewrite !bind_Return. unfold TemporaryDirectory.
    destruct (mkdtemp_error w) as [e'|]; [by intros [= ->]|]. rewrite !bind_Return.
    by intros ->.
Qed.

Lemma main_generate_animation_scene request scene :
  scratch_written w request →
  scene_name_of isalnum_unicode (anim_code request) = Some scene →
  Main.generate_animation w request
  = try_except (main_render w request scene)
      (λ e, Raise (wrapped (py "Animation generation failed: ") e)).
Proof.
  intros Hwritten%main_scratch_written Hscene.
  pose proof (scene_name_nonempty _ _ _ Hscene) as Hne.
  rewrite main_generate_animation_eq, Hwritten, bind_Return, Hscene. by destruct scene.
Qed.

Lemma server_generate_animation_scene request scene :
  scratch_written w request →
  scene_name_of isalnum_unicode (anim_code request) = Some scene →
  Server.generate_animation w request
  = try_except (server_render w request scene)
      (λ e, Raise (wrapped (py "Animation generation failed: ") e)).
Proof.
  intros Hwritten%server_scratch_written Hscene.
  pose proof (scene_name_nonempty _ _ _ Hscene) as Hne.
  rewrite server_generate_animation_eq, Hwritten, bind_Return, Hscene. by destruct scene.
Qed.

Lemma main_generate_animation_none request :
  scratch_written w request →
  scene_name_of isalnum_unicode (anim_code request) = None →
  Main.generate_animation w request
  = Raise (HTTPException 500 (py "Could not find a Scene class in the code.")).
Proof.
  intros Hwritten%main_scratch_written Hscene.
  by rewrite main_generate_animation_eq, Hwritten, bind_Return, Hscene.
Qed.

Lemma server_generate_animation_none request :
  scratch_written w request →
  scene_name_of isalnum_unicode (anim_code request) = None →
  Server.generate_animation w request
  = Raise (HTTPException 500 (py "Could not find a Scene class in the code.")).
Proof.
  intros Hwritten%server_scratch_written Hscene.
  by rewrite server_generate_animation_eq, Hwritten, bind_Return, Hscene.
Qed.

(** A handler that returns, or fails at the scene check or later, got past
    the statements before the check. *)
Lemma main_generate_animation_started request a :
  Main.generate_animation w request = a →
  main_scratch w request = Return () ∨ ∃ e, main_scratch w request = Raise e ∧ a = Raise e.
Proof.
  rewrite main_generate_animation_eq.
  destruct (main_scratch w request) as [[]|e]; [by left|].
  intros <-. right. by exists e.
Qed.

Lemma server_generate_animation_started request a :
  Server.generate_animation w request = a →
  server_scratch w request = Return ()
  ∨ ∃ e, server_scratch w request = Raise e ∧ a = Raise e.
Proof.
  rewrite server_generate_animation_eq.
  destruct (server_scratch w request) as [[]|e]; [by left|].
  intros <-. right. by exists e.
Qed.

(** Both services, up to the point where the renderer has returned. *)
Lemma main_render_failed request scene proc :
  scratch_written w request →
  scene_name_of isalnum_unicode (anim_code request) = Some scene →
  subprocess_run w
    (render_command (quality request) (path_join (temp_dir w) (py "animation.py")) scene)
    (temp_dir w) = Return proc →
  returncode proc ≠ 0 →
  Main.generate_animation w request
  = Raise (HTTPException 500
             (py "Animation generation failed: "
              ++ http_exception_str 500 (py "Manim error: " ++ stderr proc))).
Proof.
  intros Hwritten Hscene Hrun Hcode.
  rewrite (main_generate_animation_scene _ _ Hwritten Hscene). unfold main_render.
  rewrite Hrun, bind_Return. by destruct (Z.eqb_spec (returncode proc) 0).
Qed.

Lemma server_render_failed request scene proc :
  scratch_written w request →
  scene_name_of isalnum_unicode (anim_code request) = Some scene →
  subprocess_run w
    (render_command (quality request) (path_join (temp_dir w) (py "animation.py")) scene)
    (temp_dir w) = Return proc →
  returncode proc ≠ 0 →
  Server.generate_animation w request
  = Raise (HTTPException 500
             (py "Animation generation failed: "
              ++ http_exception_str 500 (py "Manim error: " ++ stderr proc))).
Proof.
  intros Hwritten Hscene Hrun Hcode.
  rewrite (server_generate_animation_scene _ _ Hwritten Hscene). unfold server_render.
  rewrite Hrun, bind_Return. by destruct (Z.eqb_spec (returncode proc) 0).
Qed.

Lemma read_duration_absent dir :
  path_exists w (path_join dir (py "animation.json")) = false →
  read_duration w dir = Return (JInt 0).
Proof. intros Hno. unfold read_duration. cbv zeta. by rewrite Hno. Qed.
End render_facts.

(** ** Deciding the vocabulary on a given text *)

Lemma fenced_block_intro (tag content : text) n k :
  search (fence ++ tag) content = Some n →
  search fence (drop (n + length (fence ++ tag)) content) = Some k →
  fenced_block tag content (take k (drop (n + length (fence ++ tag)) content)).
Proof.
  intros Hn%search_Some Hk%search_Some.
  destruct (occurs_at_split _ _ _ (fence_tag_nonempty tag) (proj1 Hn))
    as (rest & Hcontent & Hpre & Hrest).
  rewrite Hrest in Hk |- *.
  destruct (occurs_at_split fence rest _ ltac:(done) (proj1 Hk))
    as (post & Hsplit & Hinner & _).
  exists (take n content), post.
  split; [by rewrite <- Hsplit|]. split; [by rewrite Hpre|].
  by rewrite Hinner, <- Hsplit.
Qed.

Lemma unterminated_block_intro (tag content : text) n :
  search (fence ++ tag) content = Some n →
  search fence (drop (n + length (fence ++ tag)) content) = None →
  unterminated_block tag content.
Proof.
  intros Hn%search_Some Hnone. exists n. split; [done|]. intros m Hm Hocc.
  apply (search_None _ _ Hnone (m - (n + length (fence ++ tag)))%nat).
  apply occurs_at_drop.
  by replace (n + length (fence ++ tag) + (m - (n + length (fence ++ tag))))%nat
    with m by lia.
Qed.

Lemma no_block_intro (tag content : text) :
  search (fence ++ tag) content = None → ¬ (∃ inner, fenced_block tag content inner).
Proof.
  intros Hnone (inner & pre & post & _ & [Hocc _] & _).
  by apply (search_None _ _ Hnone (length pre)).
Qed.

Lemma first_at_intro (sub s : text) n : search sub s = Some n → first_at sub s n.
Proof. apply search_Some. Qed.

(** ** Code extraction *)

(** C1, as the code has it.  When the reply holds a well-formed python block
    whose trimmed inner content contains [from manim import], the code that
    [generate_code] extracts is that trimmed content from the first
    occurrence of the marker on (the whole trimmed content when it starts
    with the marker): server.py returns it, and main.py returns it with the
    metadata once it has printed it and the metadata step has returned
    (what main.py does where the print or [json.loads] raises is left
    open here).  When the opening fence is there and no closing fence
    follows it, both handlers fail with status 500 and return no code. *)
Theorem C1_code_extraction `{Library} (w : World) (request : CodeGenerationRequest)
    (content : text) :
  answers_both w request content →
  (∀ inner a b,
     fenced_block (py "python") content inner →
     strip inner = a ++ import_marker ++ b →
     first_at import_marker (strip inner) (length a) →
     extract_code content = Return (import_marker ++ b)
     ∧ Server.generate_code w request = Return (import_marker ++ b)
     ∧ (∀ m, encodable (import_marker ++ b) = true →
             extract_metadata content = Return m →
             Main.generate_code w request
             = Return {| code := import_marker ++ b; metadata := m |}))
  ∧ (unterminated_block (py "python") content →
     let detail :=
       py "Failed to generate code: "
       ++ http_exception_str 500 (py "Failed to extract code from response") in
     Main.generate_code w request = Raise (HTTPException 500 detail)
     ∧ Server.generate_code w request = Raise (HTTPException 500 detail)).
Proof.
  intros [Hmain Hserver].
  rewrite (main_generate_code_answered _ _ _ Hmain).
  rewrite (server_generate_code_answered _ _ _ Hserver). split.
  - intros inner a b Hblock Hstrip Hfirst.
    pose proof (extract_code_marker _ _ _ _ Hblock Hstrip Hfirst) as Hcode.
    split; [done|]. split; [by rewrite Hcode|]. intros m Hprint Hmeta.
    by rewrite (main_reply_found _ _ Hcode), Hprint, Hmeta.
  - intros Hopen%unterminated_no_block.
    pose proof (extract_code_missing _ Hopen) as Hcode.
    by rewrite (main_reply_missing _ _ Hcode), Hcode.
Qed.

Lemma C1_code_extraction_witness :
  let L := table_library [] in
  let w1 := quiet_world (Some reply_with_commentary) (finished 0 []) [] in
  let w2 := quiet_world (Some reply_unterminated) (finished 0 []) [] in
  (fenced_block (py "python") reply_with_commentary commentary_inner
   ∧ Server.generate_code w1 (circle_request None) = Return (py "from manim import *")
   ∧ Main.generate_code w1 (circle_request None)
     = Return {| code := py "from manim import *"; metadata := JList [] |})
  ∧ (unterminated_block (py "python") reply_unterminated
     ∧ Main.generate_code w2 (circle_request None)
       = Raise (HTTPException 500
                  (py "Failed to generate code: 500: Failed to extract code from response"))
     ∧ Server.generate_code w2 (circle_request None)
       = Raise (HTTPException 500
                  (py "Failed to generate code: 500: Failed to extract code from response"))).
Proof.
  intros L w1 w2.
  assert (fenced_block (py "python") reply_with_commentary commentary_inner) as Hblock.
  { apply (fenced_block_intro (py "python") reply_with_commentary 0 37); reflexivity. }
  assert (unterminated_block (py "python") reply_unterminated) as Hopen.
  { apply (unterminated_block_intro (py "python") reply_unterminated 12); reflexivity. }
  split.
  - split; [exact Hblock|].
    destruct (proj1 (C1_code_extraction (H:=L) w1 (circle_request None)
                       reply_with_commentary ltac:(repeat split))
                commentary_inner (py "# Draw a circle" ++ NL) (py " *") Hblock)
      as (_ & Hserver & Hmain); [reflexivity | apply first_at_intro; reflexivity |].
    split; [exact Hserver|]. apply (Hmain (JList [])); reflexivity.
  - split; [exact Hopen|].
    refine (proj2 (C1_code_extraction (H:=L) w2 (circle_request None) reply_unterminated _)
              Hopen).
    repeat split.
Defined.

(** C1 as stated fails where the block opens with anything but the import:
    the text before [from manim import] is dropped from the trimmed content. *)
Lemma C1_counterexample :
  let L := table_library [] in
  let w := quiet_world (Some reply_with_commentary) (finished 0 []) [] in
  fenced_block (py "python") reply_with_commentary commentary_inner
  ∧ strip commentary_inner = py "# Draw a circle" ++ NL ++ py "from manim import *"
  ∧ Main.generate_code w (circle_request None)
    = Return {| code := py "from manim import *"; metadata := JList [] |}
  ∧ Server.generate_code w (circle_request None) = Return (py "from manim import *")
  ∧ py "from manim import *" ≠ strip commentary_inner.
Proof.
  intros L w. split.
  { apply (fenced_block_intro (py "python") reply_with_commentary 0 37); reflexivity. }
  repeat split. vm_compute. discriminate.
Qed.

(** Without the import in the block nothing is dropped, and the last letter
    of the opening marker stays in front of the code: the slice starts at
    [code_start + 8], one short of the nine characters of the marker. *)
Example reply_without_import_extracted :
  extract_code reply_without_import = Return (py "n" ++ NL ++ py "print(1)").
Proof. reflexivity. Qed.

(** What main.py adds to the extraction: the code is printed before it is
    returned, and a lone surrogate in it ends the request with status 500,
    while server.py returns the same code. *)
Example reply_surrogate_extracted :
  let L := table_library [] in
  let w := quiet_world (Some reply_surrogate) (finished 0 []) [] in
  Server.generate_code w (circle_request None) = Return surrogate_code
  ∧ Main.generate_code w (circle_request None)
    = Raise (HTTPException 500
               (py "Failed to generate code: 'utf-8' codec can't encode character '\udc80' in position 22: surrogates not allowed")).
Proof. split; reflexivity. Qed.

(** ** Errors of the renderer *)

(** C2, as the code has it.  When the renderer, started once the code was
    written to the scratch file, exits with a non-zero code,
    [generate_animation] fails with status 500; the error raised at the
    check has the detail [Manim error: ] followed by the captured stderr
    verbatim, and the detail sent to the client is [Animation generation
    failed: ] followed by the string form of that error. *)
Theorem C2_render_error `{Library} (w : World) (request : AnimationRequest)
    (scene : text) (proc : CompletedProcess) :
  scratch_written w request →
  scene_name_of isalnum_unicode (anim_code request) = Some scene →
  subprocess_run w
    (render_command (quality request) (path_join (temp_dir w) (py "animation.py")) scene)
    (temp_dir w) = Return proc →
  returncode proc ≠ 0 →
  let inner := HTTPException 500 (py "Manim error: " ++ stderr proc) in
  let detail := py "Animation generation failed: " ++ str_exn inner in
  Main.generate_animation w request = Raise (HTTPException 500 detail)
  ∧ Server.generate_animation w request = Raise (HTTPException 500 detail).
Proof.
  intros Hwritten Hscene Hrun Hcode. split.
  - by apply (main_render_failed w request scene proc).
  - by apply (server_render_failed w request scene proc).
Qed.

Lemma C2_render_error_witness :
  let L := table_library [] in
  let w := quiet_world None (finished 1 (py "boom")) [] in
  scratch_written w (foo_request (py "low"))
  ∧ returncode (finished 1 (py "boom")) ≠ 0
  ∧ Main.generate_animation w (foo_request (py "low"))
    = Raise (HTTPException 500 (py "Animation generation failed: 500: Manim error: boom"))
  ∧ Server.generate_animation w (foo_request (py "low"))
    = Raise (HTTPException 500 (py "Animation generation failed: 500: Manim error: boom")).
Proof.
  intros L w.
  assert (scratch_written w (foo_request (py "low"))) as Hwritten by (repeat split).
  split; [exact Hwritten|]. split; [done|].
  apply (C2_render_error (H:=L) w (foo_request (py "low")) (py "Foo") (finished 1 (py "boom")));
    [exact Hwritten | reflexivity | reflexivity | done].
Defined.

(** C2 as stated fails: the detail is not the captured stderr.  With stderr
    [boom] it reads [Animation generation failed: 500: Manim error: boom]
    under Starlette's [__str__], and differs from [boom] whatever [str] of
    the inner exception is. *)
Lemma C2_counterexample :
  let w := quiet_world None (finished 1 (py "boom")) [] in
  returncode (finished 1 (py "boom")) ≠ 0
  ∧ Main.generate_animation (H:=table_library []) w (foo_request (py "low"))
    = Raise (HTTPException 500 (py "Animation generation failed: 500: Manim error: boom"))
  ∧ (∀ (L : Library) status detail,
       Main.generate_animation (H:=L) w (foo_request (py "low"))
       = Raise (HTTPException status detail) →
       detail ≠ stderr (finished 1 (py "boom"))).
Proof.
  intros w. split; [done|]. split; [reflexivity|].
  intros L status detail Hrun.
  rewrite (main_render_failed w (foo_request (py "low")) (py "Foo") (finished 1 (py "boom")))
    in Hrun; [| by repeat split | reflexivity | done | done].
  injection Hrun as _ <-. by intros [=].
Qed.

(** ** A reply without code *)

(** C3, as the code has it.  When the reply lacks the python block,
    main.py's [generate_code] fails with status 500 and one detail for every
    such reply: the error raised at the check, with the fixed detail [Failed
    to extract code from response], is caught by the handler's own [except]
    and its string form is sent after [Failed to generate code: ]. *)
Theorem C3_missing_code_error `{Library} (w : World) (request : CodeGenerationRequest)
    (content : text) :
  answers w (py_or (api_key request) (getenv_OPENAI_API_KEY w))
    (Main.chat_request request) content →
  ¬ (∃ inner, fenced_block (py "python") content inner) →
  let inner := HTTPException 500 (py "Failed to extract code from response") in
  Main.generate_code w request
  = Raise (HTTPException 500 (py "Failed to generate code: " ++ str_exn inner)).
Proof.
  intros Hanswer Hno. rewrite (main_generate_code_answered _ _ _ Hanswer).
  by rewrite (main_reply_missing _ _ (extract_code_missing _ Hno)).
Qed.

Lemma C3_missing_code_error_witness :
  let L := table_library [] in
  let w := quiet_world (Some reply_refusal) (finished 0 []) [] in
  ¬ (∃ inner, fenced_block (py "python") reply_refusal inner)
  ∧ Main.generate_code w (circle_request None)
    = Raise (HTTPException 500
               (py "Failed to generate code: 500: Failed to extract code from response")).
Proof.
  intros L w.
  assert (¬ (∃ inner, fenced_block (py "python") reply_refusal inner)) as Hno.
  { apply no_block_intro. reflexivity. }
  split; [exact Hno|].
  apply (C3_missing_code_error (H:=L) w (circle_request None) reply_refusal);
    [by split | exact Hno].
Defined.

(** C3 as stated fails: the fixed message does not reach the client
    unmodified, in no library. *)
Lemma C3_counterexample :
  let w := quiet_world (Some reply_refusal) (finished 0 []) [] in
  ¬ (∃ inner, fenced_block (py "python") reply_refusal inner)
  ∧ Main.generate_code (H:=table_library []) w (circle_request None)
    = Raise (HTTPException 500
               (py "Failed to generate code: 500: Failed to extract code from response"))
  ∧ (∀ L : Library,
       Main.generate_code (H:=L) w (circle_request None)
       ≠ Raise (HTTPException 500 (py "Failed to extract code from response"))).
Proof.
  intros w. split; [apply no_block_intro; reflexivity|]. split; [reflexivity|].
  intros L. rewrite (main_generate_code_answered w (circle_request None) reply_refusal);
    [|by split].
  rewrite (main_reply_missing reply_refusal _
             (extract_code_missing _ (no_block_intro (py "python") reply_refusal eq_refl))).
  by intros [=].
Qed.

(** ** Metadata *)

(** C4, as the code has it.  The metadata returned by [generate_code] is
    either the empty sequence, which satisfies the invariant, or the value
    [json.loads] decoded from the trimmed content of the json block of the
    reply, handed on as it is: nothing checks ids, types or times. *)
Theorem C4_metadata_as_decoded `{Library} (w : World) (request : CodeGenerationRequest)
    (content : text) (r : CodeGenerationResult) :
  answers w (py_or (api_key request) (getenv_OPENAI_API_KEY w))
    (Main.chat_request request) content →
  Main.generate_code w request = Return r →
  (metadata r = JList [] ∧ metadata_invariant (metadata r))
  ∨ (∃ inner, fenced_block (py "json") content inner
              ∧ json_loads (strip inner) = Decoded (metadata r)).
Proof.
  intros Hanswer. rewrite (main_generate_code_answered _ _ _ Hanswer).
  destruct (main_reply content) as [r'|e] eqn:Hreply; [|done]. simpl. intros [= ->].
  apply main_reply_inv in Hreply as (_ & _ & Hmeta).
  destruct (extract_metadata_inv _ _ Hmeta) as [Hempty|Hblock]; [left | by right].
  split; [done|]. rewrite Hempty. exists []. repeat split; constructor.
Qed.

Lemma C4_metadata_as_decoded_witness :
  let L := table_library [(bad_metadata_text, bad_metadata)] in
  let w := quiet_world (Some reply_bad_metadata) (finished 0 []) [] in
  let r := {| code := py "from manim import *"; metadata := bad_metadata |} in
  Main.generate_code w (circle_request None) = Return r
  ∧ ((metadata r = JList [] ∧ metadata_invariant (metadata r))
     ∨ (∃ inner, fenced_block (py "json") reply_bad_metadata inner
                 ∧ json_loads (strip inner) = Decoded (metadata r))).
Proof.
  intros L w r. split; [reflexivity|].
  apply (C4_metadata_as_decoded (H:=L) w (circle_request None) reply_bad_metadata r);
    [by split | reflexivity].
Defined.

(** C4 as stated fails: a decoded sequence with a repeated id, an unknown
    type and negative times is returned untouched. *)
Lemma C4_counterexample :
  let L := table_library [(bad_metadata_text, bad_metadata)] in
  let w := quiet_world (Some reply_bad_metadata) (finished 0 []) [] in
  Main.generate_code w (circle_request None)
  = Return {| code := py "from manim import *"; metadata := bad_metadata |}
  ∧ ¬ metadata_invariant bad_metadata
  ∧ (∀ entries, bad_metadata = JList entries →
       ¬ NoDup (entry_id <$> entries)
       ∧ ¬ Forall (λ e, type_ok e = true) entries
       ∧ ¬ Forall (λ e, times_ok e = true) entries).
Proof.
  intros L w.
  assert (∀ entries, bad_metadata = JList entries →
            ¬ NoDup (entry_id <$> entries)
            ∧ ¬ Forall (λ e, type_ok e = true) entries
            ∧ ¬ Forall (λ e, times_ok e = true) entries) as Hbad.
  { intros entries [= <-]. split; [|split].
    - intros Hnd. apply NoDup_cons_1_1 in Hnd. apply Hnd. by left.
    - intros Hall. by apply Forall_cons_1 in Hall as [[=] _].
    - intros Hall. by apply Forall_cons_1 in Hall as [[=] _]. }
  split; [reflexivity|]. split; [|exact Hbad].
  intros (entries & Heq & Hnd & _). by destruct (Hbad _ Heq) as [Hn _].
Qed.

(** What holds of the default: when the python block is there and its code
    has been printed, a json block that is absent, unterminated, or holds
    text on which [json.loads] raises [JSONDecodeError] gives the empty
    sequence, and the request succeeds. *)
Lemma metadata_default `{Library} (w : World) (request : CodeGenerationRequest)
    (content code : text) :
  answers w (py_or (api_key request) (getenv_OPENAI_API_KEY w))
    (Main.chat_request request) content →
  extract_code content = Return code →
  encodable code = true →
  (∀ n, ¬ occurs_at (py "```json") content n)
  ∨ unterminated_block (py "json") content
  ∨ (∃ inner msg, fenced_block (py "json") content inner
                  ∧ json_loads (strip inner) = JSONDecodeError msg) →
  Main.generate_code w request = Return {| code := code; metadata := JList [] |}.
Proof.
  intros Hanswer Hcode Hprint Hjson.
  rewrite (main_generate_code_answered _ _ _ Hanswer).
  rewrite (main_reply_found _ _ Hcode), Hprint.
  destruct Hjson as [Habsent|[Hopen|(inner' & msg & Hblock' & Hmsg)]].
  - by rewrite (extract_metadata_absent _ Habsent).
  - by rewrite (extract_metadata_unterminated _ Hopen).
  - by rewrite (extract_metadata_block _ _ Hblock'), Hmsg.
Qed.

Example reply_broken_metadata_default :
  let L := table_library [] in
  let w := quiet_world (Some reply_broken_metadata) (finished 0 []) [] in
  Main.generate_code w (circle_request None)
  = Return {| code := py "from manim import *"; metadata := JList [] |}.
Proof.
  intros L w.
  apply (metadata_default (H:=L) w (circle_request None) reply_broken_metadata);
    [by split | reflexivity | reflexivity |].
  right; right. eexists _, _. split.
  - apply (fenced_block_intro (py "json") reply_broken_metadata 34 14); reflexivity.
  - reflexivity.
Qed.

(** C9 does not hold of main.py.  The inner [except] catches
    [json.JSONDecodeError] only: on a json block that opens 100000 arrays,
    which is no JSON, [json.loads] raises [RecursionError], and the request
    fails with status 500 although the python block is well formed.  The
    code is also printed before the metadata step, so a well-formed block
    with a lone surrogate fails the request where there is no json block at
    all; server.py, which prints nothing, returns the code of both replies. *)
Theorem C9_metadata_not_defaulted :
  let L := recursion_limited_library 1000 in
  let w := quiet_world (Some reply_deep_metadata) (finished 0 []) [] in
  let w' := quiet_world (Some reply_surrogate) (finished 0 []) [] in
  (extract_code reply_deep_metadata = Return (py "from manim import *")
   ∧ extract_metadata reply_deep_metadata
     = Raise (Error (py "maximum recursion depth exceeded while decoding a JSON array from a unicode string"))
   ∧ Server.generate_code w (circle_request None) = Return (py "from manim import *")
   ∧ Main.generate_code w (circle_request None)
     = Raise (HTTPException 500
                (py "Failed to generate code: maximum recursion depth exceeded while decoding a JSON array from a unicode string")))
  ∧ (extract_code reply_surrogate = Return surrogate_code
     ∧ (∀ n, ¬ occurs_at (py "```json") reply_surrogate n)
     ∧ extract_metadata reply_surrogate = Return (JList [])
     ∧ Server.generate_code w' (circle_request None) = Return surrogate_code
     ∧ Main.generate_code w' (circle_request None)
       = Raise (HTTPException 500
                  (py "Failed to generate code: 'utf-8' codec can't encode character '\udc80' in position 22: surrogates not allowed"))).
Proof.
  intros L w w'. split.
  - do 3 (split; [vm_compute; reflexivity|]). vm_compute; reflexivity.
  - split; [reflexivity|]. split; [apply search_None; reflexivity|].
    do 2 (split; [reflexivity|]). reflexivity.
Qed.

(** ** The lenient fallback of [update_code] *)

(** C5.  When the reply to [update_code] holds no python block, the handler
    returns the whole reply, trimmed, as the code; it does not fail. *)
Theorem C5_update_fallback `{Library} (w : World) (request : UpdateCodeRequest)
    (content : text) :
  answers w (getenv_OPENAI_API_KEY w)
    (Main.update_chat_request (Main.update_prompt request)) content →
  ¬ (∃ inner, fenced_block (py "python") content inner) →
  Main.update_code w request = Return (strip content).
Proof.
  intros Hanswer Hno. rewrite (main_update_code_answered _ _ _ Hanswer).
  by rewrite (extract_updated_code_missing _ Hno).
Qed.

Lemma C5_update_fallback_witness :
  let L := table_library [] in
  let reply := NL ++ py "  class Foo(Scene): pass  " ++ NL in
  let w := quiet_world (Some reply) (finished 0 []) [] in
  ¬ (∃ inner, fenced_block (py "python") reply inner)
  ∧ Main.update_code w update_request = Return (py "class Foo(Scene): pass").
Proof.
  intros L reply w.
  assert (¬ (∃ inner, fenced_block (py "python") reply inner)) as Hno.
  { apply no_block_intro. reflexivity. }
  split; [exact Hno|].
  apply (C5_update_fallback (H:=L) w update_request reply); [by split | exact Hno].
Defined.

(** ** The credential *)

(** [validate_key] in terms of what the LLM does with the effective key. *)
Lemma validate_key_outcomes `{Library} (w : World) (request : ApiKeyRequest) :
  let key := py_or (Some (key_api_key request)) (getenv_OPENAI_API_KEY w) in
  let accepted := openai_init_error w key = None
                  ∧ ∃ u, models_list w {| client_api_key := key |} = Return u in
  (Main.validate_key w request = Return (py "valid") ↔ accepted)
  ∧ (Main.validate_key w request = Raise (HTTPException 401 (py "Invalid API key"))
     ↔ ¬ accepted).
Proof.
  intros key accepted. unfold accepted, Main.validate_key, AsyncOpenAI. cbv zeta. fold key.
  destruct (openai_init_error w key) as [e|].
  { rewrite bind_Raise. unfold try_except. split; split;
      [intros [=] | intros [[=] _] | intros _ [[=] _] | done]. }
  rewrite bind_Return. destruct (models_list w {| client_api_key := key |}) as [u|e].
  - rewrite bind_Return. unfold try_except. split; split; [|done|intros [=]|].
    + intros _. split; [done | by exists u].
    + intros Hno. destruct Hno. split; [done | by exists u].
  - rewrite bind_Raise. unfold try_except. split; split;
      [intros [=] | intros [_ [u [=]]] | intros _ [_ [u [=]]] | done].
Qed.

(** C10.  A request with the empty string as [api_key] runs as one without
    the field, for every prompt and in both services, and what it does is
    decided by the key of the environment: the client is built with that
    key, so its constructor error is the error of the request; the LLM call
    is made with that key, so its exception comes back behind the prefix of
    the handler, and its reply is the text the code is extracted from.
    What the LLM does with the empty string plays no part.  [validate_key]
    reads the key in the same way. *)
Theorem C10_empty_key_is_omitted `{Library} (w : World) (p : text) :
  let env := getenv_OPENAI_API_KEY w in
  let empty := {| prompt := p; api_key := Some [] |} in
  let omitted := {| prompt := p; api_key := None |} in
  let client := {| client_api_key := env |} in
  let failed e := HTTPException 500 (py "Failed to generate code: " ++ str_exn e) in
  (Main.generate_code w empty = Main.generate_code w omitted
   ∧ Server.generate_code w empty = Server.generate_code w omitted)
  ∧ (∀ e, openai_init_error w env = Some e →
          Main.generate_code w empty = Raise e ∧ Server.generate_code w empty = Raise e)
  ∧ (openai_init_error w env = None →
     (∀ e, chat_completions_create w client (Main.chat_request empty) = Raise e →
           Main.generate_code w empty = Raise (failed e))
     ∧ (∀ e, chat_completions_create w client (Server.chat_request empty) = Raise e →
             Server.generate_code w empty = Raise (failed e))
     ∧ (∀ content,
          chat_completions_create w client (Main.chat_request empty)
          = Return (Some content) →
          Main.generate_code w empty
          = try_except (main_reply content) (λ e, Raise (failed e)))
     ∧ (∀ content,
          chat_completions_create w client (Server.chat_request empty)
          = Return (Some content) →
          Server.generate_code w empty
          = try_except (extract_code content) (λ e, Raise (failed e))))
  ∧ (Main.validate_key w {| key_api_key := [] |} = Return (py "valid")
     ↔ openai_init_error w env = None ∧ ∃ u, models_list w client = Return u).
Proof.
  intros env empty omitted client failed.
  split; [|split; [|split]].
  - split; [by rewrite !main_generate_code_eq | done].
  - intros e Hinit. rewrite main_generate_code_eq.
    unfold Server.generate_code, AsyncOpenAI. cbv zeta.
    change (py_or (api_key empty) (getenv_OPENAI_API_KEY w)) with env.
    by rewrite Hinit.
  - intros Hinit. rewrite main_generate_code_eq.
    unfold Server.generate_code, AsyncOpenAI. cbv zeta.
    change (py_or (api_key empty) (getenv_OPENAI_API_KEY w)) with env.
    rewrite Hinit, !bind_Return. fold client.
    split; [|split; [|split]].
    + intros e ->. by rewrite bind_Raise.
    + intros e ->. by rewrite bind_Raise.
    + intros content ->. by rewrite bind_Return.
    + intros content ->. by rewrite bind_Return.
  - apply (validate_key_outcomes w {| key_api_key := [] |}).
Qed.

Lemma C10_empty_key_is_omitted_witness :
  let L := table_library [] in
  let w := keyed_world (py "sk-env") reply_with_commentary in
  (chat_completions_create w {| client_api_key := Some [] |}
     (Server.chat_request (circle_request (Some [])))
   = Raise (Error (py "Incorrect API key provided"))
   ∧ chat_completions_create w {| client_api_key := Some (py "sk-env") |}
       (Server.chat_request (circle_request (Some [])))
     = Return (Some reply_with_commentary))
  ∧ Server.generate_code w (circle_request (Some [])) = Return (py "from manim import *")
  ∧ Main.generate_code w (circle_request (Some []))
    = Return {| code := py "from manim import *"; metadata := JList [] |}.
Proof.
  intros L w. split; [split; reflexivity|].
  destruct (C10_empty_key_is_omitted (H:=L) w (py "draw a circle"))
    as (_ & _ & Hcall & _).
  destruct (Hcall eq_refl) as (_ & _ & Hmain & Hserver).
  split.
  - etrans; [exact (Hserver reply_with_commentary eq_refl) | reflexivity].
  - etrans; [exact (Hmain reply_with_commentary eq_refl) | reflexivity].
Defined.

(** ** The scene name *)

(** C6.  On [class Foo(Scene):] followed by an indented [pass] the resolver
    returns [Foo]; on a code text in which [(Scene):] does not occur it
    returns nothing, and [generate_animation], which has written the code
    to the scratch file before it looks for the scene, fails at once with
    the no-scene-class error, which no [except] rewrites. *)
Theorem C6_scene_name `{Library} (w : World) (request : AnimationRequest) :
  scene_name_of isalnum_unicode (py "class Foo(Scene):" ++ NL ++ py "    pass")
  = Some (py "Foo")
  ∧ ((∀ n, ¬ occurs_at (py "(Scene):") (anim_code request) n) →
     scene_name_of isalnum_unicode (anim_code request) = None
     ∧ (scratch_written w request →
        Main.generate_animation w request
        = Raise (HTTPException 500 (py "Could not find a Scene class in the code."))
        ∧ Server.generate_animation w request
          = Raise (HTTPException 500 (py "Could not find a Scene class in the code.")))).
Proof.
  split; [reflexivity|]. intros Hno.
  pose proof (scene_name_none isalnum_unicode _ Hno) as Hnone.
  split; [done|]. intros Hwritten.
  by rewrite (main_generate_animation_none w _ Hwritten Hnone),
    (server_generate_animation_none w _ Hwritten Hnone).
Qed.

Lemma C6_scene_name_witness :
  let L := table_library [] in
  let w := quiet_world None (finished 0 []) [] in
  let request := {| anim_code := py "class Foo(ThreeDScene):" ++ NL ++ py "    pass";
                    quality := py "medium"; format := py "mp4" |} in
  (∀ n, ¬ occurs_at (py "(Scene):") (anim_code request) n)
  ∧ scratch_written w request
  ∧ scene_name_of isalnum_unicode (anim_code request) = None
  ∧ Main.generate_animation w request
    = Raise (HTTPException 500 (py "Could not find a Scene class in the code."))
  ∧ Server.generate_animation w request
    = Raise (HTTPException 500 (py "Could not find a Scene class in the code.")).
Proof.
  intros L w request.
  assert (∀ n, ¬ occurs_at (py "(Scene):") (anim_code request) n) as Hno.
  { apply search_None. reflexivity. }
  assert (scratch_written w request) as Hwritten by (repeat split).
  split; [exact Hno|]. split; [exact Hwritten|].
  destruct (proj2 (C6_scene_name (H:=L) w request) Hno) as [Hnone Hfail].
  split; [exact Hnone | exact (Hfail Hwritten)].
Defined.

(** Where the code cannot be written, the request ends there: the scene is
    not looked for, and the exception of the write leaves the handler as it
    was raised. *)
Example surrogate_request_not_written :
  let L := table_library [] in
  let w := quiet_world None (finished 0 []) [] in
  let e := Error (py "'utf-8' codec can't encode character '\udc80' in position 5: surrogates not allowed") in
  (∀ n, ¬ occurs_at (py "(Scene):") (anim_code surrogate_request) n)
  ∧ ¬ scratch_written w surrogate_request
  ∧ Main.generate_animation w surrogate_request = Raise e
  ∧ Server.generate_animation w surrogate_request = Raise e.
Proof.
  intros L w e. split; [apply search_None; reflexivity|].
  split; [by intros (_ & _ & [=] & _)|]. split; reflexivity.
Qed.

(** ** Quality *)

(** C7.  The five named qualities map to [-ql], [-qm], [-qh], [-qp] and
    [-qk]; any other value gets the flag of [medium], and the renderer is
    started with the same command as for [medium]. *)
Theorem C7_quality_flag (q code_file scene : text) :
  quality_flag (py "low") = py "-ql"
  ∧ quality_flag (py "medium") = py "-qm"
  ∧ quality_flag (py "high") = py "-qh"
  ∧ quality_flag (py "production") = py "-qp"
  ∧ quality_flag (py "4k") = py "-qk"
  ∧ (q ∉ [py "low"; py "medium"; py "high"; py "production"; py "4k"] →
     quality_flag q = quality_flag (py "medium")
     ∧ render_command q code_file scene = render_command (py "medium") code_file scene).
Proof.
  do 5 (split; [by vm_compute|]). intros Hq.
  assert (quality_flag q = py "-qm") as Hflag.
  { unfold quality_flag, quality_settings.
    rewrite !lookup_insert_ne, lookup_empty; [done|..];
      intros <-; apply Hq; set_solver. }
  unfold render_command. rewrite Hflag. split; by vm_compute.
Qed.

Lemma C7_quality_flag_witness :
  (py "ultra" ∉ [py "low"; py "medium"; py "high"; py "production"; py "4k"])
  ∧ quality_flag (py "ultra") = quality_flag (py "medium")
  ∧ render_command (py "ultra") (py "/tmp/t/animation.py") (py "Foo")
    = render_command (py "medium") (py "/tmp/t/animation.py") (py "Foo").
Proof.
  assert (py "ultra" ∉ [py "low"; py "medium"; py "high"; py "production"; py "4k"])
    as Hq.
  { intros Hin. by repeat (apply elem_of_cons in Hin as [[=]|Hin]); inversion Hin. }
  split; [exact Hq|].
  exact (proj2 (proj2 (proj2 (proj2 (proj2
           (C7_quality_flag (py "ultra") (py "/tmp/t/animation.py") (py "Foo")))))) Hq).
Defined.

(** ** Duration *)

(** C8.  After a render that succeeded (code written, scene found, exit
    code 0, an output file found) and left no [animation.json] in the
    scratch directory, the duration of the response is 0 and the request
    succeeds once the output file has been moved, in both services. *)
Theorem C8_duration_default `{Library} (w : World) (request : AnimationRequest)
    (scene : text) (proc : CompletedProcess) (out : text) (others : list text) :
  scratch_written w request →
  scene_name_of isalnum_unicode (anim_code request) = Some scene →
  subprocess_run w
    (render_command (quality request) (path_join (temp_dir w) (py "animation.py")) scene)
    (temp_dir w) = Return proc →
  returncode proc = 0 →
  rglob w (temp_dir w) (py "animation*." ++ format request) = Return (out :: others) →
  path_exists w (path_join (temp_dir w) (py "animation.json")) = false →
  read_duration w (temp_dir w) = Return (JInt 0)
  ∧ (mkdir w (py "outputs") = Return () →
     rename w out (path_join (py "outputs") (path_name out)) = Return () →
     Main.generate_animation w request
     = Return {| output_path := path_join (py "outputs") (path_name out);
                 duration := S754_zero false |})
  ∧ (mkdir w (py "outputs/temp") = Return () →
     shutil_move w out (path_join (py "outputs/temp") (path_name out)) = Return () →
     Server.generate_animation w request
     = Return {| output_path := py "outputs/temp/" ++ path_name out;
                 duration := S754_zero false |}).
Proof.
  intros Hwritten Hscene Hrun Hcode Hglob Hjson.
  pose proof (read_duration_absent w _ Hjson) as Hduration.
  split; [done|]. split; intros Hmkdir Hmove.
  - rewrite (main_generate_animation_scene w _ _ Hwritten Hscene). unfold main_render.
    rewrite Hrun, bind_Return, Hcode. change (negb (0 =? 0)) with false. cbv iota.
    rewrite Hglob, bind_Return. cbv iota.
    by rewrite Hduration, bind_Return, Hmkdir, bind_Return, Hmove, bind_Return.
  - rewrite (server_generate_animation_scene w _ _ Hwritten Hscene). unfold server_render.
    rewrite Hrun, bind_Return, Hcode. change (negb (0 =? 0)) with false. cbv iota.
    rewrite Hglob, bind_Return. cbv iota.
    by rewrite Hduration, bind_Return, Hmkdir, bind_Return, Hmove, bind_Return.
Qed.

Lemma C8_duration_default_witness :
  let L := table_library [] in
  let out := py "/tmp/tmpq1w2e3/media/videos/animation/480p15/animation.mp4" in
  let w := quiet_world None (finished 0 []) [out] in
  scratch_written w (foo_request (py "low"))
  ∧ path_exists w (path_join (temp_dir w) (py "animation.json")) = false
  ∧ Main.generate_animation w (foo_request (py "low"))
    = Return {| output_path := py "outputs/animation.mp4"; duration := S754_zero false |}
  ∧ Server.generate_animation w (foo_request (py "low"))
    = Return {| output_path := py "outputs/temp/animation.mp4";
                duration := S754_zero false |}.
Proof.
  intros L out w.
  assert (scratch_written w (foo_request (py "low"))) as Hwritten by (repeat split).
  split; [exact Hwritten|]. split; [reflexivity|].
  destruct (C8_duration_default (H:=L) w (foo_request (py "low")) (py "Foo")
              (finished 0 []) out []) as (_ & Hmain & Hserver);
    [exact Hwritten | reflexivity | reflexivity | reflexivity | reflexivity | reflexivity |].
  split; [apply Hmain | apply Hserver]; reflexivity.
Defined.

(** * Further properties of the handlers *)


(** ** More on stripping *)

Lemma lstrip_length (s : text) : (length (lstrip s) ≤ length s)%nat.
Proof.
  induction s as [|c s IH]; simpl; [done|]. destruct (isspace c); simpl; lia.
Qed.

Lemma lstrip_idem (s : text) : lstrip (lstrip s) = lstrip s.
Proof.
  induction s as [|c s IH]; simpl; [done|].
  destruct (isspace c) eqn:Hc; [done|]. simpl. by rewrite Hc.
Qed.

Lemma lstrip_fixed_head (c : N) (s : text) : lstrip (c :: s) = c :: s → isspace c = false.
Proof.
  simpl. destruct (isspace c); [|done]. intros Heq.
  pose proof (lstrip_length s) as Hl. rewrite Heq in Hl. simpl in Hl. lia.
Qed.

Lemma lstrip_take (s : text) n : lstrip s = s → lstrip (take n s) = take n s.
Proof.
  destruct s as [|c s]; [by rewrite take_nil|]. intros Hc%lstrip_fixed_head.
  destruct n; simpl; [done|]. by rewrite Hc.
Qed.

Lemma rstrip_idem (s : text) : rstrip (rstrip s) = rstrip s.
Proof. unfold rstrip. by rewrite reverse_involutive, lstrip_idem. Qed.

Lemma rstrip_drop (s : text) k : rstrip s = s → rstrip (drop k s) = drop k s.
Proof.
  unfold rstrip. intros Hs.
  assert (lstrip (reverse s) = reverse s) as Hr.
  { by rewrite <- Hs at 2; rewrite reverse_involutive. }
  by rewrite reverse_drop, (lstrip_take _ _ Hr), <- reverse_drop, reverse_involutive.
Qed.

(** The characters removed on the right are white space. *)
Lemma rstrip_split (s : text) :
  ∃ ws, s = rstrip s ++ ws ∧ Forall (λ c, isspace c = true) ws.
Proof.
  destruct (lstrip_split (reverse s)) as (ws & Hs & Hws). exists (reverse ws). split.
  - unfold rstrip. by rewrite <- reverse_app, <- Hs, reverse_involutive.
  - by apply Forall_reverse.
Qed.

Lemma rstrip_lstrip (s : text) : rstrip s = s → rstrip (lstrip s) = lstrip s.
Proof.
  intros Hs. destruct (lstrip_split s) as (ws & Hws & _).
  assert (lstrip s = drop (length ws) s) as ->.
  { by rewrite Hws at 2; rewrite drop_app_length. }
  by apply rstrip_drop.
Qed.

Lemma strip_idem (s : text) : strip (strip s) = strip s.
Proof.
  unfold strip. by rewrite (rstrip_lstrip _ (rstrip_idem s)), lstrip_idem.
Qed.

(** ** Occurrences as infixes *)

Lemma contains_occurs (sub s : text) : contains sub s ↔ ∃ n, occurs_at sub s n.
Proof.
  split.
  - intros (a & b & ->). exists (length a). unfold occurs_at.
    rewrite drop_app_length. by exists b.
  - intros (n & b & Hb). exists (take n s), b. by rewrite <- Hb, take_drop.
Qed.

Lemma contains_trans (a b c : text) : contains a b → contains b c → contains a c.
Proof.
  intros (a1 & a2 & ->) (b1 & b2 & ->). exists (b1 ++ a1), (a2 ++ b2).
  by rewrite <- !app_assoc.
Qed.

Lemma strip_contains (s : text) : contains (strip s) s.
Proof.
  destruct (rstrip_split s) as (r & Hr & _).
  destruct (lstrip_split (rstrip s)) as (l & Hl & _).
  exists l, r. fold (strip s) in Hl. by rewrite app_assoc, <- Hl.
Qed.

Lemma splitlines_from_contains (n : nat) :
  ∀ (s cur line : text),
    (length s ≤ n)%nat → line ∈ splitlines_from cur s → contains line (cur ++ s).
Proof.
  induction n as [|n IH]; intros s cur line Hn.
  - destruct s; [|simpl in Hn; lia]. simpl. rewrite app_nil_r.
    destruct cur; [by intros ?%elem_of_nil|]. intros ->%list_elem_of_singleton.
    exists [], []. by rewrite app_nil_r.
  - destruct s as [|c s].
    { simpl. rewrite app_nil_r. destruct cur; [by intros ?%elem_of_nil|].
      intros ->%list_elem_of_singleton. exists [], []. by rewrite app_nil_r. }
    simpl in Hn. simpl. destruct (is_linebreak c).
    + intros [->|Hin]%elem_of_cons; [by exists [], (c :: s)|].
      destruct s as [|d s]; [by apply elem_of_nil in Hin|].
      destruct ((c =? 13) && (d =? 10))%N.
      * apply (IH s [] line) in Hin as (a & b & Hab); [|simpl in Hn; lia].
        exists (cur ++ c :: d :: a), b. simpl in Hab. rewrite Hab.
        by rewrite <- app_assoc.
      * apply (IH (d :: s) [] line) in Hin as (a & b & Hab); [|lia].
        exists (cur ++ c :: a), b. simpl in Hab. rewrite Hab.
        by rewrite <- app_assoc.
    + intros (a & b & Hab)%(IH s (cur ++ [c]) line); [|lia].
      exists a, b. by rewrite <- Hab, <- app_assoc.
Qed.

Lemma first_index_None {A} (f : A → bool) (l : list A) :
  (∀ x, x ∈ l → f x = false) → first_index f l = None.
Proof.
  induction l as [|x l IH]; intros Hall; simpl; [done|].
  rewrite (Hall x) by by left. rewrite IH; [done|]. intros y Hy. apply Hall. by right.
Qed.

(** Without the marker in the inner content no part of the cut text has it. *)
Lemma marker_absent_cut (inner : text) :
  ¬ contains import_marker inner → ¬ contains import_marker (110%N :: rstrip inner).
Proof.
  intros Hno (a & b & Hab). destruct a as [|c a]; [done|].
  injection Hab as _ Hab. apply Hno.
  destruct (rstrip_split inner) as (ws & Hws & _). rewrite Hws, Hab.
  exists a, (b ++ ws). by rewrite <- !app_assoc.
Qed.

Lemma find_absent (s sub : text) : sub ≠ [] → ¬ contains sub s → find s sub 0 = -1.
Proof.
  intros Hne Hno. apply (find_none s sub 0 Hne). intros n _ Hocc.
  apply Hno, contains_occurs. by exists n.
Qed.

(** ** The code that comes out of a block *)

Lemma extract_code_no_marker (content inner : text) :
  fenced_block (py "python") content inner → ¬ contains import_marker inner →
  extract_code content = Return (110%N :: rstrip inner).
Proof.
  intros Hblock Hno%marker_absent_cut. rewrite (extract_code_block _ _ Hblock). cbv zeta.
  by rewrite (find_absent _ _ import_marker_nonempty Hno).
Qed.

Lemma extract_updated_code_no_marker (content inner : text) :
  fenced_block (py "python") content inner → ¬ contains import_marker inner →
  extract_updated_code content = 110%N :: rstrip inner.
Proof.
  intros Hblock Hno%marker_absent_cut.
  destruct (python_block_slice _ _ Hblock) as (cs & Hs & He & Hslice).
  unfold extract_updated_code. cbv zeta. rewrite Hs, He, Hslice.
  destruct (Z.eqb_spec (Z.of_nat cs) (-1)); [lia|].
  destruct (Z.eqb_spec (Z.of_nat (cs + 9 + length inner)) (-1)); [lia|].
  simpl andb. cbv iota. rewrite strip_cons_nonspace by done.
  rewrite first_index_None; [done|]. intros line Hline.
  destruct (startswith (strip line) (py "from manim import")) eqn:Hstart; [|done].
  destruct Hno. apply startswith_prefix in Hstart as [rest Hrest].
  apply (contains_trans _ (strip line)); [by exists [], rest|].
  apply (contains_trans _ line); [apply strip_contains|].
  by apply (splitlines_from_contains _ _ [] line (Nat.le_refl _)).
Qed.

Lemma extract_code_trimmed (content code : text) :
  extract_code content = Return code → strip code = code ∧ code ≠ [].
Proof.
  intros Hret. destruct (extract_code_found _ _ Hret) as [inner Hblock].
  rewrite (extract_code_block _ _ Hblock) in Hret. cbv zeta in Hret.
  assert (rstrip (110%N :: rstrip inner) = 110%N :: rstrip inner) as Hr.
  { by rewrite rstrip_cons_nonspace, rstrip_idem. }
  destruct (find_inv (110%N :: rstrip inner) import_marker 0 import_marker_nonempty)
    as [[Hf _]|(k & Hf & Hk & [Hocc _])]; change (Z.of_nat 0) with 0 in Hf;
    rewrite Hf in Hret.
  - injection Hret as <-. split; [|done].
    by rewrite strip_cons_nonspace, rstrip_idem.
  - rewrite Nat.add_0_l in Hret. rewrite drop_0 in Hocc.
    destruct (Z.eqb_spec (Z.of_nat k) (-1)); [lia|]. simpl negb in Hret. cbv iota in Hret.
    rewrite slice_from_nat in Hret.
    2:{ pose proof (occurs_at_bound _ _ _ import_marker_nonempty Hocc). lia. }
    injection Hret as <-. unfold strip. rewrite (rstrip_drop _ k Hr).
    destruct Hocc as [rest ->]. done.
Qed.

(** ** Every way a handler can end *)

Section outcome_facts.
Context `{Library} (w : World).

(** The four ways [generate_code] of main.py runs. *)
Lemma main_generate_code_cases request :
  let key := py_or (api_key request) (getenv_OPENAI_API_KEY w) in
  let call := chat_completions_create w {| client_api_key := key |}
                (Main.chat_request request) in
  (∃ e, openai_init_error w key = Some e ∧ Main.generate_code w request = Raise e)
  ∨ (∃ e, openai_init_error w key = None ∧ call = Raise e
          ∧ Main.generate_code w request = Raise (wrapped (py "Failed to generate code: ") e))
  ∨ (openai_init_error w key = None ∧ call = Return None
     ∧ Main.generate_code w request
       = Raise (wrapped (py "Failed to generate code: ")
                  (attribute_error JNull (py "find"))))
  ∨ (∃ content, answers w key (Main.chat_request request) content).
Proof.
  intros key call. rewrite main_generate_code_eq. unfold AsyncOpenAI. fold key.
  destruct (openai_init_error w key) as [e|] eqn:Hinit; [left; by exists e|].
  right. rewrite bind_Return. fold call.
  destruct call as [[content|]|e] eqn:Hcall.
  - right; right. by exists content.
  - right; left. by rewrite bind_Return.
  - left. exists e. by rewrite bind_Raise.
Qed.

Lemma server_generate_code_cases request :
  let key := py_or (api_key request) (getenv_OPENAI_API_KEY w) in
  let call := chat_completions_create w {| client_api_key := key |}
                (Server.chat_request request) in
  (∃ e, openai_init_error w key = Some e ∧ Server.generate_code w request = Raise e)
  ∨ (∃ e, openai_init_error w key = None ∧ call = Raise e
          ∧ Server.generate_code w request
            = Raise (wrapped (py "Failed to generate code: ") e))
  ∨ (openai_init_error w key = None ∧ call = Return None
     ∧ Server.generate_code w request
       = Raise (wrapped (py "Failed to generate code: ")
                  (attribute_error JNull (py "find"))))
  ∨ (∃ content, answers w key (Server.chat_request request) content).
Proof.
  intros key call. unfold Server.generate_code, AsyncOpenAI. cbv zeta. fold key.
  destruct (openai_init_error w key) as [e|] eqn:Hinit; [left; by exists e|].
  right. rewrite bind_Return. fold call.
  destruct call as [[content|]|e] eqn:Hcall.
  - right; right. by exists content.
  - right; left. by rewrite bind_Return.
  - left. exists e. by rewrite bind_Raise.
Qed.

Lemma main_update_code_cases request :
  let key := getenv_OPENAI_API_KEY w in
  let call := chat_completions_create w {| client_api_key := key |}
                (Main.update_chat_request (Main.update_prompt request)) in
  (∃ e, openai_init_error w key = Some e ∧ Main.update_code w request = Raise e)
  ∨ (∃ e, openai_init_error w key = None ∧ call = Raise e
          ∧ Main.update_code w request = Raise (wrapped (py "Failed to update code: ") e))
  ∨ (openai_init_error w key = None ∧ call = Return None
     ∧ Main.update_code w request
       = Raise (wrapped (py "Failed to update code: ")
                  (attribute_error JNull (py "find"))))
  ∨ (∃ content, answers w key (Main.update_chat_request (Main.update_prompt request))
                  content).
Proof.
  intros key call. unfold Main.update_code, AsyncOpenAI. cbv zeta. fold key.
  destruct (openai_init_error w key) as [e|] eqn:Hinit; [left; by exists e|].
  right. rewrite bind_Return. fold call.
  destruct call as [[content|]|e] eqn:Hcall.
  - right; right. by exists content.
  - right; left. by rewrite bind_Return.
  - left. exists e. by rewrite bind_Raise.
Qed.

(** What [generate_code] returns comes out of the reply. *)
Lemma main_generate_code_inv request r :
  Main.generate_code w request = Return r →
  ∃ content,
    answers w (py_or (api_key request) (getenv_OPENAI_API_KEY w))
      (Main.chat_request request) content
    ∧ extract_code content = Return (code r)
    ∧ encodable (code r) = true
    ∧ extract_metadata content = Return (metadata r).
Proof.
  intros Hret.
  destruct (main_generate_code_cases request)
    as [(e & _ & He)|[(e & _ & _ & He)|[(_ & _ & He)|[content Hanswer]]]];
    try congruence.
  exists content. split; [done|].
  rewrite (main_generate_code_answered _ _ _ Hanswer) in Hret.
  destruct (main_reply content) as [r'|e] eqn:Hreply; [|done].
  injection Hret as ->. by apply main_reply_inv.
Qed.

Lemma server_generate_code_inv request c :
  Server.generate_code w request = Return c →
  ∃ content,
    answers w (py_or (api_key request) (getenv_OPENAI_API_KEY w))
      (Server.chat_request request) content
    ∧ extract_code content = Return c.
Proof.
  intros Hret.
  destruct (server_generate_code_cases request)
    as [(e & _ & He)|[(e & _ & _ & He)|[(_ & _ & He)|[content Hanswer]]]];
    try congruence.
  exists content. split; [done|].
  rewrite (server_generate_code_answered _ _ _ Hanswer) in Hret.
  by destruct (extract_code content) as [c'|e]; [injection Hret as <-|].
Qed.

End outcome_facts.

(** ** Paths *)

Lemma name_from_plain (cur n : text) : 47%N ∉ n → name_from cur n = cur ++ n.
Proof.
  revert cur. induction n as [|c n IH]; intros cur Hn; simpl; [by rewrite app_nil_r|].
  apply not_elem_of_cons in Hn as [Hc Hn].
  destruct (N.eqb_spec c 47); [congruence|]. by rewrite IH, <- app_assoc.
Qed.

Lemma name_from_slash (cur a n : text) :
  name_from cur (a ++ 47%N :: n) = name_from [] n.
Proof.
  revert cur. induction a as [|c a IH]; intros cur; simpl; [done|].
  by destruct (c =? 47)%N.
Qed.

(** [(Path(dir) / name).name == name] for a name without a slash. *)
Lemma path_name_join (dir n : text) : 47%N ∉ n → path_name (path_join dir n) = n.
Proof.
  intros Hn. unfold path_name, path_join. change (py "/") with [47%N]. simpl.
  by rewrite name_from_slash, name_from_plain.
Qed.

Lemma name_from_no_slash (cur p : text) : 47%N ∉ cur → 47%N ∉ name_from cur p.
Proof.
  revert cur. induction p as [|c p IH]; intros cur Hcur; simpl; [done|].
  destruct (N.eqb_spec c 47); apply IH; [apply not_elem_of_nil|].
  rewrite elem_of_app, list_elem_of_singleton. intros [?|?]; congruence.
Qed.

Lemma path_name_no_slash (p : text) : 47%N ∉ path_name p.
Proof. apply name_from_no_slash, not_elem_of_nil. Qed.


(** * Further properties, stated *)

(** ** The scene name *)

(** X1.  A name returned by the resolver is the name of a class header in
    the code: the word [class], at least one white-space character, the
    name, made of one or more word characters, and then [(Scene):]. *)
Theorem X1_scene_name_is_header `{Library} (code name : text) :
  scene_name_of isalnum_unicode code = Some name →
  scene_header isalnum_unicode code name.
Proof. apply scene_name_sound. Qed.

Lemma X1_scene_name_is_header_witness :
  let L := table_library [] in
  scene_name_of isalnum_unicode foo_scene = Some (py "Foo")
  ∧ scene_header isalnum_unicode foo_scene (py "Foo").
Proof.
  intros L. split; [reflexivity|].
  apply (X1_scene_name_is_header (H:=L) foo_scene (py "Foo")). reflexivity.
Defined.

(** X2.  Once the code is written to the scratch file, [generate_animation]
    fails with the no-scene-class error exactly when the code holds no such
    class header, in both services. *)
Theorem X2_no_scene_error_iff `{Library} (w : World) (request : AnimationRequest) :
  scratch_written w request →
  let no_scene := HTTPException 500 (py "Could not find a Scene class in the code.") in
  let no_header := ¬ (∃ name, scene_header isalnum_unicode (anim_code request) name) in
  (Main.generate_animation w request = Raise no_scene ↔ no_header)
  ∧ (Server.generate_animation w request = Raise no_scene ↔ no_header).
Proof.
  intros Hwritten no_scene no_header.
  destruct (scene_name_of isalnum_unicode (anim_code request)) as [scene|] eqn:Hscene.
  - pose proof (scene_name_sound _ _ _ Hscene) as Hheader.
    rewrite (main_generate_animation_scene w _ _ Hwritten Hscene).
    rewrite (server_generate_animation_scene w _ _ Hwritten Hscene).
    split; (split; [|intros Hno; destruct Hno; by exists scene]).
    + intros (e & _ & [=])%try_except_wrapped.
    + intros (e & _ & [=])%try_except_wrapped.
  - rewrite (main_generate_animation_none w _ Hwritten Hscene).
    rewrite (server_generate_animation_none w _ Hwritten Hscene).
    assert no_header as Hno.
    { intros [name (found & Hfound)%scene_name_complete]. congruence. }
    by split.
Qed.

Lemma X2_no_scene_error_iff_witness :
  let L := table_library [] in
  let w := quiet_world None (finished 0 []) [] in
  let request := {| anim_code := py "class Foo(ThreeDScene):" ++ NL ++ py "    pass";
                    quality := py "medium"; format := py "mp4" |} in
  scratch_written w request
  ∧ Main.generate_animation w request
    = Raise (HTTPException 500 (py "Could not find a Scene class in the code."))
  ∧ ¬ (∃ name, scene_header isalnum_unicode (anim_code request) name).
Proof.
  intros L w request.
  assert (scratch_written w request) as Hwritten by (repeat split).
  split; [exact Hwritten|].
  assert (Main.generate_animation w request
          = Raise (HTTPException 500 (py "Could not find a Scene class in the code.")))
    as Hrun by reflexivity.
  split; [exact Hrun|].
  exact (proj1 (proj1 (X2_no_scene_error_iff (H:=L) w request Hwritten)) Hrun).
Defined.

(** ** Code extraction *)



(** X4.  Code returned by [generate_code] is never empty and has no white
    space at either end, in both services. *)
Theorem X4_generated_code_trimmed `{Library} (w : World)
    (request : CodeGenerationRequest) :
  (∀ r, Main.generate_code w request = Return r →
        strip (code r) = code r ∧ code r ≠ [])
  ∧ (∀ c, Server.generate_code w request = Return c → strip c = c ∧ c ≠ []).
Proof.
  split.
  - intros r (content & _ & Hcode & _)%main_generate_code_inv.
    by eapply extract_code_trimmed.
  - intros c (content & _ & Hcode)%server_generate_code_inv.
    by eapply extract_code_trimmed.
Qed.

Lemma X4_generated_code_trimmed_witness :
  let L := table_library [] in
  let w := quiet_world (Some reply_with_commentary) (finished 0 []) [] in
  Server.generate_code w (circle_request None) = Return (py "from manim import *")
  ∧ strip (py "from manim import *") = py "from manim import *"
  ∧ py "from manim import *" ≠ [].
Proof.
  intros L w. split; [reflexivity|].
  apply (proj2 (X4_generated_code_trimmed (H:=L) w (circle_request None))).
  reflexivity.
Defined.

(** X5.  When the python block does not contain [from manim import], the
    code that [generate_code] extracts is the letter [n], the last letter
    of the opening marker, followed by the inner content without its
    trailing white space: the slice starts one character before the end of
    the marker.  server.py returns it; main.py returns it with the metadata
    once it has printed it and the metadata step has returned. *)
Theorem X5_block_without_import `{Library} (w : World)
    (request : CodeGenerationRequest) (content inner : text) :
  answers_both w request content →
  fenced_block (py "python") content inner →
  ¬ contains import_marker inner →
  Server.generate_code w request = Return (py "n" ++ rstrip inner)
  ∧ (∀ m, encodable (py "n" ++ rstrip inner) = true →
          extract_metadata content = Return m →
          Main.generate_code w request
          = Return {| code := py "n" ++ rstrip inner; metadata := m |}).
Proof.
  intros [Hmain Hserver] Hblock Hno.
  rewrite (main_generate_code_answered _ _ _ Hmain).
  rewrite (server_generate_code_answered _ _ _ Hserver).
  pose proof (extract_code_no_marker _ _ Hblock Hno) as Hcode.
  change (110%N :: rstrip inner) with (py "n" ++ rstrip inner) in Hcode.
  split; [by rewrite Hcode|]. intros m Hprint Hmeta.
  by rewrite (main_reply_found _ _ Hcode), Hprint, Hmeta.
Qed.

Lemma X5_block_without_import_witness :
  let L := table_library [] in
  let w := quiet_world (Some reply_without_import) (finished 0 []) [] in
  let inner := NL ++ py "print(1)" ++ NL in
  fenced_block (py "python") reply_without_import inner
  ∧ ¬ contains import_marker inner
  ∧ Server.generate_code w (circle_request None) = Return (py "n" ++ NL ++ py "print(1)")
  ∧ Main.generate_code w (circle_request None)
    = Return {| code := py "n" ++ NL ++ py "print(1)"; metadata := JList [] |}.
Proof.
  intros L w inner.
  assert (fenced_block (py "python") reply_without_import inner) as Hblock.
  { apply (fenced_block_intro (py "python") reply_without_import 0 10); reflexivity. }
  assert (¬ contains import_marker inner) as Hno.
  { intros [n Hn]%contains_occurs. by apply (search_None import_marker inner eq_refl n). }
  split; [exact Hblock|]. split; [exact Hno|].
  destruct (X5_block_without_import (H:=L) w (circle_request None) reply_without_import
              inner ltac:(repeat split) Hblock Hno) as [Hserver Hmain].
  split; [exact Hserver|]. apply (Hmain (JList [])); reflexivity.
Defined.

(** X6.  [update_code] does the same with a block that does not contain
    [from manim import]: no line starts with the import, so the cut text is
    returned whole, with the letter [n] in front. *)
Theorem X6_update_block_without_import `{Library} (w : World)
    (request : UpdateCodeRequest) (content inner : text) :
  answers w (getenv_OPENAI_API_KEY w)
    (Main.update_chat_request (Main.update_prompt request)) content →
  fenced_block (py "python") content inner →
  ¬ contains import_marker inner →
  Main.update_code w request = Return (py "n" ++ rstrip inner).
Proof.
  intros Hanswer Hblock Hno. rewrite (main_update_code_answered _ _ _ Hanswer).
  by rewrite (extract_updated_code_no_marker _ _ Hblock Hno).
Qed.

Lemma X6_update_block_without_import_witness :
  let L := table_library [] in
  let w := quiet_world (Some reply_without_import) (finished 0 []) [] in
  let inner := NL ++ py "print(1)" ++ NL in
  fenced_block (py "python") reply_without_import inner
  ∧ ¬ contains import_marker inner
  ∧ Main.update_code w update_request = Return (py "n" ++ NL ++ py "print(1)").
Proof.
  intros L w inner.
  assert (fenced_block (py "python") reply_without_import inner) as Hblock.
  { apply (fenced_block_intro (py "python") reply_without_import 0 10); reflexivity. }
  assert (¬ contains import_marker inner) as Hno.
  { intros [n Hn]%contains_occurs. by apply (search_None import_marker inner eq_refl n). }
  split; [exact Hblock|]. split; [exact Hno|].
  apply (X6_update_block_without_import (H:=L) w update_request reply_without_import inner);
    [repeat split | exact Hblock | exact Hno].
Defined.



(** X8.  When the reply holds a python block and a json block whose trimmed
    content [json.loads] decodes, [generate_code], once it has printed the
    code, returns the decoded value as the metadata, unchanged. *)
Theorem X8_metadata_decoded `{Library} (w : World) (request : CodeGenerationRequest)
    (content inner : text) (v : json) :
  answers w (py_or (api_key request) (getenv_OPENAI_API_KEY w))
    (Main.chat_request request) content →
  (∃ block, fenced_block (py "python") content block) →
  fenced_block (py "json") content inner →
  json_loads (strip inner) = Decoded v →
  ∃ code, extract_code content = Return code
          ∧ (encodable code = true →
             Main.generate_code w request = Return {| code := code; metadata := v |}).
Proof.
  intros Hanswer [block Hblock] Hjson Hv.
  rewrite (main_generate_code_answered _ _ _ Hanswer).
  pose proof (extract_code_block _ _ Hblock) as Hcode. eexists. split; [exact Hcode|].
  intros Hprint.
  by rewrite (main_reply_found _ _ Hcode), Hprint, (extract_metadata_block _ _ Hjson), Hv.
Qed.

Lemma X8_metadata_decoded_witness :
  let L := table_library [(font_metadata_text, font_metadata)] in
  let w := quiet_world (Some reply_font) (finished 0 []) [] in
  let code := py "from manim import *" ++ NL ++ py "font_size = 48" in
  fenced_block (py "json") reply_font (NL ++ font_metadata_text ++ NL)
  ∧ json_loads (strip (NL ++ font_metadata_text ++ NL)) = Decoded font_metadata
  ∧ Main.generate_code w (circle_request None)
    = Return {| code := code; metadata := font_metadata |}.
Proof.
  intros L w code.
  assert (fenced_block (py "json") reply_font (NL ++ font_metadata_text ++ NL)) as Hjson.
  { apply (fenced_block_intro (py "json") reply_font 49 108); reflexivity. }
  split; [exact Hjson|]. split; [reflexivity|].
  destruct (X8_metadata_decoded (H:=L) w (circle_request None) reply_font
              (NL ++ font_metadata_text ++ NL) font_metadata) as (code' & Hcode & Hrun);
    [repeat split | | exact Hjson | reflexivity |].
  { eexists. apply (fenced_block_intro (py "python") reply_font 0 36); reflexivity. }
  injection Hcode as <-. apply Hrun. reflexivity.
Defined.

(** ** Failures of the LLM call *)

(** X9.  When the completion carries no text ([content] is [None]), the
    handlers fail with status 500 and the message of the [AttributeError]
    raised by [content.find], behind their prefix. *)
Theorem X9_empty_completion `{Library} (w : World) (request : CodeGenerationRequest)
    (update : UpdateCodeRequest) :
  let key := py_or (api_key request) (getenv_OPENAI_API_KEY w) in
  let env := getenv_OPENAI_API_KEY w in
  (openai_init_error w key = None →
   chat_completions_create w {| client_api_key := key |} (Main.chat_request request)
   = Return None →
   Main.generate_code w request
   = Raise (HTTPException 500
              (py "Failed to generate code: 'NoneType' object has no attribute 'find'")))
  ∧ (openai_init_error w key = None →
     chat_completions_create w {| client_api_key := key |} (Server.chat_request request)
     = Return None →
     Server.generate_code w request
     = Raise (HTTPException 500
                (py "Failed to generate code: 'NoneType' object has no attribute 'find'")))
  ∧ (openai_init_error w env = None →
     chat_completions_create w {| client_api_key := env |}
       (Main.update_chat_request (Main.update_prompt update)) = Return None →
     Main.update_code w update
     = Raise (HTTPException 500
                (py "Failed to update code: 'NoneType' object has no attribute 'find'"))).
Proof.
  cbv zeta. split; [|split]; intros Hinit Hcall.
  - destruct (main_generate_code_cases w request)
      as [(e & He & _)|[(e & _ & He & _)|[(_ & _ & Hrun)|[content [_ Hc]]]]];
      cbv zeta in *; first [congruence | by rewrite Hrun].
  - destruct (server_generate_code_cases w request)
      as [(e & He & _)|[(e & _ & He & _)|[(_ & _ & Hrun)|[content [_ Hc]]]]];
      cbv zeta in *; first [congruence | by rewrite Hrun].
  - destruct (main_update_code_cases w update)
      as [(e & He & _)|[(e & _ & He & _)|[(_ & _ & Hrun)|[content [_ Hc]]]]];
      cbv zeta in *; first [congruence | by rewrite Hrun].
Qed.

Lemma X9_empty_completion_witness :
  let L := table_library [] in
  let w := quiet_world None (finished 0 []) [] in
  Main.generate_code w (circle_request None)
  = Raise (HTTPException 500
             (py "Failed to generate code: 'NoneType' object has no attribute 'find'"))
  ∧ Server.generate_code w (circle_request None)
    = Raise (HTTPException 500
               (py "Failed to generate code: 'NoneType' object has no attribute 'find'"))
  ∧ Main.update_code w update_request
    = Raise (HTTPException 500
               (py "Failed to update code: 'NoneType' object has no attribute 'find'")).
Proof.
  intros L w.
  destruct (X9_empty_completion (H:=L) w (circle_request None) update_request)
    as (Hmain & Hserver & Hupdate).
  split; [|split]; [apply Hmain | apply Hserver | apply Hupdate]; reflexivity.
Defined.

(** X10.  An exception of the LLM call is sent on as one error of status
    500 that carries its message behind the prefix of the handler; no
    second attempt is made. *)
Theorem X10_llm_error_surfaced `{Library} (w : World) (request : CodeGenerationRequest)
    (update : UpdateCodeRequest) (e : exn) :
  let key := py_or (api_key request) (getenv_OPENAI_API_KEY w) in
  let env := getenv_OPENAI_API_KEY w in
  (openai_init_error w key = None →
   chat_completions_create w {| client_api_key := key |} (Main.chat_request request)
   = Raise e →
   Main.generate_code w request
   = Raise (HTTPException 500 (py "Failed to generate code: " ++ str_exn e)))
  ∧ (openai_init_error w key = None →
     chat_completions_create w {| client_api_key := key |} (Server.chat_request request)
     = Raise e →
     Server.generate_code w request
     = Raise (HTTPException 500 (py "Failed to generate code: " ++ str_exn e)))
  ∧ (openai_init_error w env = None →
     chat_completions_create w {| client_api_key := env |}
       (Main.update_chat_request (Main.update_prompt update)) = Raise e →
     Main.update_code w update
     = Raise (HTTPException 500 (py "Failed to update code: " ++ str_exn e))).
Proof.
  cbv zeta. split; [|split]; intros Hinit Hcall.
  - destruct (main_generate_code_cases w request)
      as [(e' & He & _)|[(e' & _ & He & Hrun)|[(_ & He & _)|[content [_ Hc]]]]];
      cbv zeta in *; unfold wrapped in *; congruence.
  - destruct (server_generate_code_cases w request)
      as [(e' & He & _)|[(e' & _ & He & Hrun)|[(_ & He & _)|[content [_ Hc]]]]];
      cbv zeta in *; unfold wrapped in *; congruence.
  - destruct (main_update_code_cases w update)
      as [(e' & He & _)|[(e' & _ & He & Hrun)|[(_ & He & _)|[content [_ Hc]]]]];
      cbv zeta in *; unfold wrapped in *; congruence.
Qed.

Lemma X10_llm_error_surfaced_witness :
  let L := table_library [] in
  let w := failing_world None (Error (py "Connection error.")) in
  Main.generate_code w (circle_request None)
  = Raise (HTTPException 500 (py "Failed to generate code: Connection error."))
  ∧ Server.generate_code w (circle_request None)
    = Raise (HTTPException 500 (py "Failed to generate code: Connection error."))
  ∧ Main.update_code w update_request
    = Raise (HTTPException 500 (py "Failed to update code: Connection error.")).
Proof.
  intros L w.
  destruct (X10_llm_error_surfaced (H:=L) w (circle_request None) update_request
              (Error (py "Connection error."))) as (Hmain & Hserver & Hupdate).
  split; [|split]; [apply Hmain | apply Hserver | apply Hupdate]; reflexivity.
Defined.

(** X11.  The client is built before the [try]: an exception of
    [openai.AsyncOpenAI] leaves [generate_code] and [update_code] as it is,
    without the prefix of the handler, while [validate_key], which builds
    the client inside its [try], answers 401. *)
Theorem X11_client_error `{Library} (w : World) (request : CodeGenerationRequest)
    (update : UpdateCodeRequest) (check : ApiKeyRequest) (e : exn) :
  (openai_init_error w (py_or (api_key request) (getenv_OPENAI_API_KEY w)) = Some e →
   Main.generate_code w request = Raise e ∧ Server.generate_code w request = Raise e)
  ∧ (openai_init_error w (getenv_OPENAI_API_KEY w) = Some e →
     Main.update_code w update = Raise e)
  ∧ (openai_init_error w
       (py_or (Some (key_api_key check)) (getenv_OPENAI_API_KEY w)) = Some e →
     Main.validate_key w check = Raise (HTTPException 401 (py "Invalid API key"))).
Proof.
  split; [|split]; intros Hinit.
  - unfold Main.generate_code, Server.generate_code, AsyncOpenAI. cbv zeta.
    by rewrite Hinit.
  - unfold Main.update_code, AsyncOpenAI. cbv zeta. by rewrite Hinit.
  - unfold Main.validate_key, AsyncOpenAI. cbv zeta. by rewrite Hinit.
Qed.

Lemma X11_client_error_witness :
  let L := table_library [] in
  let e := Error (py "The api_key client option must be set") in
  let w := failing_world (Some e) (Error (py "unused")) in
  (Main.generate_code w (circle_request None) = Raise e
   ∧ Server.generate_code w (circle_request None) = Raise e)
  ∧ Main.update_code w update_request = Raise e
  ∧ Main.validate_key w {| key_api_key := [] |}
    = Raise (HTTPException 401 (py "Invalid API key")).
Proof.
  intros L e w.
  destruct (X11_client_error (H:=L) w (circle_request None) update_request
              {| key_api_key := [] |} e) as (Hcode & Hupdate & Hcheck).
  split; [|split]; [apply Hcode | apply Hupdate | apply Hcheck]; reflexivity.
Defined.

(** X12.  [generate_code] and [update_code] never fail in another way: an
    error is either the exception of the client constructor, as raised, or
    has status 500 and a detail that starts with the prefix of the handler. *)
Theorem X12_code_handlers_errors `{Library} (w : World) (request : CodeGenerationRequest)
    (update : UpdateCodeRequest) (e : exn) :
  (Main.generate_code w request = Raise e →
   openai_init_error w (py_or (api_key request) (getenv_OPENAI_API_KEY w)) = Some e
   ∨ ∃ inner, e = HTTPException 500 (py "Failed to generate code: " ++ str_exn inner))
  ∧ (Server.generate_code w request = Raise e →
     openai_init_error w (py_or (api_key request) (getenv_OPENAI_API_KEY w)) = Some e
     ∨ ∃ inner, e = HTTPException 500 (py "Failed to generate code: " ++ str_exn inner))
  ∧ (Main.update_code w update = Raise e →
     openai_init_error w (getenv_OPENAI_API_KEY w) = Some e
     ∨ ∃ inner, e = HTTPException 500 (py "Failed to update code: " ++ str_exn inner)).
Proof.
  split; [|split]; intros Hraise.
  - destruct (main_generate_code_cases w request)
      as [(e' & He & Hrun)|[(e' & _ & _ & Hrun)|[(_ & _ & Hrun)|[content Hanswer]]]].
    + left. cbv zeta in *. congruence.
    + right. exists e'. unfold wrapped in Hrun. congruence.
    + right. eexists. rewrite Hrun in Hraise. by injection Hraise as <-.
    + right. rewrite (main_generate_code_answered _ _ _ Hanswer) in Hraise.
      destruct (main_reply content) as [r|e'']; [done|]. exists e''.
      by injection Hraise as <-.
  - destruct (server_generate_code_cases w request)
      as [(e' & He & Hrun)|[(e' & _ & _ & Hrun)|[(_ & _ & Hrun)|[content Hanswer]]]].
    + left. cbv zeta in *. congruence.
    + right. exists e'. unfold wrapped in Hrun. congruence.
    + right. eexists. rewrite Hrun in Hraise. by injection Hraise as <-.
    + right. rewrite (server_generate_code_answered _ _ _ Hanswer) in Hraise.
      destruct (extract_code content) as [c|e'']; [done|]. exists e''.
      by injection Hraise as <-.
  - destruct (main_update_code_cases w update)
      as [(e' & He & Hrun)|[(e' & _ & _ & Hrun)|[(_ & _ & Hrun)|[content Hanswer]]]].
    + left. cbv zeta in *. congruence.
    + right. exists e'. unfold wrapped in Hrun. congruence.
    + right. eexists. rewrite Hrun in Hraise. by injection Hraise as <-.
    + by rewrite (main_update_code_answered _ _ _ Hanswer) in Hraise.
Qed.

Lemma X12_code_handlers_errors_witness :
  let L := table_library [] in
  let w := quiet_world (Some reply_refusal) (finished 0 []) [] in
  let e := HTTPException 500
             (py "Failed to generate code: 500: Failed to extract code from response") in
  Main.generate_code w (circle_request None) = Raise e
  ∧ (openai_init_error w (py_or None (getenv_OPENAI_API_KEY w)) = Some e
     ∨ ∃ inner, e = HTTPException 500 (py "Failed to generate code: " ++ str_exn inner)).
Proof.
  intros L w e. split; [reflexivity|].
  apply (proj1 (X12_code_handlers_errors (H:=L) w (circle_request None) update_request e)).
  reflexivity.
Defined.

(** ** Key validation *)

(** X13.  [validate_key] answers [valid] exactly when the client can be
    built with the effective key and [models.list] succeeds; every other
    outcome, whatever failed, is the 401 error [Invalid API key]. *)
Theorem X13_validate_key_outcomes `{Library} (w : World) (request : ApiKeyRequest) :
  let key := py_or (Some (key_api_key request)) (getenv_OPENAI_API_KEY w) in
  let accepted := openai_init_error w key = None
                  ∧ ∃ u, models_list w {| client_api_key := key |} = Return u in
  (Main.validate_key w request = Return (py "valid") ↔ accepted)
  ∧ (Main.validate_key w request = Raise (HTTPException 401 (py "Invalid API key"))
     ↔ ¬ accepted).
Proof. apply validate_key_outcomes. Qed.

(** X14.  For a key that is not empty the helper [validate_api_key] accepts
    exactly the keys the endpoint accepts; the helper returns [False] where
    the endpoint raises. *)
Theorem X14_validate_api_key_agrees `{Library} (w : World) (key : text) :
  key ≠ [] →
  (Main.validate_api_key w key = true
   ↔ Main.validate_key w {| key_api_key := key |} = Return (py "valid"))
  ∧ (Main.validate_api_key w key = false
     ↔ Main.validate_key w {| key_api_key := key |}
       = Raise (HTTPException 401 (py "Invalid API key"))).
Proof.
  intros Hkey. unfold Main.validate_api_key, Main.validate_key, AsyncOpenAI. cbv zeta.
  destruct key as [|c key]; [done|]. simpl py_or.
  destruct (openai_init_error w (Some (c :: key))) as [e|].
  { rewrite !bind_Raise. unfold try_except. by split. }
  rewrite !bind_Return.
  destruct (models_list w {| client_api_key := Some (c :: key) |}) as [u|e].
  - rewrite !bind_Return. unfold try_except. by split.
  - rewrite !bind_Raise. unfold try_except. by split.
Qed.

Lemma X14_validate_api_key_agrees_witness :
  let L := table_library [] in
  let w := quiet_world None (finished 0 []) [] in
  py "sk-test" ≠ []
  ∧ (Main.validate_api_key w (py "sk-test") = true
     ↔ Main.validate_key w {| key_api_key := py "sk-test" |} = Return (py "valid"))
  ∧ (Main.validate_api_key w (py "sk-test") = false
     ↔ Main.validate_key w {| key_api_key := py "sk-test" |}
       = Raise (HTTPException 401 (py "Invalid API key"))).
Proof.
  intros L w.
  assert (py "sk-test" ≠ []) as Hkey by done.
  split; [exact Hkey|].
  exact (X14_validate_api_key_agrees (H:=L) w (py "sk-test") Hkey).
Defined.

(** ** Rendering *)

(** ** The conversion of an [int] to a [float]

    [float(z)] is exact for an int of magnitude below 2^53, and overflows
    for one of magnitude 2^1024 or more. *)

Lemma digits2_iter_xO (m k : positive) :
  digits2_pos (Pos.iter xO m k) = (digits2_pos m + k)%positive.
Proof.
  induction k as [|k IH] using Pos.peano_ind.
  - cbn. lia.
  - rewrite Pos.iter_succ. cbn [digits2_pos]. rewrite IH. lia.
Qed.

Lemma iter_xO_value (m k : positive) :
  Z.pos (Pos.iter xO m k) = Z.pos m * 2 ^ Z.pos k.
Proof.
  induction k as [|k IH] using Pos.peano_ind.
  - cbn [Pos.iter]. lia.
  - rewrite Pos.iter_succ, Pos2Z.inj_xO, IH, Pos2Z.inj_succ, Z.pow_succ_r by lia. lia.
Qed.

Lemma digits2_lower (m : positive) : 2 ^ (Z.pos (digits2_pos m) - 1) ≤ Z.pos m.
Proof.
  induction m as [m IH|m IH|]; cbn [digits2_pos]; [| |done].
  - rewrite Pos2Z.inj_succ.
    replace (Z.succ (Z.pos (digits2_pos m)) - 1) with (Z.succ (Z.pos (digits2_pos m) - 1)) by lia.
    rewrite Z.pow_succ_r by lia. lia.
  - rewrite Pos2Z.inj_succ.
    replace (Z.succ (Z.pos (digits2_pos m)) - 1) with (Z.succ (Z.pos (digits2_pos m) - 1)) by lia.
    rewrite Z.pow_succ_r by lia. lia.
Qed.

Lemma digits2_upper (m : positive) : Z.pos m < 2 ^ Z.pos (digits2_pos m).
Proof.
  induction m as [m IH|m IH|]; cbn [digits2_pos]; [| |done];
    rewrite Pos2Z.inj_succ, Z.pow_succ_r by lia; lia.
Qed.

(** The number of digits of [p], from bounds on [p]. *)
Lemma digits2_between (p : positive) (d : Z) :
  2 ^ (d - 1) ≤ Z.pos p < 2 ^ d → 0 < d → Z.pos (digits2_pos p) = d.
Proof.
  intros [Hlow Hup] Hd. pose proof (digits2_lower p). pose proof (digits2_upper p).
  destruct (Z.lt_trichotomy (Z.pos (digits2_pos p)) d) as [Hlt|[|Hgt]]; [|done|].
  - assert (2 ^ Z.pos (digits2_pos p) ≤ 2 ^ (d - 1)) by (apply Z.pow_le_mono_r; lia). lia.
  - assert (2 ^ d ≤ 2 ^ (Z.pos (digits2_pos p) - 1)) by (apply Z.pow_le_mono_r; lia). lia.
Qed.

Lemma digits2_small (m : positive) : Z.pos m < 2 ^ 53 → Z.pos (digits2_pos m) ≤ 53.
Proof.
  intros Hm. destruct (Z.le_gt_cases (Z.pos (digits2_pos m)) 53) as [|Hd]; [done|].
  pose proof (digits2_lower m) as Hlow.
  assert (2 ^ 53 ≤ 2 ^ (Z.pos (digits2_pos m) - 1)) by (apply Z.pow_le_mono_r; lia). lia.
Qed.

Lemma binary_round_aux_canonical (s : bool) (mz : positive) (ez : Z) :
  Z.pos (digits2_pos mz) = 53 → -1074 ≤ ez ≤ 971 →
  binary_round_aux 53 1024 s (Z.pos mz) ez loc_Exact = S754_finite s mz ez.
Proof.
  intros Hd He. unfold binary_round_aux, shr_fexp, Zdigits2, fexp, emin.
  rewrite Hd. replace (Z.max (53 + ez - 53) (3 - 1024 - 53)) with ez by lia.
  rewrite Z.sub_diag. cbn [shr shr_record_of_loc shr_m loc_of_shr_record round_nearest_even].
  rewrite Hd. replace (Z.max (53 + ez - 53) (3 - 1024 - 53)) with ez by lia.
  rewrite Z.sub_diag. cbn [shr shr_m].
  destruct (Z.leb_spec ez (1024 - 53)); [done | lia].
Qed.

Lemma binary_round_exact (s : bool) (m : positive) :
  Z.pos m < 2 ^ 53 →
  ∃ mz k, binary_round 53 1024 s m 0 = S754_finite s mz (- k)
          ∧ 0 ≤ k ≤ 52 ∧ Z.pos mz = Z.pos m * 2 ^ k.
Proof.
  intros Hd%digits2_small. unfold binary_round, shl_align, fexp, emin.
  rewrite Z.add_0_r, Z.sub_0_r.
  replace (Z.max (Z.pos (digits2_pos m) - 53) (3 - 1024 - 53))
    with (Z.pos (digits2_pos m) - 53) by lia.
  destruct (Z.pos (digits2_pos m) - 53) as [|k|k] eqn:Hk; [|lia|].
  - exists m, 0. rewrite binary_round_aux_canonical by lia. split; [done|]. lia.
  - exists (Pos.iter xO m k), (Z.pos k).
    rewrite binary_round_aux_canonical; [| rewrite digits2_iter_xO; lia | lia].
    split; [done|]. split; [lia | apply iter_xO_value].
Qed.

Lemma float_of_int_exact (z : Z) :
  - 2 ^ 53 < z < 2 ^ 53 →
  is_infinity (float_of_int z) = false ∧ int_of_float (float_of_int z) = Some z.
Proof.
  intros Hz. unfold float_of_int, binary_normalize.
  destruct z as [|m|m]; [done| |].
  - destruct (binary_round_exact false m) as (mz & k & -> & Hk & Hmz); [lia|].
    split; [done|]. unfold int_of_float.
    destruct (Z.leb_spec 0 (- k)) as [H0|H0].
    + replace k with 0 in * by lia. f_equal. cbn in Hmz |- *. lia.
    + rewrite Z.opp_involutive, Hmz, Z_mod_mult, Z.eqb_refl, Z_div_mult; [done|].
      apply Z.lt_gt, Z.pow_pos_nonneg; lia.
  - destruct (binary_round_exact true m) as (mz & k & -> & Hk & Hmz); [lia|].
    split; [done|]. unfold int_of_float.
    destruct (Z.leb_spec 0 (- k)) as [H0|H0].
    + replace k with 0 in * by lia. f_equal. cbn in Hmz |- *. lia.
    + rewrite Z.opp_involutive, Hmz, Z_mod_mult, Z.eqb_refl.
      f_equal. change (Z.neg mz) with (- Z.pos mz). rewrite Hmz.
      rewrite <- Z.mul_opp_l, Z_div_mult; [done|].
      apply Z.lt_gt, Z.pow_pos_nonneg; lia.
Qed.

Lemma shr_1_m (mrs : shr_record) : 0 ≤ shr_m mrs → shr_m (shr_1 mrs) = shr_m mrs / 2.
Proof.
  destruct mrs as [m r s]. cbn [shr_m]. intros Hm.
  destruct m as [|[p|p|]|p]; cbn [shr_1 shr_m]; [done| | |done|lia].
  - rewrite Pos2Z.inj_xI. apply (Z.div_unique _ 2 _ 1); lia.
  - rewrite Pos2Z.inj_xO. apply (Z.div_unique _ 2 _ 0); lia.
Qed.

Lemma shr_1_nonneg (mrs : shr_record) : 0 ≤ shr_m mrs → 0 ≤ shr_m (shr_1 mrs).
Proof. intros Hm. rewrite shr_1_m by done. apply Z.div_pos; lia. Qed.

Lemma shr_m_iter (n : positive) (mrs : shr_record) :
  0 ≤ shr_m mrs →
  shr_m (SpecFloat.iter_pos shr_1 n mrs) = shr_m mrs / 2 ^ Z.pos n.
Proof.
  revert mrs. induction n as [n IH|n IH|]; intros mrs Hm; cbn [SpecFloat.iter_pos].
  - assert (0 < 2 ^ Z.pos n) as Hpow by (apply Z.pow_pos_nonneg; lia).
    pose proof (shr_1_nonneg _ Hm) as H1. pose proof (IH _ H1) as E1.
    assert (0 ≤ shr_m (SpecFloat.iter_pos shr_1 n (shr_1 mrs))) as H2.
    { rewrite E1. apply Z.div_pos; lia. }
    rewrite (IH _ H2), E1, shr_1_m, !Z.div_div by lia. f_equal.
    rewrite (Pos2Z.inj_xI n). replace (2 * Z.pos n + 1) with (1 + Z.pos n + Z.pos n) by lia.
    rewrite !Z.pow_add_r by lia. lia.
  - assert (0 < 2 ^ Z.pos n) as Hpow by (apply Z.pow_pos_nonneg; lia).
    pose proof (IH _ Hm) as E1.
    assert (0 ≤ shr_m (SpecFloat.iter_pos shr_1 n mrs)) as H2.
    { rewrite E1. apply Z.div_pos; lia. }
    rewrite (IH _ H2), E1, Z.div_div by lia. f_equal.
    rewrite (Pos2Z.inj_xO n). replace (2 * Z.pos n) with (Z.pos n + Z.pos n) by lia.
    rewrite Z.pow_add_r by lia. lia.
  - by apply shr_1_m.
Qed.

Lemma binary_round_overflow (s : bool) (m : positive) :
  2 ^ 1024 ≤ Z.pos m → binary_round 53 1024 s m 0 = S754_infinity s.
Proof.
  intros Hm. pose proof (digits2_lower m) as Hlow. pose proof (digits2_upper m) as Hup.
  remember (Z.pos (digits2_pos m)) as d eqn:Hdigits.
  assert (1025 ≤ d) as Hd.
  { destruct (Z.le_gt_cases 1025 d) as [|Hlt]; [done|].
    assert (2 ^ d ≤ 2 ^ 1024) by (apply Z.pow_le_mono_r; lia). lia. }
  unfold binary_round, shl_align, fexp, emin. rewrite <- Hdigits.
  replace (Z.max (d + 0 - 53) (3 - 1024 - 53) - 0) with (d - 53) by lia.
  destruct (d - 53) as [|n|n] eqn:Hn; [lia| |lia].
  unfold binary_round_aux. unfold shr_fexp at 1. unfold Zdigits2, fexp, emin.
  rewrite <- Hdigits.
  replace (Z.max (d + 0 - 53) (3 - 1024 - 53) - 0) with (Z.pos n) by lia.
  cbn [shr shr_record_of_loc]. rewrite Z.add_0_l.
  remember (SpecFloat.iter_pos shr_1 n _) as mrs eqn:Hmrs.
  assert (shr_m mrs = Z.pos m / 2 ^ Z.pos n) as Hq.
  { rewrite Hmrs. apply shr_m_iter. cbn. lia. }
  assert (0 < 2 ^ Z.pos n) as Hpow by (apply Z.pow_pos_nonneg; lia).
  assert (2 ^ 52 ≤ shr_m mrs < 2 ^ 53) as Hrange.
  { rewrite Hq. split.
    - apply Z.div_le_lower_bound; [lia|].
      rewrite <- Z.pow_add_r by lia. replace (Z.pos n + 52) with (d - 1) by lia. done.
    - apply Z.div_lt_upper_bound; [lia|].
      rewrite <- Z.pow_add_r by lia. replace (Z.pos n + 53) with d by lia. done. }
  remember (round_nearest_even (shr_m mrs) (loc_of_shr_record mrs)) as m2 eqn:Hm2.
  assert (2 ^ 52 ≤ m2 ≤ 2 ^ 53) as Hbounds.
  { rewrite Hm2. unfold round_nearest_even.
    destruct (loc_of_shr_record mrs) as [|[]]; try destruct (Z.even _); lia. }
  destruct m2 as [|p|p]; [lia| |lia].
  unfold shr_fexp, Zdigits2, fexp, emin.
  destruct (Z.eq_dec (Z.pos p) (2 ^ 53)) as [Hbig|Hsmall].
  - rewrite (digits2_between p 54) by lia.
    replace (Z.max (54 + Z.pos n - 53) (3 - 1024 - 53) - Z.pos n) with 1 by lia.
    cbn [shr shr_record_of_loc SpecFloat.iter_pos].
    rewrite shr_1_m by (cbn; lia). cbn [shr_m]. rewrite Hbig.
    change (2 ^ 53 / 2) with 4503599627370496.
    destruct (Z.leb_spec (Z.pos n + 1) (1024 - 53)); [lia | done].
  - rewrite (digits2_between p 53) by lia.
    replace (Z.max (53 + Z.pos n - 53) (3 - 1024 - 53) - Z.pos n) with 0 by lia.
    cbn [shr shr_record_of_loc shr_m].
    destruct (Z.leb_spec (Z.pos n) (1024 - 53)); [lia | done].
Qed.

Lemma float_of_int_overflow (z : Z) :
  2 ^ 1024 ≤ z ∨ z ≤ - 2 ^ 1024 → is_infinity (float_of_int z) = true.
Proof.
  intros Hz. unfold float_of_int, binary_normalize.
  destruct z as [|m|m]; [lia| |]; rewrite binary_round_overflow; try done; lia.
Qed.

Section render_steps.
Context `{Library} (w : World).

Lemma new_AnimationResponse_path path d r :
  new_AnimationResponse path d = Return r → output_path r = path.
Proof.
  unfold new_AnimationResponse.
  destruct d as [|b|z|f|t|l|d]; try (by intros [= <-]);
    try (destruct (pydantic_float_lax _); by intros [= <-]).
  destruct (is_infinity (float_of_int z)); by intros [= <-].
Qed.

Lemma main_render_inv request scene r :
  main_render w request scene = Return r →
  ∃ proc out others,
    subprocess_run w
      (render_command (quality request) (path_join (temp_dir w) (py "animation.py")) scene)
      (temp_dir w) = Return proc
    ∧ returncode proc = 0
    ∧ rglob w (temp_dir w) (py "animation*." ++ format request) = Return (out :: others)
    ∧ output_path r = path_join (py "outputs") (path_name out).
Proof.
  unfold main_render.
  destruct (subprocess_run w _ _) as [proc|e]; [rewrite bind_Return | done].
  destruct (Z.eqb_spec (returncode proc) 0) as [Hcode|]; [|done]. simpl negb. cbv iota.
  destruct (rglob w _ _) as [[|out others]|e]; [done| |done]. rewrite bind_Return.
  destruct (read_duration w _) as [d|e]; [rewrite bind_Return | done].
  destruct (mkdir w _) as [u|e]; [rewrite bind_Return | done].
  destruct (rename w _ _) as [u'|e]; [rewrite bind_Return | done].
  intros Hr%new_AnimationResponse_path. by exists proc, out, others.
Qed.

Lemma server_render_inv request scene r :
  server_render w request scene = Return r →
  ∃ proc out others,
    subprocess_run w
      (render_command (quality request) (path_join (temp_dir w) (py "animation.py")) scene)
      (temp_dir w) = Return proc
    ∧ returncode proc = 0
    ∧ rglob w (temp_dir w) (py "animation*." ++ format request) = Return (out :: others)
    ∧ output_path r = py "outputs/temp/" ++ path_name out.
Proof.
  unfold server_render.
  destruct (subprocess_run w _ _) as [proc|e]; [rewrite bind_Return | done].
  destruct (Z.eqb_spec (returncode proc) 0) as [Hcode|]; [|done]. simpl negb. cbv iota.
  destruct (rglob w _ _) as [[|out others]|e]; [done| |done]. rewrite bind_Return.
  destruct (read_duration w _) as [d|e]; [rewrite bind_Return | done].
  destruct (mkdir w _) as [u|e]; [rewrite bind_Return | done].
  destruct (shutil_move w _ _) as [u'|e]; [rewrite bind_Return | done].
  intros Hr%new_AnimationResponse_path. by exists proc, out, others.
Qed.

(** Up to the duration both services run alike. *)
Lemma main_render_found request scene proc out others :
  subprocess_run w
    (render_command (quality request) (path_join (temp_dir w) (py "animation.py")) scene)
    (temp_dir w) = Return proc →
  returncode proc = 0 →
  rglob w (temp_dir w) (py "animation*." ++ format request) = Return (out :: others) →
  main_render w request scene
  = (duration ← read_duration w (temp_dir w);
     _ ← mkdir w (py "outputs");
     _ ← rename w out (path_join (py "outputs") (path_name out));
     new_AnimationResponse (path_join (py "outputs") (path_name out)) duration).
Proof.
  intros Hrun Hcode Hglob. unfold main_render.
  rewrite Hrun, bind_Return, Hcode. change (negb (0 =? 0)) with false. cbv iota.
  by rewrite Hglob, bind_Return.
Qed.

Lemma server_render_found request scene proc out others :
  subprocess_run w
    (render_command (quality request) (path_join (temp_dir w) (py "animation.py")) scene)
    (temp_dir w) = Return proc →
  returncode proc = 0 →
  rglob w (temp_dir w) (py "animation*." ++ format request) = Return (out :: others) →
  server_render w request scene
  = (duration ← read_duration w (temp_dir w);
     _ ← mkdir w (py "outputs/temp");
     _ ← shutil_move w out (path_join (py "outputs/temp") (path_name out));
     new_AnimationResponse (py "outputs/temp/" ++ path_name out) duration).
Proof.
  intros Hrun Hcode Hglob. unfold server_render.
  rewrite Hrun, bind_Return, Hcode. change (negb (0 =? 0)) with false. cbv iota.
  by rewrite Hglob, bind_Return.
Qed.

Lemma read_duration_present src :
  path_exists w (path_join (temp_dir w) (py "animation.json")) = true →
  read_file w (path_join (temp_dir w) (py "animation.json")) = Return src →
  read_duration w (temp_dir w)
  = match json_loads src with
    | Decoded v => dict_get v (py "duration") (JInt 0)
    | JSONDecodeError msg | OtherError msg => Raise (Error msg)
    end.
Proof.
  intros Hexists Hread. unfold read_duration, json_load. cbv zeta.
  rewrite Hexists, Hread, bind_Return. by destruct (json_loads src).
Qed.

(** Every way [generate_animation] fails. *)
Lemma main_generate_animation_errors request e :
  Main.generate_animation w request = Raise e →
  main_scratch w request = Raise e
  ∨ scratch_written w request
    ∧ (e = HTTPException 500 (py "Could not find a Scene class in the code.")
       ∨ ∃ inner, e = wrapped (py "Animation generation failed: ") inner).
Proof.
  intros Hrun.
  destruct (main_generate_animation_started w _ _ Hrun)
    as [Hwritten%main_scratch_written|(e' & Hscratch & [= ->])]; [|by left].
  right. split; [done|].
  destruct (scene_name_of isalnum_unicode (anim_code request)) as [scene|] eqn:Hscene.
  - rewrite (main_generate_animation_scene w _ _ Hwritten Hscene) in Hrun.
    apply try_except_wrapped in Hrun as (inner & _ & ->). right. by exists inner.
  - rewrite (main_generate_animation_none w _ Hwritten Hscene) in Hrun.
    injection Hrun as <-. by left.
Qed.

Lemma server_generate_animation_errors request e :
  Server.generate_animation w request = Raise e →
  server_scratch w request = Raise e
  ∨ scratch_written w request
    ∧ (e = HTTPException 500 (py "Could not find a Scene class in the code.")
       ∨ ∃ inner, e = wrapped (py "Animation generation failed: ") inner).
Proof.
  intros Hrun.
  destruct (server_generate_animation_started w _ _ Hrun)
    as [Hwritten%server_scratch_written|(e' & Hscratch & [= ->])]; [|by left].
  right. split; [done|].
  destruct (scene_name_of isalnum_unicode (anim_code request)) as [scene|] eqn:Hscene.
  - rewrite (server_generate_animation_scene w _ _ Hwritten Hscene) in Hrun.
    apply try_except_wrapped in Hrun as (inner & _ & ->). right. by exists inner.
  - rewrite (server_generate_animation_none w _ Hwritten Hscene) in Hrun.
    injection Hrun as <-. by left.
Qed.

(** What fails before the scene check: making the directory, opening the
    file, encoding the code, writing it; in server.py the code is printed
    first. *)
Lemma main_scratch_errors request e :
  main_scratch w request = Raise e →
  mkdtemp_error w = Some e
  ∨ open_error w (path_join (temp_dir w) (py "animation.py")) = Some e
  ∨ (encodable (anim_code request) = false
     ∧ e = Error (unicode_encode_error (anim_code request)))
  ∨ write_error w (path_join (temp_dir w) (py "animation.py")) (anim_code request) = Some e.
Proof.
  unfold main_scratch, TemporaryDirectory, write_text.
  destruct (mkdtemp_error w) as [e'|]; [intros [= ->]; by left|]. rewrite bind_Return.
  destruct (open_error w _) as [e'|]; [intros [= ->]; right; by left|].
  destruct (encodable (anim_code request)); [|intros [= <-]; right; right; by left].
  destruct (write_error w _ _) as [e'|]; [intros [= ->]; by do 3 right | done].
Qed.

Lemma server_scratch_errors request e :
  server_scratch w request = Raise e →
  (encodable (anim_code request) = false
   ∧ e = Error (unicode_encode_error (anim_code request)))
  ∨ mkdtemp_error w = Some e
  ∨ open_error w (path_join (temp_dir w) (py "animation.py")) = Some e
  ∨ write_error w (path_join (temp_dir w) (py "animation.py")) (anim_code request) = Some e.
Proof.
  rewrite server_scratch_eq.
  destruct (encodable (anim_code request)) eqn:Hcode; [|intros [= <-]; by left].
  intros [?|[?|[[? _]|?]]]%main_scratch_errors; [by right; left|by right; right; left|congruence|by do 3 right].
Qed.
End render_steps.

(** X15.  Every failure of [generate_animation].  Before the scene is
    looked for the handler makes the scratch directory and writes the code
    into it (server.py prints the code first): an exception there, such as
    the [UnicodeEncodeError] for code with a lone surrogate, leaves the
    handler as it was raised.  After that an error has status 500: it is
    the no-scene-class error, or anything raised after the scene was found,
    sent on behind [Animation generation failed: ]. *)
Theorem X15_animation_errors `{Library} (w : World) (request : AnimationRequest)
    (e : exn) :
  let path := path_join (temp_dir w) (py "animation.py") in
  let unencodable := encodable (anim_code request) = false
                     ∧ e = Error (unicode_encode_error (anim_code request)) in
  let not_written := unencodable ∨ mkdtemp_error w = Some e
                     ∨ open_error w path = Some e
                     ∨ write_error w path (anim_code request) = Some e in
  Main.generate_animation w request = Raise e
  ∨ Server.generate_animation w request = Raise e →
  not_written
  ∨ scratch_written w request
    ∧ (e = HTTPException 500 (py "Could not find a Scene class in the code.")
       ∨ ∃ inner, e = HTTPException 500
                        (py "Animation generation failed: " ++ str_exn inner)).
Proof.
  intros path unencodable not_written
    [[Hscratch|Hlater]%main_generate_animation_errors
    |[Hscratch|Hlater]%server_generate_animation_errors]; [|by right| |by right]; left.
  - apply main_scratch_errors in Hscratch as [?|[?|[?|?]]];
      subst not_written unencodable path; tauto.
  - apply server_scratch_errors in Hscratch as [?|[?|[?|?]]];
      subst not_written unencodable path; tauto.
Qed.

Lemma X15_animation_errors_witness :
  let L := table_library [] in
  let w := quiet_world None (finished 0 []) [] in
  let e := Error (py "'utf-8' codec can't encode character '\udc80' in position 5: surrogates not allowed") in
  Main.generate_animation w surrogate_request = Raise e
  ∧ Server.generate_animation w surrogate_request = Raise e
  ∧ encodable (anim_code surrogate_request) = false
  ∧ e = Error (unicode_encode_error (anim_code surrogate_request)).
Proof.
  intros L w e.
  assert (Main.generate_animation w surrogate_request = Raise e) as Hrun by reflexivity.
  split; [exact Hrun|]. split; [reflexivity|].
  destruct (X15_animation_errors (H:=L) w surrogate_request e (or_introl Hrun))
    as [[Hcode|[Hdir|[Hopen|Hclose]]]|[(_ & _ & Hcode & _) _]];
    [exact Hcode | discriminate Hdir | discriminate Hopen | discriminate Hclose
    | discriminate Hcode].
Defined.

(** X16.  When the renderer exits with code 0 and no file matching
    [animation*.<format>] is found in the scratch directory, the request
    fails with status 500 and the wrapped message [No output file
    generated]. *)
Theorem X16_no_output_file `{Library} (w : World) (request : AnimationRequest)
    (scene : text) (proc : CompletedProcess) :
  scratch_written w request →
  scene_name_of isalnum_unicode (anim_code request) = Some scene →
  subprocess_run w
    (render_command (quality request) (path_join (temp_dir w) (py "animation.py")) scene)
    (temp_dir w) = Return proc →
  returncode proc = 0 →
  rglob w (temp_dir w) (py "animation*." ++ format request) = Return [] →
  let detail := py "Animation generation failed: "
                ++ str_exn (HTTPException 500 (py "No output file generated")) in
  Main.generate_animation w request = Raise (HTTPException 500 detail)
  ∧ Server.generate_animation w request = Raise (HTTPException 500 detail).
Proof.
  intros Hwritten Hscene Hrun Hcode Hglob.
  rewrite (main_generate_animation_scene w _ _ Hwritten Hscene).
  rewrite (server_generate_animation_scene w _ _ Hwritten Hscene).
  unfold main_render, server_render.
  rewrite Hrun, !bind_Return, Hcode. change (negb (0 =? 0)) with false. cbv iota.
  by rewrite Hglob.
Qed.

Lemma X16_no_output_file_witness :
  let L := table_library [] in
  let w := quiet_world None (finished 0 []) [] in
  scratch_written w (foo_request (py "low"))
  ∧ rglob w (temp_dir w) (py "animation*." ++ format (foo_request (py "low"))) = Return []
  ∧ Main.generate_animation w (foo_request (py "low"))
    = Raise (HTTPException 500
               (py "Animation generation failed: 500: No output file generated"))
  ∧ Server.generate_animation w (foo_request (py "low"))
    = Raise (HTTPException 500
               (py "Animation generation failed: 500: No output file generated")).
Proof.
  intros L w.
  assert (scratch_written w (foo_request (py "low"))) as Hwritten by (repeat split).
  split; [exact Hwritten|]. split; [reflexivity|].
  apply (X16_no_output_file (H:=L) w (foo_request (py "low")) (py "Foo") (finished 0 []));
    [exact Hwritten | reflexivity..].
Defined.

(** X17.  When [animation.json] exists and decodes to a dictionary, the
    duration of the response is its [duration] entry: 0 when the dictionary
    has no such entry; a [float] as it is; an [int] converted to the
    nearest double, which for an int of magnitude below 2^53 is the double
    of that very value.  An int that is too large for a double (the
    conversion overflows; every int of magnitude 2^1024 or more is one) is
    rejected, and the request fails with status 500. *)
Theorem X17_duration_from_json `{Library} (w : World) (request : AnimationRequest)
    (scene : text) (proc : CompletedProcess) (out : text) (others : list text)
    (src : text) (d : list (text * json)) :
  scratch_written w request →
  scene_name_of isalnum_unicode (anim_code request) = Some scene →
  subprocess_run w
    (render_command (quality request) (path_join (temp_dir w) (py "animation.py")) scene)
    (temp_dir w) = Return proc →
  returncode proc = 0 →
  rglob w (temp_dir w) (py "animation*." ++ format request) = Return (out :: others) →
  path_exists w (path_join (temp_dir w) (py "animation.json")) = true →
  read_file w (path_join (temp_dir w) (py "animation.json")) = Return src →
  json_loads src = Decoded (JDict d) →
  mkdir w (py "outputs") = Return () →
  rename w out (path_join (py "outputs") (path_name out)) = Return () →
  let path := path_join (py "outputs") (path_name out) in
  let rejected z := HTTPException 500
                      (py "Animation generation failed: " ++ int_too_large z) in
  (assoc (py "duration") d = None →
   Main.generate_animation w request
   = Return {| output_path := path; duration := S754_zero false |})
  ∧ (∀ f, assoc (py "duration") d = Some (JFloat f) →
          Main.generate_animation w request
          = Return {| output_path := path; duration := f |})
  ∧ (∀ z, assoc (py "duration") d = Some (JInt z) →
          Main.generate_animation w request
          = (if is_infinity (float_of_int z) then Raise (rejected z)
             else Return {| output_path := path; duration := float_of_int z |})
          ∧ (- 2 ^ 53 < z < 2 ^ 53 →
             ∃ f, Main.generate_animation w request
                  = Return {| output_path := path; duration := f |}
                  ∧ int_of_float f = Some z)
          ∧ (2 ^ 1024 ≤ z ∨ z ≤ - 2 ^ 1024 →
             Main.generate_animation w request = Raise (rejected z))).
Proof.
  intros Hwritten Hscene Hrun Hcode Hglob Hexists Hread Hjson Hmkdir Hmove path rejected.
  rewrite (main_generate_animation_scene w _ _ Hwritten Hscene).
  rewrite (main_render_found w _ _ _ _ _ Hrun Hcode Hglob).
  rewrite (read_duration_present w _ Hexists Hread), Hjson. unfold dict_get.
  rewrite !bind_Return, Hmkdir, bind_Return, Hmove, bind_Return.
  split; [by intros ->|]. split; [by intros f ->|].
  intros z ->. change (default (JInt 0) (Some (JInt z))) with (JInt z).
  unfold new_AnimationResponse.
  split; [by destruct (is_infinity (float_of_int z))|]. split.
  - intros [Hfinite Hvalue]%float_of_int_exact. rewrite Hfinite. by eexists.
  - intros Hz%float_of_int_overflow. by rewrite Hz.
Qed.

Lemma X17_duration_from_json_witness :
  let src := pyq "{'duration': 3}" in
  let L := table_library [(src, JDict [(py "duration", JInt 3)])] in
  let out := py "/tmp/tmpq1w2e3/media/videos/animation/480p15/animation.mp4" in
  let w := world_with_json src [out] in
  json_loads src = Decoded (JDict [(py "duration", JInt 3)])
  ∧ Main.generate_animation w (foo_request (py "low"))
    = Return {| output_path := py "outputs/animation.mp4";
                duration := S754_finite false 6755399441055744 (-51) |}
  ∧ int_of_float (S754_finite false 6755399441055744 (-51)) = Some 3.
Proof.
  intros src L out w. split; [reflexivity|].
  destruct (X17_duration_from_json (H:=L) w (foo_request (py "low")) (py "Foo")
              (finished 0 []) out [] src [(py "duration", JInt 3)])
    as (_ & _ & Hint); [by repeat split | reflexivity..|].
  destruct (Hint 3 eq_refl) as [Hrun _].
  split; [|reflexivity]. etrans; [exact Hrun | reflexivity].
Defined.

(** An int that no double holds: the request fails. *)
Example duration_too_large :
  let src := pyq "{'duration': 1" ++ replicate 400 48%N ++ py "}" in
  let L := table_library [(src, JDict [(py "duration", JInt (10 ^ 400))])] in
  let out := py "/tmp/tmpq1w2e3/media/videos/animation/480p15/animation.mp4" in
  let w := world_with_json src [out] in
  Main.generate_animation w (foo_request (py "low"))
  = Raise (HTTPException 500
             (py "Animation generation failed: int too large to convert to float")).
Proof. vm_compute. reflexivity. Qed.

(** X18.  When [animation.json] exists but is not JSON, or does not hold a
    dictionary, the request fails with status 500 although the render
    succeeded: only the absence of the file is tolerated. *)
Theorem X18_malformed_duration_file `{Library} (w : World) (request : AnimationRequest)
    (scene : text) (proc : CompletedProcess) (out : text) (others : list text)
    (src : text) :
  scratch_written w request →
  scene_name_of isalnum_unicode (anim_code request) = Some scene →
  subprocess_run w
    (render_command (quality request) (path_join (temp_dir w) (py "animation.py")) scene)
    (temp_dir w) = Return proc →
  returncode proc = 0 →
  rglob w (temp_dir w) (py "animation*." ++ format request) = Return (out :: others) →
  path_exists w (path_join (temp_dir w) (py "animation.json")) = true →
  read_file w (path_join (temp_dir w) (py "animation.json")) = Return src →
  (∀ msg, json_loads src = JSONDecodeError msg →
          let e := HTTPException 500 (py "Animation generation failed: " ++ msg) in
          Main.generate_animation w request = Raise e
          ∧ Server.generate_animation w request = Raise e)
  ∧ (∀ v, json_loads src = Decoded v → (∀ d, v ≠ JDict d) →
          let e := HTTPException 500
                     (py "Animation generation failed: '" ++ type_name v
                      ++ py "' object has no attribute 'get'") in
          Main.generate_animation w request = Raise e
          ∧ Server.generate_animation w request = Raise e).
Proof.
  intros Hwritten Hscene Hrun Hcode Hglob Hexists Hread.
  rewrite (main_generate_animation_scene w _ _ Hwritten Hscene).
  rewrite (server_generate_animation_scene w _ _ Hwritten Hscene).
  rewrite (main_render_found w _ _ _ _ _ Hrun Hcode Hglob).
  rewrite (server_render_found w _ _ _ _ _ Hrun Hcode Hglob).
  rewrite (read_duration_present w _ Hexists Hread).
  split.
  - intros msg ->. by rewrite !bind_Raise.
  - intros v -> Hv. unfold dict_get.
    destruct v as [|b|z|f|s|l|d]; try (by rewrite !bind_Raise). by destruct (Hv d).
Qed.

Lemma X18_malformed_duration_file_witness :
  let src := py "[1, 2" in
  let L := table_library [] in
  let out := py "/tmp/tmpq1w2e3/media/videos/animation/480p15/animation.mp4" in
  let w := world_with_json src [out] in
  json_loads src = JSONDecodeError (py "Expecting value: line 1 column 1 (char 0)")
  ∧ Main.generate_animation w (foo_request (py "low"))
    = Raise (HTTPException 500
               (py "Animation generation failed: Expecting value: line 1 column 1 (char 0)")).
Proof.
  intros src L out w. split; [reflexivity|].
  destruct (X18_malformed_duration_file (H:=L) w (foo_request (py "low")) (py "Foo")
              (finished 0 []) out [] src) as (Hbad & _); [by repeat split | reflexivity..|].
  apply (Hbad (py "Expecting value: line 1 column 1 (char 0)")). reflexivity.
Defined.

Lemma output_path_of_success `{Library} (w : World) (request : AnimationRequest)
    (r : AnimationResponse) :
  (Main.generate_animation w request = Return r →
   ∃ out others,
     rglob w (temp_dir w) (py "animation*." ++ format request) = Return (out :: others)
     ∧ output_path r = py "outputs/" ++ path_name out
     ∧ path_name (output_path r) = path_name out)
  ∧ (Server.generate_animation w request = Return r →
     ∃ out others,
       rglob w (temp_dir w) (py "animation*." ++ format request) = Return (out :: others)
       ∧ output_path r = py "outputs/temp/" ++ path_name out
       ∧ path_name (output_path r) = path_name out).
Proof.
  split; intros Hrun.
  - destruct (main_generate_animation_started w _ _ Hrun)
      as [Hwritten%main_scratch_written|(e & _ & [=])].
    destruct (scene_name_of isalnum_unicode (anim_code request)) as [scene|] eqn:Hscene;
      [|by rewrite (main_generate_animation_none w _ Hwritten Hscene) in Hrun].
    rewrite (main_generate_animation_scene w _ _ Hwritten Hscene) in Hrun.
    apply try_except_wrapped in Hrun.
    apply main_render_inv in Hrun as (proc & out & others & _ & _ & Hglob & Hpath).
    exists out, others. rewrite Hpath. split; [done|]. split; [done|].
    apply path_name_join, path_name_no_slash.
  - destruct (server_generate_animation_started w _ _ Hrun)
      as [Hwritten%server_scratch_written|(e & _ & [=])].
    destruct (scene_name_of isalnum_unicode (anim_code request)) as [scene|] eqn:Hscene;
      [|by rewrite (server_generate_animation_none w _ Hwritten Hscene) in Hrun].
    rewrite (server_generate_animation_scene w _ _ Hwritten Hscene) in Hrun.
    apply try_except_wrapped in Hrun.
    apply server_render_inv in Hrun as (proc & out & others & _ & _ & Hglob & Hpath).
    exists out, others. rewrite Hpath. split; [done|]. split; [done|].
    apply (path_name_join (py "outputs/temp")), path_name_no_slash.
Qed.

(** X19.  On success the path of the response is [outputs/<name>] in
    main.py and [outputs/temp/<name>] in server.py, where [<name>] is the
    file name of the first artifact found; the file keeps its name. *)
Theorem X19_output_path `{Library} (w : World) (request : AnimationRequest)
    (r : AnimationResponse) :
  (Main.generate_animation w request = Return r →
   ∃ out others,
     rglob w (temp_dir w) (py "animation*." ++ format request) = Return (out :: others)
     ∧ output_path r = py "outputs/" ++ path_name out
     ∧ path_name (output_path r) = path_name out)
  ∧ (Server.generate_animation w request = Return r →
     ∃ out others,
       rglob w (temp_dir w) (py "animation*." ++ format request) = Return (out :: others)
       ∧ output_path r = py "outputs/temp/" ++ path_name out
       ∧ path_name (output_path r) = path_name out).
Proof. apply output_path_of_success. Qed.

Lemma X19_output_path_witness :
  let L := table_library [] in
  let out := py "/tmp/tmpq1w2e3/media/videos/animation/480p15/animation.mp4" in
  let w := quiet_world None (finished 0 []) [out] in
  let r := {| output_path := py "outputs/animation.mp4"; duration := S754_zero false |} in
  Main.generate_animation w (foo_request (py "low")) = Return r
  ∧ ∃ out' others,
      rglob w (temp_dir w) (py "animation*." ++ py "mp4") = Return (out' :: others)
      ∧ output_path r = py "outputs/" ++ path_name out'
      ∧ path_name (output_path r) = path_name out'.
Proof.
  intros L out w r. split; [reflexivity|].
  apply (proj1 (X19_output_path (H:=L) w (foo_request (py "low")) r)). reflexivity.
Defined.

(** X20.  [get_output_file] answers 404 exactly when the file is not there,
    and serves a file that is there with the media type [video/mp4],
    whatever its extension: the file reported by [generate_animation] of
    main.py is served under its own name, also when it is a gif. *)
Theorem X20_get_output_file `{Library} (w : World) (request : AnimationRequest)
    (r : AnimationResponse) (filename : text) :
  (Main.get_output_file w filename = Raise (HTTPException 404 (py "File not found"))
   ↔ path_exists w (path_child (py "outputs") filename) = false)
  ∧ (Main.generate_animation w request = Return r →
     path_name (output_path r) ≠ [] → path_name (output_path r) ≠ py "." →
     Main.get_output_file (with_file w (output_path r)) (path_name (output_path r))
     = Return {| file := output_path r; media_type := py "video/mp4" |}).
Proof.
  split.
  - unfold Main.get_output_file. cbv zeta.
    by destruct (path_exists w (path_child (py "outputs") filename)).
  - intros (out & others & _ & Hpath & Hname)%(proj1 (output_path_of_success w request r))
      Hne Hdot.
    unfold Main.get_output_file, path_child. cbv zeta.
    rewrite !bool_decide_eq_false_2 by done. simpl orb. cbv iota.
    rewrite Hname. change (path_join (py "outputs") (path_name out))
      with (py "outputs/" ++ path_name out). rewrite <- Hpath.
    unfold with_file. simpl path_exists. by rewrite bool_decide_eq_true_2.
Qed.

Lemma X20_get_output_file_witness :
  let L := table_library [] in
  let out := py "/tmp/tmpq1w2e3/media/videos/animation/480p15/animation.gif" in
  let w := quiet_world None (finished 0 []) [out] in
  let request := {| anim_code := foo_scene; quality := py "low"; format := py "gif" |} in
  let r := {| output_path := py "outputs/animation.gif"; duration := S754_zero false |} in
  Main.generate_animation w request = Return r
  ∧ Main.get_output_file (with_file w (py "outputs/animation.gif")) (py "animation.gif")
    = Return {| file := py "outputs/animation.gif"; media_type := py "video/mp4" |}.
Proof.
  intros L out w request r. split; [reflexivity|].
  apply (proj2 (X20_get_output_file (H:=L) w request r [])); [reflexivity | done | done].
Defined.

(** ** The prompt of [update_code] *)

Lemma contains_app_l (sub s pre : text) : contains sub s → contains sub (pre ++ s).
Proof. intros (a & b & ->). exists (pre ++ a), b. by rewrite <- app_assoc. Qed.

Lemma contains_app_r (sub s post : text) : contains sub s → contains sub (s ++ post).
Proof. intros (a & b & ->). exists a, (b ++ post). by rewrite <- !app_assoc. Qed.

Lemma concat_imap_contains (f : nat → text → text) (l : list text) k x :
  l !! k = Some x → contains (f k x) (concat (imap f l)).
Proof.
  revert f k. induction l as [|y l IH]; intros f k; [done|].
  destruct k as [|k]; simpl.
  - intros [= ->]. exists [], (concat (imap (f ∘ S) l)). done.
  - intros Hk. apply contains_app_l, (IH (f ∘ S) k Hk).
Qed.

Lemma prompt_shape (s x1 x2 x3 x4 x5 y1 y2 y3 y4 y5 z : text) :
  ((s ++ x1 ++ x2 ++ x3 ++ x4 ++ x5) ++ y1 ++ y2 ++ y3 ++ y4 ++ y5) ++ z
  = s ++ x1 ++ x2 ++ x3 ++ x4 ++ x5 ++ y1 ++ y2 ++ y3 ++ y4 ++ y5 ++ z.
Proof. by rewrite <- !app_assoc. Qed.

(** X21.  The prompt built by [update_code] treats an empty history like
    none; otherwise it holds every earlier version under the label
    [Previous code version k], counted from 1; and it always ends with the
    current code, the properties as [json.dumps] prints them, and the
    closing instruction. *)
Theorem X21_update_prompt `{Library} (current : text) (props : json)
    (versions : list text) :
  let request h := {| upd_code := current; properties := props; history := h |} in
  Main.update_prompt (request (Some [])) = Main.update_prompt (request None)
  ∧ (∀ k prev, versions !! k = Some prev →
               contains (history_entry k prev) (Main.update_prompt (request (Some versions))))
  ∧ ∃ start,
      Main.update_prompt (request (Some versions))
      = start ++ py "Manim code:" ++ NL ++ current ++ NL ++ NL
        ++ py "Updated properties:" ++ NL ++ json_dumps_indent2 props ++ NL ++ NL
        ++ py "Return only the updated Manim code.".
Proof.
  intros request. split; [reflexivity|]. split.
  - intros k prev Hk. unfold Main.update_prompt. cbv zeta. unfold request at 1.
    simpl history. destruct versions as [|v vs] eqn:Hv; [done|]. rewrite <- Hv in *.
    pose proof (concat_imap_contains (λ idx prev_code, history_entry idx prev_code)
                  versions k prev Hk) as Hc.
    exact (contains_app_r _ _ _ (contains_app_r _ _ _ (contains_app_r _ _ _
             (contains_app_l _ _ _ (contains_app_l _ _ _ (contains_app_l _ _ _ Hc)))))).
  - unfold Main.update_prompt. cbv zeta. unfold request at 1. simpl history.
    destruct versions as [|v vs]; eexists; apply prompt_shape.
Qed.

Lemma X21_update_prompt_witness :
  let L := table_library [] in
  let versions := [py "class A(Scene): ..."; py "class B(Scene): ..."] in
  versions !! 1%nat = Some (py "class B(Scene): ...")
  ∧ contains (py "Previous code version 2:" ++ NL ++ py "class B(Scene): ..." ++ NL ++ NL)
      (Main.update_prompt
         {| upd_code := foo_scene; properties := JDict []; history := Some versions |}).
Proof.
  intros L versions. split; [reflexivity|].
  apply (proj1 (proj2 (X21_update_prompt (H:=L) foo_scene (JDict []) versions))
           1%nat (py "class B(Scene): ...")).
  reflexivity.
Defined.
